(** * ESC sensor telemetry: a shallow embedding of
      [src/main/sensors/esc_sensor.c]

    The C translation unit decodes two ESC telemetry protocols (KISS frames of
    ten bytes protected by a CRC8, and the Hobbywing V4 byte stream), keeps one
    [escSensorData_t] per motor together with a lazily recomputed combined
    reading, and ages the data once per polling cycle.

    Layout of this file: C integer and float conversions; the data model; a
    small state-and-failure monad in which every C function of the unit is
    written, statement by statement; then the properties.  A computation
    yields [None] exactly where the C program has no defined behaviour (an
    array access outside its bounds, a division by zero, a signed overflow,
    an out-of-range float-to-integer conversion). *)

From Stdlib Require Import ZArith Lia List Bool.
From Stdlib Require Import Floats.SpecFloat.
From stdpp Require Import base list.

Local Open Scope Z_scope.

(** ** C integer conversions

    Values of the C integer types are integers of [Z]; a conversion to a
    narrower type is written where the C code performs one.  Conversions to
    signed types wrap (the behaviour gcc defines for the targets of this
    firmware). *)

Definition uint8_t (x : Z) : Z := x mod 256.
Definition uint16_t (x : Z) : Z := x mod 65536.
Definition uint32_t (x : Z) : Z := x mod 4294967296.
Definition int8_t (x : Z) : Z := (x + 128) mod 256 - 128.
Definition int16_t (x : Z) : Z := (x + 32768) mod 65536 - 32768.

Definition INT_MIN : Z := -2147483648.
Definition INT_MAX : Z := 2147483647.

(** Signed arithmetic in [int] (and [int32_t]): a result outside the type is
    undefined. *)
Definition int_checked (x : Z) : option Z :=
  if (INT_MIN <=? x) && (x <=? INT_MAX) then Some x else None.

(** [a / b] on [int]: truncation towards zero, undefined for [b = 0]. *)
Definition int_div (a b : Z) : option Z :=
  if b =? 0 then None else int_checked (Z.quot a b).

(** [a[i]] on an array modelled as a list; [None] outside the bounds. *)
Definition at_index {A : Type} (a : list A) (i : Z) : option A :=
  if i <? 0 then None else a !! Z.to_nat i.

(** [a[i] = v]; [None] outside the bounds. *)
Definition store_at {A : Type} (a : list A) (i : Z) (v : A) : option (list A) :=
  if (0 <=? i) && (i <? Z.of_nat (length a)) then Some (<[Z.to_nat i := v]> a)
  else None.

(** ** Single-precision floats

    [float] is IEEE 754 binary32 (24 bits of precision, exponents below 128),
    with the operations of the standard library's specification of
    floating-point arithmetic, which round to nearest, ties to even. *)

Definition float : Type := spec_float.
Definition float_of_int (z : Z) : float := binary_normalize 24 128 z 0 false.
Definition fadd : float -> float -> float := SFadd 24 128.
Definition fmul : float -> float -> float := SFmul 24 128.
Definition fdiv : float -> float -> float := SFdiv 24 128.

(** The integer part of a finite float (truncation towards zero). *)
Definition float_trunc (f : float) : option Z :=
  match f with
  | S754_zero _ => Some 0
  | S754_finite s m e =>
      let a := if 0 <=? e then Z.pos m * 2 ^ e else Z.pos m / 2 ^ (- e) in
      Some (if s then - a else a)
  | S754_infinity _ | S754_nan => None
  end.

(** Conversion of a float to an integer type with values [lo..hi]: the
    truncated value, undefined when it does not fit. *)
Definition int_of_float (lo hi : Z) (f : float) : option Z :=
  z ← float_trunc f;
  if (lo <=? z) && (z <=? hi) then Some z else None.

(** ** Data model *)

(** [escSensorData_t] is declared in [esc_sensor.h], which is not among the
    sources at hand.  The field list and the field types are the ones
    [escSensorProcess] quotes in its comment: [uint8_t dataAge],
    [int8_t temperature], [int16_t voltage], [int32_t current],
    [int32_t consumption], [int16_t rpm].  Every store into a field below
    converts to that type. *)
Record escSensorData_t : Type := {
  dataAge : Z;
  temperature : Z;
  voltage : Z;
  current : Z;
  consumption : Z;
  rpm : Z
}.

Definition escSensorData_zero : escSensorData_t :=
  {| dataAge := 0; temperature := 0; voltage := 0; current := 0;
     consumption := 0; rpm := 0 |}.

Inductive escTlmFrameState_t : Type :=
  | ESC_SENSOR_FRAME_PENDING
  | ESC_SENSOR_FRAME_COMPLETE
  | ESC_SENSOR_FRAME_FAILED.

Inductive escSensorTriggerState_t : Type :=
  | ESC_SENSOR_TRIGGER_STARTUP
  | ESC_SENSOR_TRIGGER_READY
  | ESC_SENSOR_TRIGGER_PENDING.

(** The value of [escSensorConfig()->escSensorProtocol]: one of the two
    protocol constants the code compares it with, or anything else. *)
Inductive escSensorProtocol_e : Type :=
  | ESC_SENSOR_PROTOCOL_KISS
  | ESC_SENSOR_PROTOCOL_HOBBYWINGV4
  | ESC_SENSOR_PROTOCOL_OTHER.

(** What [getEscSensorData] returns: [NULL], [&escSensorData[i]] or
    [&combinedEscSensorData]. *)
Inductive escSensorDataRef : Type :=
  | RefNull
  | RefMotor (i : Z)
  | RefCombined.

Definition ESC_BOOTTIME : Z := 5000.
Definition ESC_REQUEST_TIMEOUT : Z := 100.
Definition TELEMETRY_FRAME_SIZE : Z := 10.

(** The constants of [esc_sensor.h] and the collaborators outside this
    translation unit (motor layer, feature and configuration store, debug
    channel), as far as the code reads them.

    [DEBUG_SET] is a macro of [build/debug.h]; the global error counters are
    incremented inside its value argument, so whether an increment happens is
    the macro's decision: [debugSetEvaluates] says whether the macro evaluates
    the value argument it is given for [DEBUG_ESC_SENSOR].  The value given
    for [DEBUG_ESC_SENSOR_RPM] is [calcEscRpm(...) / 10], whose division by
    the number of pole pairs has no value when that number is 0:
    [debugSetEvaluatesRpm] says whether the macro evaluates that argument.
    The debug array itself is not modelled. *)
Record platform : Type := {
  ESC_DATA_INVALID : Z;
  ESC_BATTERY_AGE_MAX : Z;
  ESC_SENSOR_COMBINED : Z;
  MAX_SUPPORTED_MOTORS : Z;
  getMotorCount : Z;
  motorIsEnabled : bool;
  featureIsEnabled_ESC_SENSOR : bool;
  escSensorProtocol : escSensorProtocol_e;
  halfDuplex : Z;
  motorPoleCount : Z;
  debugSetEvaluates : bool;
  debugSetEvaluatesRpm : bool
}.

(** The file-scope variables of the translation unit, and the two [static]
    locals of [escSensorProcess] ([lastProcessTimeMs] and [consumption], the
    latter named [consumptionAcc] here).  [buffer] always points to
    [telemetryBuffer] in this unit, so the received bytes are stored
    there; [escSensorPort] records whether the port pointer is non-null. *)
Record globals : Type := {
  telemetryBuffer : list Z;
  bufferSize : Z;
  bufferPosition : Z;
  escSensorPort : bool;
  escSensorData : list escSensorData_t;
  escSensorTriggerState : escSensorTriggerState_t;
  escTriggerTimestamp : Z;
  escSensorMotor : Z;
  combinedEscSensorData : escSensorData_t;
  combinedDataNeedsUpdate : bool;
  totalTimeoutCount : Z;
  totalCrcErrorCount : Z;
  telemetryData : list Z;
  bytesRead : Z;
  skipPackets : Z;
  lastProcessTimeMs : Z;
  consumptionAcc : float
}.

Definition set_dataAge (v : Z) (d : escSensorData_t) : escSensorData_t :=
  {| dataAge := v; temperature := temperature d; voltage := voltage d;
     current := current d; consumption := consumption d; rpm := rpm d |}.

Definition set_temperature (v : Z) (d : escSensorData_t) : escSensorData_t :=
  {| dataAge := dataAge d; temperature := v; voltage := voltage d; current := current d;
     consumption := consumption d; rpm := rpm d |}.

Definition set_voltage (v : Z) (d : escSensorData_t) : escSensorData_t :=
  {| dataAge := dataAge d; temperature := temperature d; voltage := v;
     current := current d; consumption := consumption d; rpm := rpm d |}.

Definition set_current (v : Z) (d : escSensorData_t) : escSensorData_t :=
  {| dataAge := dataAge d; temperature := temperature d; voltage := voltage d;
     current := v; consumption := consumption d; rpm := rpm d |}.

Definition set_consumption (v : Z) (d : escSensorData_t) : escSensorData_t :=
  {| dataAge := dataAge d; temperature := temperature d; voltage := voltage d;
     current := current d; consumption := v; rpm := rpm d |}.

Definition set_rpm (v : Z) (d : escSensorData_t) : escSensorData_t :=
  {| dataAge := dataAge d; temperature := temperature d; voltage := voltage d;
     current := current d; consumption := consumption d; rpm := v |}.

Definition set_telemetryBuffer (v : list Z) (st : globals) : globals :=
  {| telemetryBuffer := v; bufferSize := bufferSize st;
     bufferPosition := bufferPosition st; escSensorPort := escSensorPort st;
     escSensorData := escSensorData st;
     escSensorTriggerState := escSensorTriggerState st;
     escTriggerTimestamp := escTriggerTimestamp st; escSensorMotor := escSensorMotor st;
     combinedEscSensorData := combinedEscSensorData st;
     combinedDataNeedsUpdate := combinedDataNeedsUpdate st;
     totalTimeoutCount := totalTimeoutCount st;
     totalCrcErrorCount := totalCrcErrorCount st; telemetryData := telemetryData st;
     bytesRead := bytesRead st; skipPackets := skipPackets st;
     lastProcessTimeMs := lastProcessTimeMs st; consumptionAcc := consumptionAcc st |}.

Definition set_bufferSize (v : Z) (st : globals) : globals :=
  {| telemetryBuffer := telemetryBuffer st; bufferSize := v;
     bufferPosition := bufferPosition st; escSensorPort := escSensorPort st;
     escSensorData := escSensorData st;
     escSensorTriggerState := escSensorTriggerState st;
     escTriggerTimestamp := escTriggerTimestamp st; escSensorMotor := escSensorMotor st;
     combinedEscSensorData := combinedEscSensorData st;
     combinedDataNeedsUpdate := combinedDataNeedsUpdate st;
     totalTimeoutCount := totalTimeoutCount st;
     totalCrcErrorCount := totalCrcErrorCount st; telemetryData := telemetryData st;
     bytesRead := bytesRead st; skipPackets := skipPackets st;
     lastProcessTimeMs := lastProcessTimeMs st; consumptionAcc := consumptionAcc st |}.

Definition set_bufferPosition (v : Z) (st : globals) : globals :=
  {| telemetryBuffer := telemetryBuffer st; bufferSize := bufferSize st;
     bufferPosition := v; escSensorPort := escSensorPort st;
     escSensorData := escSensorData st;
     escSensorTriggerState := escSensorTriggerState st;
     escTriggerTimestamp := escTriggerTimestamp st; escSensorMotor := escSensorMotor st;
     combinedEscSensorData := combinedEscSensorData st;
     combinedDataNeedsUpdate := combinedDataNeedsUpdate st;
     totalTimeoutCount := totalTimeoutCount st;
     totalCrcErrorCount := totalCrcErrorCount st; telemetryData := telemetryData st;
     bytesRead := bytesRead st; skipPackets := skipPackets st;
     lastProcessTimeMs := lastProcessTimeMs st; consumptionAcc := consumptionAcc st |}.

Definition set_escSensorPort (v : bool) (st : globals) : globals :=
  {| telemetryBuffer := telemetryBuffer st; bufferSize := bufferSize st;
     bufferPosition := bufferPosition st; escSensorPort := v;
     escSensorData := escSensorData st;
     escSensorTriggerState := escSensorTriggerState st;
     escTriggerTimestamp := escTriggerTimestamp st; escSensorMotor := escSensorMotor st;
     combinedEscSensorData := combinedEscSensorData st;
     combinedDataNeedsUpdate := combinedDataNeedsUpdate st;
     totalTimeoutCount := totalTimeoutCount st;
     totalCrcErrorCount := totalCrcErrorCount st; telemetryData := telemetryData st;
     bytesRead := bytesRead st; skipPackets := skipPackets st;
     lastProcessTimeMs := lastProcessTimeMs st; consumptionAcc := consumptionAcc st |}.

Definition set_escSensorData (v : list escSensorData_t) (st : globals) : globals :=
  {| telemetryBuffer := telemetryBuffer st; bufferSize := bufferSize st;
     bufferPosition := bufferPosition st; escSensorPort := escSensorPort st;
     escSensorData := v; escSensorTriggerState := escSensorTriggerState st;
     escTriggerTimestamp := escTriggerTimestamp st; escSensorMotor := escSensorMotor st;
     combinedEscSensorData := combinedEscSensorData st;
     combinedDataNeedsUpdate := combinedDataNeedsUpdate st;
     totalTimeoutCount := totalTimeoutCount st;
     totalCrcErrorCount := totalCrcErrorCount st; telemetryData := telemetryData st;
     bytesRead := bytesRead st; skipPackets := skipPackets st;
     lastProcessTimeMs := lastProcessTimeMs st; consumptionAcc := consumptionAcc st |}.

Definition set_escSensorTriggerState (v : escSensorTriggerState_t) (st : globals) : globals :=
  {| telemetryBuffer := telemetryBuffer st; bufferSize := bufferSize st;
     bufferPosition := bufferPosition st; escSensorPort := escSensorPort st;
     escSensorData := escSensorData st; escSensorTriggerState := v;
     escTriggerTimestamp := escTriggerTimestamp st; escSensorMotor := escSensorMotor st;
     combinedEscSensorData := combinedEscSensorData st;
     combinedDataNeedsUpdate := combinedDataNeedsUpdate st;
     totalTimeoutCount := totalTimeoutCount st;
     totalCrcErrorCount := totalCrcErrorCount st; telemetryData := telemetryData st;
     bytesRead := bytesRead st; skipPackets := skipPackets st;
     lastProcessTimeMs := lastProcessTimeMs st; consumptionAcc := consumptionAcc st |}.

Definition set_escTriggerTimestamp (v : Z) (st : globals) : globals :=
  {| telemetryBuffer := telemetryBuffer st; bufferSize := bufferSize st;
     bufferPosition := bufferPosition st; escSensorPort := escSensorPort st;
     escSensorData := escSensorData st;
     escSensorTriggerState := escSensorTriggerState st; escTriggerTimestamp := v;
     escSensorMotor := escSensorMotor st;
     combinedEscSensorData := combinedEscSensorData st;
     combinedDataNeedsUpdate := combinedDataNeedsUpdate st;
     totalTimeoutCount := totalTimeoutCount st;
     totalCrcErrorCount := totalCrcErrorCount st; telemetryData := telemetryData st;
     bytesRead := bytesRead st; skipPackets := skipPackets st;
     lastProcessTimeMs := lastProcessTimeMs st; consumptionAcc := consumptionAcc st |}.

Definition set_escSensorMotor (v : Z) (st : globals) : globals :=
  {| telemetryBuffer := telemetryBuffer st; bufferSize := bufferSize st;
     bufferPosition := bufferPosition st; escSensorPort := escSensorPort st;
     escSensorData := escSensorData st;
     escSensorTriggerState := escSensorTriggerState st;
     escTriggerTimestamp := escTriggerTimestamp st; escSensorMotor := v;
     combinedEscSensorData := combinedEscSensorData st;
     combinedDataNeedsUpdate := combinedDataNeedsUpdate st;
     totalTimeoutCount := totalTimeoutCount st;
     totalCrcErrorCount := totalCrcErrorCount st; telemetryData := telemetryData st;
     bytesRead := bytesRead st; skipPackets := skipPackets st;
     lastProcessTimeMs := lastProcessTimeMs st; consumptionAcc := consumptionAcc st |}.

Definition set_combinedEscSensorData (v : escSensorData_t) (st : globals) : globals :=
  {| telemetryBuffer := telemetryBuffer st; bufferSize := bufferSize st;
     bufferPosition := bufferPosition st; escSensorPort := escSensorPort st;
     escSensorData := escSensorData st;
     escSensorTriggerState := escSensorTriggerState st;
     escTriggerTimestamp := escTriggerTimestamp st; escSensorMotor := escSensorMotor st;
     combinedEscSensorData := v; combinedDataNeedsUpdate := combinedDataNeedsUpdate st;
     totalTimeoutCount := totalTimeoutCount st;
     totalCrcErrorCount := totalCrcErrorCount st; telemetryData := telemetryData st;
     bytesRead := bytesRead st; skipPackets := skipPackets st;
     lastProcessTimeMs := lastProcessTimeMs st; consumptionAcc := consumptionAcc st |}.

Definition set_combinedDataNeedsUpdate (v : bool) (st : globals) : globals :=
  {| telemetryBuffer := telemetryBuffer st; bufferSize := bufferSize st;
     bufferPosition := bufferPosition st; escSensorPort := escSensorPort st;
     escSensorData := escSensorData st;
     escSensorTriggerState := escSensorTriggerState st;
     escTriggerTimestamp := escTriggerTimestamp st; escSensorMotor := escSensorMotor st;
     combinedEscSensorData := combinedEscSensorData st; combinedDataNeedsUpdate := v;
     totalTimeoutCount := totalTimeoutCount st;
     totalCrcErrorCount := totalCrcErrorCount st; telemetryData := telemetryData st;
     bytesRead := bytesRead st; skipPackets := skipPackets st;
     lastProcessTimeMs := lastProcessTimeMs st; consumptionAcc := consumptionAcc st |}.

Definition set_totalTimeoutCount (v : Z) (st : globals) : globals :=
  {| telemetryBuffer := telemetryBuffer st; bufferSize := bufferSize st;
     bufferPosition := bufferPosition st; escSensorPort := escSensorPort st;
     escSensorData := escSensorData st;
     escSensorTriggerState := escSensorTriggerState st;
     escTriggerTimestamp := escTriggerTimestamp st; escSensorMotor := escSensorMotor st;
     combinedEscSensorData := combinedEscSensorData st;
     combinedDataNeedsUpdate := combinedDataNeedsUpdate st; totalTimeoutCount := v;
     totalCrcErrorCount := totalCrcErrorCount st; telemetryData := telemetryData st;
     bytesRead := bytesRead st; skipPackets := skipPackets st;
     lastProcessTimeMs := lastProcessTimeMs st; consumptionAcc := consumptionAcc st |}.

Definition set_totalCrcErrorCount (v : Z) (st : globals) : globals :=
  {| telemetryBuffer := telemetryBuffer st; bufferSize := bufferSize st;
     bufferPosition := bufferPosition st; escSensorPort := escSensorPort st;
     escSensorData := escSensorData st;
     escSensorTriggerState := escSensorTriggerState st;
     escTriggerTimestamp := escTriggerTimestamp st; escSensorMotor := escSensorMotor st;
     combinedEscSensorData := combinedEscSensorData st;
     combinedDataNeedsUpdate := combinedDataNeedsUpdate st;
     totalTimeoutCount := totalTimeoutCount st; totalCrcErrorCount := v;
     telemetryData := telemetryData st; bytesRead := bytesRead st;
     skipPackets := skipPackets st; lastProcessTimeMs := lastProcessTimeMs st;
     consumptionAcc := consumptionAcc st |}.

Definition set_telemetryData (v : list Z) (st : globals) : globals :=
  {| telemetryBuffer := telemetryBuffer st; bufferSize := bufferSize st;
     bufferPosition := bufferPosition st; escSensorPort := escSensorPort st;
     escSensorData := escSensorData st;
     escSensorTriggerState := escSensorTriggerState st;
     escTriggerTimestamp := escTriggerTimestamp st; escSensorMotor := escSensorMotor st;
     combinedEscSensorData := combinedEscSensorData st;
     combinedDataNeedsUpdate := combinedDataNeedsUpdate st;
     totalTimeoutCount := totalTimeoutCount st;
     totalCrcErrorCount := totalCrcErrorCount st; telemetryData := v;
     bytesRead := bytesRead st; skipPackets := skipPackets st;
     lastProcessTimeMs := lastProcessTimeMs st; consumptionAcc := consumptionAcc st |}.

Definition set_bytesRead (v : Z) (st : globals) : globals :=
  {| telemetryBuffer := telemetryBuffer st; bufferSize := bufferSize st;
     bufferPosition := bufferPosition st; escSensorPort := escSensorPort st;
     escSensorData := escSensorData st;
     escSensorTriggerState := escSensorTriggerState st;
     escTriggerTimestamp := escTriggerTimestamp st; escSensorMotor := escSensorMotor st;
     combinedEscSensorData := combinedEscSensorData st;
     combinedDataNeedsUpdate := combinedDataNeedsUpdate st;
     totalTimeoutCount := totalTimeoutCount st;
     totalCrcErrorCount := totalCrcErrorCount st; telemetryData := telemetryData st;
     bytesRead := v; skipPackets := skipPackets st;
     lastProcessTimeMs := lastProcessTimeMs st; consumptionAcc := consumptionAcc st |}.

Definition set_skipPackets (v : Z) (st : globals) : globals :=
  {| telemetryBuffer := telemetryBuffer st; bufferSize := bufferSize st;
     bufferPosition := bufferPosition st; escSensorPort := escSensorPort st;
     escSensorData := escSensorData st;
     escSensorTriggerState := escSensorTriggerState st;
     escTriggerTimestamp := escTriggerTimestamp st; escSensorMotor := escSensorMotor st;
     combinedEscSensorData := combinedEscSensorData st;
     combinedDataNeedsUpdate := combinedDataNeedsUpdate st;
     totalTimeoutCount := totalTimeoutCount st;
     totalCrcErrorCount := totalCrcErrorCount st; telemetryData := telemetryData st;
     bytesRead := bytesRead st; skipPackets := v;
     lastProcessTimeMs := lastProcessTimeMs st; consumptionAcc := consumptionAcc st |}.

Definition set_lastProcessTimeMs (v : Z) (st : globals) : globals :=
  {| telemetryBuffer := telemetryBuffer st; bufferSize := bufferSize st;
     bufferPosition := bufferPosition st; escSensorPort := escSensorPort st;
     escSensorData := escSensorData st;
     escSensorTriggerState := escSensorTriggerState st;
     escTriggerTimestamp := escTriggerTimestamp st; escSensorMotor := escSensorMotor st;
     combinedEscSensorData := combinedEscSensorData st;
     combinedDataNeedsUpdate := combinedDataNeedsUpdate st;
     totalTimeoutCount := totalTimeoutCount st;
     totalCrcErrorCount := totalCrcErrorCount st; telemetryData := telemetryData st;
     bytesRead := bytesRead st; skipPackets := skipPackets st; lastProcessTimeMs := v;
     consumptionAcc := consumptionAcc st |}.

Definition set_consumptionAcc (v : float) (st : globals) : globals :=
  {| telemetryBuffer := telemetryBuffer st; bufferSize := bufferSize st;
     bufferPosition := bufferPosition st; escSensorPort := escSensorPort st;
     escSensorData := escSensorData st;
     escSensorTriggerState := escSensorTriggerState st;
     escTriggerTimestamp := escTriggerTimestamp st; escSensorMotor := escSensorMotor st;
     combinedEscSensorData := combinedEscSensorData st;
     combinedDataNeedsUpdate := combinedDataNeedsUpdate st;
     totalTimeoutCount := totalTimeoutCount st;
     totalCrcErrorCount := totalCrcErrorCount st; telemetryData := telemetryData st;
     bytesRead := bytesRead st; skipPackets := skipPackets st;
     lastProcessTimeMs := lastProcessTimeMs st; consumptionAcc := v |}.

(** The variables as the C start-up code initialises them. *)
Definition globals_init (p : platform) : globals :=
  {| telemetryBuffer := replicate 10 0;
     bufferSize := 0;
     bufferPosition := 0;
     escSensorPort := false;
     escSensorData :=
       replicate (Z.to_nat (MAX_SUPPORTED_MOTORS p)) escSensorData_zero;
     escSensorTriggerState := ESC_SENSOR_TRIGGER_STARTUP;
     escTriggerTimestamp := 0;
     escSensorMotor := 0;
     combinedEscSensorData := escSensorData_zero;
     combinedDataNeedsUpdate := true;
     totalTimeoutCount := 0;
     totalCrcErrorCount := 0;
     telemetryData := replicate 18 0;
     bytesRead := 0;
     skipPackets := 0;
     lastProcessTimeMs := 0;
     consumptionAcc := float_of_int 0 |}.

(** ** The monad of the C functions: state passing over [globals], with
    failure for undefined behaviour. *)

Definition M (A : Type) : Type := globals -> option (A * globals).

#[global] Instance M_ret : MRet M := fun A a st => Some (a, st).
#[global] Instance M_bind : MBind M := fun A B k m st =>
  match m st with
  | Some (a, st') => k a st'
  | None => None
  end.

Definition get {A : Type} (f : globals -> A) : M A := fun st => Some (f st, st).
Definition modify (f : globals -> globals) : M unit := fun st => Some (tt, f st).
Definition defined {A : Type} (o : option A) : M A := fun st =>
  match o with
  | Some a => Some (a, st)
  | None => None
  end.

(** [for (int i = i0; i < i0 + n; i++) body(i)] *)
Fixpoint for_range (n : nat) (i : Z) (body : Z -> M unit) : M unit :=
  match n with
  | O => mret tt
  | S n' => body i;; for_range n' (i + 1) body
  end.

(** [escSensorData[i]] read, and [escSensorData[i] = f(escSensorData[i])]. *)
Definition motorData (i : Z) : M escSensorData_t := fun st =>
  defined (at_index (escSensorData st) i) st.

Definition motorUpdate (i : Z) (f : escSensorData_t -> escSensorData_t) : M unit :=
  d ← motorData i;
  a ← get escSensorData;
  a' ← defined (store_at a i (f d));
  modify (set_escSensorData a').

Definition combinedUpdate (f : escSensorData_t -> escSensorData_t) : M unit :=
  modify (fun st => set_combinedEscSensorData (f (combinedEscSensorData st)) st).

(** ** CRC8 *)

(** One round of the loop body of [updateCrc8]:
    [crc_u = (crc_u & 0x80) ? 0x7 ^ (crc_u << 1) : (crc_u << 1)]. *)
Definition updateCrc8_round (crc_u : Z) : Z :=
  uint8_t (if Z.land crc_u 0x80 =? 0 then Z.shiftl crc_u 1
           else Z.lxor 0x7 (Z.shiftl crc_u 1)).

Definition updateCrc8 (crc crc_seed : Z) : Z :=
  let crc_u := crc in
  let crc_u := uint8_t (Z.lxor crc_u crc_seed) in
  Nat.iter 8 updateCrc8_round crc_u.

Fixpoint calculateCrc8_loop (Buf : list Z) (n : nat) (i crc : Z) : option Z :=
  match n with
  | O => Some crc
  | S n' =>
      b ← at_index Buf i;
      calculateCrc8_loop Buf n' (i + 1) (updateCrc8 b crc)
  end.

Definition calculateCrc8 (Buf : list Z) (BufLen : Z) : option Z :=
  calculateCrc8_loop Buf (Z.to_nat BufLen) 0 0.

(** The checksum as the specification words it: seed 0; for each byte, XOR
    it into the running value, then eight rounds of: if the high bit is set,
    [(value << 1) XOR 0x07], else [value << 1], each round truncated to eight
    bits. *)
Definition crc8_spec_round (value : Z) : Z :=
  (if Z.testbit value 7 then Z.lxor (Z.shiftl value 1) 0x07
   else Z.shiftl value 1) mod 2 ^ 8.

Definition crc8_spec_byte (value byte : Z) : Z :=
  Nat.iter 8 crc8_spec_round (Z.lxor value byte).

Definition crc8_spec (bytes : list Z) : Z := fold_left crc8_spec_byte bytes 0.

(** ** Hobbywing V4 calibration *)

Definition tempFunc : list (Z * Z) :=
  [ (0, 1); (14, 2); (28, 3); (58, 5); (106, 8); (158, 11); (234, 15);
    (296, 18); (362, 21); (408, 23); (505, 27); (583, 30); (664, 33);
    (720, 35); (807, 38); (897, 41); (1021, 45); (1150, 49); (1315, 54);
    (1855, 70); (1978, 74); (2239, 82); (2387, 87); (2472, 90); (2656, 97);
    (2705, 99) ].

(** [while (i < 26 && tempRaw >= tempFunc[i][0]) i++;] with [i] a [uint8_t].
    The result is the value of [i] when the loop is left; [None] if the fuel
    runs out or [tempFunc] is read outside its 26 rows. *)
Fixpoint calcTempHW_loop (fuel : nat) (i tempRaw : Z) : option Z :=
  match fuel with
  | O => None
  | S fuel' =>
      if i <? 26 then
        row ← at_index tempFunc i;
        if tempRaw >=? row.1 then calcTempHW_loop fuel' (uint8_t (i + 1)) tempRaw
        else Some i
      else Some i
  end.

Definition calcTempHW (tempRaw : Z) : option float :=
  if tempRaw >? 3828 then Some (float_of_int 0)
  else if tempRaw <? 1123 then Some (float_of_int 100)
  else
    let tempRaw := uint16_t (3828 - tempRaw) in
    i ← calcTempHW_loop 27 0 tempRaw;
    lo ← at_index tempFunc (i - 1);
    hi ← at_index tempFunc i;
    Some (fadd (float_of_int lo.2)
               (fdiv (fmul (float_of_int (hi.2 - lo.2))
                           (float_of_int (tempRaw - lo.1)))
                     (float_of_int (hi.1 - lo.1)))).

Definition calcCurrHW (currentRaw : Z) : float :=
  if currentRaw >? 28 then fdiv (float_of_int (currentRaw - 28)) (float_of_int 610)
  else float_of_int 0.

(** ** The functions of the translation unit *)

Section EscSensor.
Context (p : platform).

Definition startEscDataRead (frameLength : Z) : M unit :=
  modify (set_bufferPosition 0);;
  modify (set_bufferSize (uint8_t frameLength)).

Definition getNumberEscBytesRead : M Z := get bufferPosition.

Definition isFrameComplete : M bool :=
  get (fun st => bufferPosition st =? bufferSize st).

Definition isEscSensorActive : M bool := get escSensorPort.

Definition isEscSensorValid (motorNumber : Z) : M bool :=
  port ← get escSensorPort;
  if negb port then mret false
  else
    match escSensorProtocol p with
    | ESC_SENSOR_PROTOCOL_KISS =>
        if motorNumber <? getMotorCount p then
          d ← motorData motorNumber;
          mret (dataAge d <=? ESC_BATTERY_AGE_MAX p)
        else if motorNumber =? ESC_SENSOR_COMBINED p then
          c ← get combinedEscSensorData;
          mret (dataAge c <=? ESC_BATTERY_AGE_MAX p)
        else mret false
    | ESC_SENSOR_PROTOCOL_HOBBYWINGV4 =>
        let decide (thisDataAge thisRPM : Z) : bool :=
          if (thisRPM >? 0) && (thisDataAge <? 11) then true
          else if (thisRPM =? 0) && (thisDataAge <? 100) then true
          else false in
        if motorNumber <? getMotorCount p then
          d ← motorData motorNumber;
          mret (decide (uint8_t (dataAge d)) (uint16_t (rpm d)))
        else if motorNumber =? ESC_SENSOR_COMBINED p then
          c ← get combinedEscSensorData;
          mret (decide (uint8_t (dataAge c)) (uint16_t (rpm c)))
        else mret false
    | ESC_SENSOR_PROTOCOL_OTHER => mret false
    end.

(** The result has type [uint16_t]; the field it is read from is an
    [int16_t]. *)
Definition getEscSensorRPM (motorNumber : Z) : M Z :=
  if motorNumber <? getMotorCount p then
    d ← motorData motorNumber;
    mret (uint16_t (rpm d))
  else mret 0.

(** The recomputation of [combinedEscSensorData] inside [getEscSensorData]:
    the body of its loop, the two divisions after the loop, and the whole
    block guarded by [combinedDataNeedsUpdate]. *)
Definition combineMotor (i : Z) : M unit :=
  d ← motorData i;
  c ← get combinedEscSensorData;
  current' ← defined (int_checked (current c + current d));
  consumption' ← defined (int_checked (consumption c + consumption d));
  combinedUpdate (fun _ =>
    {| dataAge := Z.max (dataAge c) (dataAge d);
       temperature := Z.max (temperature c) (temperature d);
       voltage := int16_t (voltage c + voltage d);
       current := current';
       consumption := consumption';
       rpm := int16_t (rpm c + rpm d) |}).

Definition combineAverage : M unit :=
  c ← get combinedEscSensorData;
  voltage' ← defined (int_div (voltage c) (getMotorCount p));
  combinedUpdate (set_voltage (int16_t voltage'));;
  c ← get combinedEscSensorData;
  rpm' ← defined (int_div (rpm c) (getMotorCount p));
  combinedUpdate (set_rpm (int16_t rpm')).

Definition combineAll : M unit :=
  combinedUpdate (fun _ => escSensorData_zero);;
  for_range (Z.to_nat (getMotorCount p)) 0 combineMotor;;
  combineAverage;;
  modify (set_combinedDataNeedsUpdate false).

Definition getEscSensorData (motorNumber : Z) : M escSensorDataRef :=
  if negb (featureIsEnabled_ESC_SENSOR p) then mret RefNull
  else
    match escSensorProtocol p with
    | ESC_SENSOR_PROTOCOL_KISS =>
        if motorNumber <? getMotorCount p then mret (RefMotor motorNumber)
        else if motorNumber =? ESC_SENSOR_COMBINED p then
          needsUpdate ← get combinedDataNeedsUpdate;
          (if (needsUpdate : bool) then combineAll else mret tt);;
          mret RefCombined
        else mret RefNull
    | ESC_SENSOR_PROTOCOL_HOBBYWINGV4 =>
        if motorNumber <? getMotorCount p then mret (RefMotor 0)
        else if motorNumber =? ESC_SENSOR_COMBINED p then mret (RefMotor 0)
        else mret RefNull
    | ESC_SENSOR_PROTOCOL_OTHER => mret RefNull
    end.

(** What a caller reads through the pointer [getEscSensorData] returned. *)
Definition deref (r : escSensorDataRef) : M escSensorData_t :=
  match r with
  | RefNull => defined None
  | RefMotor i => motorData i
  | RefCombined => get combinedEscSensorData
  end.

(** The receive callback: [buffer[bufferPosition++] = (uint8_t)c] unless
    the frame is complete. *)
Definition escSensorDataReceive (c : Z) : M unit :=
  complete ← isFrameComplete;
  if (complete : bool) then mret tt
  else
    pos ← get bufferPosition;
    buf ← get telemetryBuffer;
    buf' ← defined (store_at buf pos (uint8_t c));
    modify (set_telemetryBuffer buf');;
    modify (set_bufferPosition (uint8_t (pos + 1))).

(** [escSensorInit]: [portConfig] says whether [findSerialPortConfig] found
    a port, [opened] whether [openSerialPort] returned one. *)
Definition escSensorInit (portConfig opened : bool) : M bool :=
  if negb portConfig then mret false
  else
    match escSensorProtocol p with
    | ESC_SENSOR_PROTOCOL_KISS =>
        modify (set_escSensorPort opened);;
        for_range (Z.to_nat (MAX_SUPPORTED_MOTORS p)) 0 (fun i =>
          motorUpdate i (set_dataAge (uint8_t (ESC_DATA_INVALID p))))
    | ESC_SENSOR_PROTOCOL_HOBBYWINGV4 =>
        modify (set_escSensorPort opened);;
        motorUpdate 0 (set_dataAge (uint8_t (ESC_DATA_INVALID p)))
    | ESC_SENSOR_PROTOCOL_OTHER => mret tt
    end;;
    get escSensorPort.

(** [calcEscRpm]: [(erpm * 100) / (motorConfig()->motorPoleCount / 2)] in
    [int]. *)
Definition calcEscRpm (erpm : Z) : option Z :=
  scaled ← int_checked (erpm * 100);
  polePairs ← int_div (motorPoleCount p) 2;
  int_div scaled polePairs.

(** The debug output that follows a stored reading:
    [if (escSensorMotor < 4) { DEBUG_SET(DEBUG_ESC_SENSOR_RPM, escSensorMotor,
    calcEscRpm(escSensorData[escSensorMotor].rpm) / 10);
    DEBUG_SET(DEBUG_ESC_SENSOR_TMP, escSensorMotor, ...temperature); }].
    The first value is computed where the macro evaluates it; the second
    is a read of the entry just stored and has no effect. *)
Definition debugEscSensorRpm : M unit :=
  m ← get escSensorMotor;
  if m <? 4 then
    if debugSetEvaluatesRpm p then
      d ← motorData m;
      erpm ← defined (calcEscRpm (rpm d));
      defined (int_div erpm 10);;
      mret tt
    else mret tt
  else mret tt.

Definition decodeEscFrame : M escTlmFrameState_t :=
  complete ← isFrameComplete;
  if negb complete then mret ESC_SENSOR_FRAME_PENDING
  else
    buf ← get telemetryBuffer;
    chksum ← defined (calculateCrc8 buf (TELEMETRY_FRAME_SIZE - 1));
    tlmsum ← defined (at_index buf (TELEMETRY_FRAME_SIZE - 1));
    if chksum =? tlmsum then
      b0 ← defined (at_index buf 0);
      b1 ← defined (at_index buf 1);
      b2 ← defined (at_index buf 2);
      b3 ← defined (at_index buf 3);
      b4 ← defined (at_index buf 4);
      b5 ← defined (at_index buf 5);
      b6 ← defined (at_index buf 6);
      b7 ← defined (at_index buf 7);
      b8 ← defined (at_index buf 8);
      m ← get escSensorMotor;
      motorUpdate m (fun _ =>
        {| dataAge := 0;
           temperature := int8_t b0;
           voltage := int16_t (Z.lor (Z.shiftl b1 8) b2);
           current := Z.lor (Z.shiftl b3 8) b4;
           consumption := Z.lor (Z.shiftl b5 8) b6;
           rpm := int16_t (Z.lor (Z.shiftl b7 8) b8) |});;
      modify (set_combinedDataNeedsUpdate true);;
      debugEscSensorRpm;;
      mret ESC_SENSOR_FRAME_COMPLETE
    else mret ESC_SENSOR_FRAME_FAILED.

Definition increaseDataAge : M unit :=
  m ← get escSensorMotor;
  d ← motorData m;
  if dataAge d <? ESC_DATA_INVALID p then
    motorUpdate m (set_dataAge (uint8_t (dataAge d + 1)));;
    modify (set_combinedDataNeedsUpdate true)
  else mret tt.

Definition selectNextMotor : M unit :=
  m ← get escSensorMotor;
  modify (set_escSensorMotor (uint8_t (m + 1)));;
  m ← get escSensorMotor;
  if m =? getMotorCount p then modify (set_escSensorMotor 0) else mret tt.

Definition processHWv4TelemetryStream (dataByte : Z) : M bool :=
  skip ← get skipPackets;
  read ← get bytesRead;
  if skip >? 0 then
    modify (set_skipPackets (uint8_t (skip - 1)));;
    mret false
  else if (read =? 0) && (dataByte =? 0x9B) then
    modify (set_bytesRead 1);;
    mret false
  else if (read =? 1) && (dataByte =? 0x9B) then
    modify (set_bytesRead 0);;
    modify (set_skipPackets 11);;
    mret false
  else if read >? 0 then
    td ← get telemetryData;
    td' ← defined (store_at td (read - 1) dataByte);
    modify (set_telemetryData td');;
    modify (set_bytesRead (uint8_t (read + 1)));;
    read ← get bytesRead;
    if read =? 19 then
      modify (set_bytesRead 0);;
      mret true
    else mret false
  else mret false.

(** [++counter] in the value argument of [DEBUG_SET]. *)
Definition debugCount (counter : globals -> Z) (set : Z -> globals -> globals)
  : M unit :=
  if debugSetEvaluates p then
    modify (fun st => set (uint16_t (counter st + 1)) st)
  else mret tt.

(** *** [escSensorProcess] *)

(** The [switch] on [escSensorTriggerState] of the KISS branch.  The
    telemetry request handed to the motor layer in the READY state is
    outside this unit. *)
Definition escSensorProcess_KISS (currentTimeMs : Z) : M unit :=
  trigger ← get escSensorTriggerState;
  match trigger with
  | ESC_SENSOR_TRIGGER_STARTUP =>
      if currentTimeMs >=? ESC_BOOTTIME then
        modify (set_escSensorTriggerState ESC_SENSOR_TRIGGER_READY)
      else mret tt
  | ESC_SENSOR_TRIGGER_READY =>
      modify (set_escTriggerTimestamp currentTimeMs);;
      startEscDataRead TELEMETRY_FRAME_SIZE;;
      modify (set_escSensorTriggerState ESC_SENSOR_TRIGGER_PENDING)
  | ESC_SENSOR_TRIGGER_PENDING =>
      timestamp ← get escTriggerTimestamp;
      if currentTimeMs <? uint32_t (timestamp + ESC_REQUEST_TIMEOUT) then
        state ← decodeEscFrame;
        match state with
        | ESC_SENSOR_FRAME_COMPLETE =>
            selectNextMotor;;
            modify (set_escSensorTriggerState ESC_SENSOR_TRIGGER_READY)
        | ESC_SENSOR_FRAME_FAILED =>
            increaseDataAge;;
            selectNextMotor;;
            modify (set_escSensorTriggerState ESC_SENSOR_TRIGGER_READY);;
            debugCount totalCrcErrorCount set_totalCrcErrorCount
        | ESC_SENSOR_FRAME_PENDING => mret tt
        end
      else
        increaseDataAge;;
        selectNextMotor;;
        modify (set_escSensorTriggerState ESC_SENSOR_TRIGGER_READY);;
        debugCount totalTimeoutCount set_totalTimeoutCount
  end.

(** The block run for a packet [processHWv4TelemetryStream] reports ready:
    the fields are computed in [float] and converted on the store. *)
Definition escSensorProcess_HWpacket : M unit :=
  td ← get telemetryData;
  t7 ← defined (at_index td 7);
  t8 ← defined (at_index td 8);
  t9 ← defined (at_index td 9);
  t10 ← defined (at_index td 10);
  t11 ← defined (at_index td 11);
  t12 ← defined (at_index td 12);
  t13 ← defined (at_index td 13);
  t14 ← defined (at_index td 14);
  t15 ← defined (at_index td 15);
  let rpm_f :=
    float_of_int
      (uint32_t (Z.lor (Z.lor (Z.shiftl t7 16) (Z.shiftl t8 8)) t9)) in
  let voltage_f :=
    fdiv (float_of_int (Z.lor (Z.shiftl t10 8) t11)) (float_of_int 113) in
  let current_f := calcCurrHW (uint16_t (Z.lor (Z.shiftl t12 8) t13)) in
  tempFET ← defined (calcTempHW (uint16_t (Z.lor (Z.shiftl t14 8) t15)));
  m ← get escSensorMotor;
  temperature' ← defined (int_of_float (-128) 127 tempFET);
  voltage' ←
    defined (int_of_float (-32768) 32767 (fmul voltage_f (float_of_int 100)));
  current' ←
    defined (int_of_float INT_MIN INT_MAX (fmul current_f (float_of_int 100)));
  rpm' ←
    defined (int_of_float (-32768) 32767 (fdiv rpm_f (float_of_int 100)));
  motorUpdate m (fun d =>
    {| dataAge := 0;
       temperature := temperature';
       voltage := voltage';
       current := current';
       consumption := consumption d;
       rpm := rpm' |});;
  debugEscSensorRpm.

(** [while (serialRxBytesWaiting(escSensorPort)) ...] over the bytes [rx]
    that wait in the receive buffer of the port. *)
Fixpoint escSensorProcess_HWdrain (rx : list Z) : M unit :=
  match rx with
  | [] => mret tt
  | dataByte :: rx' =>
      ready ← processHWv4TelemetryStream dataByte;
      (if (ready : bool) then
         escSensorProcess_HWpacket;;
         debugCount totalCrcErrorCount set_totalCrcErrorCount
       else mret tt);;
      debugCount totalTimeoutCount set_totalTimeoutCount;;
      escSensorProcess_HWdrain rx'
  end.

Definition escSensorProcess_HW (currentTimeMs : Z) (rx : list Z) : M unit :=
  modify (set_escSensorMotor 0);;
  m ← get escSensorMotor;
  d ← motorData m;
  motorUpdate m (set_dataAge (uint8_t (dataAge d + 1)));;
  escSensorProcess_HWdrain rx;;
  d ← motorData m;
  acc ← get consumptionAcc;
  last ← get lastProcessTimeMs;
  let acc' :=
    fadd acc
      (fdiv (fmul (fmul (float_of_int (uint32_t (currentTimeMs - last)))
                        (float_of_int (current d)))
                  (float_of_int 10))
            (fmul (float_of_int 1000) (float_of_int 3600))) in
  modify (set_consumptionAcc acc');;
  consumption' ← defined (int_of_float INT_MIN INT_MAX acc');
  motorUpdate m (set_consumption consumption');;
  modify (set_lastProcessTimeMs currentTimeMs).

(** The body of the closing loop over the motors: zero the data of a motor
    that is not valid, and the combined data with it. *)
Definition zeroData (d : escSensorData_t) : escSensorData_t :=
  set_rpm 0 (set_consumption 0 (set_current 0 (set_voltage 0 d))).

Definition escSensorProcess_zeroInvalid (i : Z) : M unit :=
  valid ← isEscSensorValid (uint8_t i);
  if negb valid then
    motorUpdate i zeroData;;
    combinedUpdate zeroData
  else mret tt.

(** [escSensorProcess(currentTimeUs)], with [rx] the bytes waiting on the
    serial port during the call ([timeUs_t] and [timeMs_t] are 32 bits
    wide). *)
Definition escSensorProcess (currentTimeUs : Z) (rx : list Z) : M unit :=
  let currentTimeMs := uint32_t (currentTimeUs / 1000) in
  port ← get escSensorPort;
  if negb port || negb (motorIsEnabled p) then mret tt
  else
    match escSensorProtocol p with
    | ESC_SENSOR_PROTOCOL_KISS => escSensorProcess_KISS currentTimeMs
    | ESC_SENSOR_PROTOCOL_HOBBYWINGV4 => escSensorProcess_HW currentTimeMs rx
    | ESC_SENSOR_PROTOCOL_OTHER => mret tt
    end;;
    for_range (Z.to_nat (getMotorCount p)) 0 escSensorProcess_zeroInvalid.

End EscSensor.

(** ** Example configurations, frames and states

    The examples fix the header constants to 255 (invalid age, combined
    index), 10 (maximum battery age) and 8 (supported motors), and build
    their states by running the functions above from the start-up state. *)

Definition example_KISS : platform :=
  {| ESC_DATA_INVALID := 255;
     ESC_BATTERY_AGE_MAX := 10;
     ESC_SENSOR_COMBINED := 255;
     MAX_SUPPORTED_MOTORS := 8;
     getMotorCount := 2;
     motorIsEnabled := true;
     featureIsEnabled_ESC_SENSOR := true;
     escSensorProtocol := ESC_SENSOR_PROTOCOL_KISS;
     halfDuplex := 0;
     motorPoleCount := 14;
     debugSetEvaluates := true;
     debugSetEvaluatesRpm := true |}.

(** [example_KISS] with a motor of a single pole: no pole pair. *)
Definition example_KISS_one_pole : platform :=
  {| ESC_DATA_INVALID := 255;
     ESC_BATTERY_AGE_MAX := 10;
     ESC_SENSOR_COMBINED := 255;
     MAX_SUPPORTED_MOTORS := 8;
     getMotorCount := 2;
     motorIsEnabled := true;
     featureIsEnabled_ESC_SENSOR := true;
     escSensorProtocol := ESC_SENSOR_PROTOCOL_KISS;
     halfDuplex := 0;
     motorPoleCount := 1;
     debugSetEvaluates := true;
     debugSetEvaluatesRpm := true |}.

Definition example_HW : platform :=
  {| ESC_DATA_INVALID := 255;
     ESC_BATTERY_AGE_MAX := 10;
     ESC_SENSOR_COMBINED := 255;
     MAX_SUPPORTED_MOTORS := 8;
     getMotorCount := 1;
     motorIsEnabled := true;
     featureIsEnabled_ESC_SENSOR := true;
     escSensorProtocol := ESC_SENSOR_PROTOCOL_HOBBYWINGV4;
     halfDuplex := 0;
     motorPoleCount := 14;
     debugSetEvaluates := true;
     debugSetEvaluatesRpm := true |}.

(** 25 degrees, 16.00 V, 1.00 A, 5 mAh, 1000 (x100 erpm), with its CRC. *)
Definition frame_nominal : list Z := [25; 6; 64; 0; 100; 0; 5; 3; 232; 88].
(** The same frame with a wrong last byte. *)
Definition frame_corrupt : list Z := [25; 6; 64; 0; 100; 0; 5; 3; 232; 89].
(** Byte 0 is 200, bytes 1-2 are 0x8000, bytes 7-8 are 0xFFFF, with its CRC. *)
Definition frame_high : list Z := [200; 128; 0; 0; 100; 0; 5; 255; 255; 151].

(** The state a computation ends in (the start state if it is undefined). *)
Definition state_after {A : Type} (m : M A) (st : globals) : globals :=
  match m st with
  | Some (_, st') => st'
  | None => st
  end.

(** The receive callback called once per byte. *)
Fixpoint receiveAll (bytes : list Z) : M unit :=
  match bytes with
  | [] => mret tt
  | c :: bytes' => escSensorDataReceive c;; receiveAll bytes'
  end.

(** KISS: initialisation, the start-up wait, the telemetry request for motor
    0, and the ten bytes of [frame] received. *)
Definition kiss_frame_received (frame : list Z) : globals :=
  state_after
    (escSensorInit example_KISS true true;;
     escSensorProcess example_KISS 5000000 [];;
     escSensorProcess example_KISS 5010000 [];;
     receiveAll frame)
    (globals_init example_KISS).

(** ... then the polling cycle that decodes the frame ... *)
Definition kiss_frame_decoded (frame : list Z) : globals :=
  state_after (escSensorProcess example_KISS 5020000 [])
              (kiss_frame_received frame).

(** ... then a read of the combined data ... *)
Definition kiss_combined_read (frame : list Z) : globals :=
  state_after (getEscSensorData example_KISS (ESC_SENSOR_COMBINED example_KISS))
              (kiss_frame_decoded frame).


(** Hobbywing: the state right after initialisation. *)
Definition hw_initialised : globals :=
  state_after (escSensorInit example_HW true true) (globals_init example_HW).

(** ** Notions used in the statements *)

Definition is_byte (b : Z) : Prop := 0 <= b < 256.

(** The motor index [selectNextMotor] moves to from [m]. *)
Definition nextMotor (p : platform) (m : Z) : Z :=
  if uint8_t (m + 1) =? getMotorCount p then 0 else uint8_t (m + 1).

(** A computation that leaves the observation [f] of the state as it was. *)
Definition preserves {A B : Type} (f : globals -> B) (m : M A) : Prop :=
  forall st a st', m st = Some (a, st') -> f st' = f st.

(** The bytes [bytes] fed to the Hobbywing parser one by one; the results of
    the calls in order. *)
Fixpoint feedHWv4 (bytes : list Z) : M (list bool) :=
  match bytes with
  | [] => mret []
  | dataByte :: bytes' =>
      ready ← processHWv4TelemetryStream dataByte;
      rest ← feedHWv4 bytes';
      mret (ready :: rest)
  end.

(** The invariant of the Hobbywing parser state: the skip counter is not
    negative, and while bytes are being skipped no packet is open. *)
Definition parser_invariant (st : globals) : Prop :=
  0 <= skipPackets st /\ (skipPackets st = 0 \/ bytesRead st = 0).


(** The state with the frame buffer contents and fill position replaced. *)
Definition with_buffer (buf : list Z) (pos : Z) (st : globals) : globals :=
  set_bufferPosition pos (set_telemetryBuffer buf st).

(** The test of [decodeEscFrame] on a ten-byte buffer: the CRC8 of bytes
    0..8 equals byte 9. *)
Definition frame_valid (frame : list Z) : Prop :=
  exists crc, calculateCrc8 frame 9 = Some crc /\ at_index frame 9 = Some crc.

(** The decision [isEscSensorValid] takes on the reading [d] of a motor
    below the motor count while the port is open. *)
Definition entry_valid (p : platform) (d : escSensorData_t) : bool :=
  match escSensorProtocol p with
  | ESC_SENSOR_PROTOCOL_KISS => dataAge d <=? ESC_BATTERY_AGE_MAX p
  | ESC_SENSOR_PROTOCOL_HOBBYWINGV4 =>
      if (uint16_t (rpm d) >? 0) && (uint8_t (dataAge d) <? 11) then true
      else if (uint16_t (rpm d) =? 0) && (uint8_t (dataAge d) <? 100) then true
      else false
  | ESC_SENSOR_PROTOCOL_OTHER => false
  end.

(** What the closing loop of [escSensorProcess] makes of one reading. *)
Definition zeroed_if_invalid (p : platform) (d : escSensorData_t)
  : escSensorData_t :=
  if entry_valid p d then d else zeroData d.

(** Every motor's age lies within [0 .. ESC_DATA_INVALID]. *)
Definition ages_within (p : platform) (st : globals) : Prop :=
  Forall (fun d => 0 <= dataAge d <= ESC_DATA_INVALID p) (escSensorData st).

(** [r x y] for every two neighbours [x], [y] of a list. *)
Fixpoint chainb {A : Type} (r : A -> A -> bool) (l : list A) : bool :=
  match l with
  | x :: ((y :: _) as l') => r x y && chainb r l'
  | _ => true
  end.

(** The results of [calcTempHW] on the raw values
    [first .. first + count - 1]. *)
Definition calcTempHW_results (first : Z) (count : nat) : list (option float) :=
  map (fun k => calcTempHW (first + Z.of_nat k)) (seq 0 count).

(** Both results are defined, positive and finite, and [y <= x <= 100]. *)
Definition temperature_geb (x y : option float) : bool :=
  match x, y with
  | Some (S754_finite false mx ex), Some (S754_finite false my ey) =>
      SFleb (S754_finite false my ey) (S754_finite false mx ex)
      && SFleb (S754_finite false mx ex) (float_of_int 100)
  | _, _ => false
  end.

(** The big-endian fields of a Hobbywing packet: the 16-bit field and the
    24-bit field that start at byte [i] of [telemetryData]. *)
Definition hw_field16 (td : list Z) (i : nat) : Z :=
  nth i td 0 * 256 + nth (i + 1) td 0.

Definition hw_field24 (td : list Z) (i : nat) : Z :=
  nth i td 0 * 65536 + nth (i + 1) td 0 * 256 + nth (i + 2) td 0.

(** [P i], [P (i + 1)], ... for [count] consecutive integers. *)
Fixpoint all_from (count : nat) (i : Z) (P : Z -> bool) : bool :=
  match count with
  | O => true
  | S count' => if P i then all_from count' (i + 1) P else false
  end.

(** A Hobbywing state that holds a packet: 20000 eRPM, voltage field 1308,
    current field 652, temperature field 2560. *)
Definition hw_packet_received : globals :=
  set_telemetryData
    [0; 0; 1; 0; 0; 0; 0; 0; 78; 32; 5; 28; 2; 140; 10; 0; 10; 0]
    hw_initialised.





(** * Properties *)

(** ** Tactics for running the monadic code *)

#[local] Arguments calculateCrc8 : simpl never.
#[local] Arguments uint8_t : simpl never.
#[local] Arguments int8_t : simpl never.
#[local] Arguments int16_t : simpl never.
#[local] Arguments uint16_t : simpl never.
#[local] Arguments uint32_t : simpl never.

Ltac munfold :=
  cbv beta iota delta
    [mbind M_bind mret M_ret get modify defined isFrameComplete motorUpdate
     motorData combinedUpdate].

Ltac mproj :=
  cbn [telemetryBuffer bufferSize bufferPosition escSensorPort escSensorData
       escSensorTriggerState escTriggerTimestamp escSensorMotor
       combinedEscSensorData combinedDataNeedsUpdate totalTimeoutCount
       totalCrcErrorCount telemetryData bytesRead skipPackets lastProcessTimeMs
       consumptionAcc
       set_telemetryBuffer set_bufferSize set_bufferPosition set_escSensorPort
       set_escSensorData set_escSensorTriggerState set_escTriggerTimestamp
       set_escSensorMotor set_combinedEscSensorData set_combinedDataNeedsUpdate
       set_totalTimeoutCount set_totalCrcErrorCount set_telemetryData
       set_bytesRead set_skipPackets set_lastProcessTimeMs set_consumptionAcc
       dataAge temperature voltage current consumption rpm
       set_dataAge set_temperature set_voltage set_current set_consumption
       set_rpm negb andb orb fst snd].

Tactic Notation "munfold" "in" hyp(H) :=
  cbv beta iota delta
    [mbind M_bind mret M_ret get modify defined isFrameComplete motorUpdate
     motorData combinedUpdate] in H.

Ltac mproj_in H :=
  cbn [telemetryBuffer bufferSize bufferPosition escSensorPort escSensorData
       escSensorTriggerState escTriggerTimestamp escSensorMotor
       combinedEscSensorData combinedDataNeedsUpdate totalTimeoutCount
       totalCrcErrorCount telemetryData bytesRead skipPackets lastProcessTimeMs
       consumptionAcc
       set_telemetryBuffer set_bufferSize set_bufferPosition set_escSensorPort
       set_escSensorData set_escSensorTriggerState set_escTriggerTimestamp
       set_escSensorMotor set_combinedEscSensorData set_combinedDataNeedsUpdate
       set_totalTimeoutCount set_totalCrcErrorCount set_telemetryData
       set_bytesRead set_skipPackets set_lastProcessTimeMs set_consumptionAcc
       dataAge temperature voltage current consumption rpm
       set_dataAge set_temperature set_voltage set_current set_consumption
       set_rpm negb andb orb fst snd] in H.

Ltac split_all := repeat match goal with |- _ /\ _ => split end.

Ltac at_index_eval :=
  repeat match goal with
    | |- context [at_index ?l ?i] =>
        let r := eval vm_compute in (at_index l i) in
        match r with
        | Some _ => change (at_index l i) with r
        | None => change (at_index l i) with r
        end
    end.


(** ** Bytes and conversions *)

Lemma forall_byte (P : Z -> bool) :
  forallb P (map Z.of_nat (seq 0 256)) = true ->
  forall x, is_byte x -> P x = true.
Proof.
  intros Hall x Hx. rewrite forallb_forall in Hall. apply Hall.
  rewrite <- (Z2Nat.id x) by (unfold is_byte in Hx; lia).
  apply in_map, in_seq. unfold is_byte in Hx. lia.
Qed.

Lemma uint8_t_range (x : Z) : is_byte (uint8_t x).
Proof. unfold is_byte, uint8_t. apply Z.mod_pos_bound. lia. Qed.

Lemma uint8_t_id (x : Z) : is_byte x -> uint8_t x = x.
Proof. unfold is_byte, uint8_t. intros H. apply Z.mod_small. lia. Qed.

Lemma uint8_t_land (x : Z) : uint8_t x = Z.land x 255.
Proof. unfold uint8_t. change 255 with (Z.ones 8). now rewrite Z.land_ones. Qed.

Lemma land_lxor_distr (a b m : Z) :
  Z.land (Z.lxor a b) m = Z.lxor (Z.land a m) (Z.land b m).
Proof.
  apply Z.bits_inj'. intros n _.
  rewrite Z.land_spec, !Z.lxor_spec, !Z.land_spec.
  now destruct (Z.testbit a n), (Z.testbit b n), (Z.testbit m n).
Qed.

Lemma lxor_byte (a b : Z) : is_byte a -> is_byte b -> is_byte (Z.lxor a b).
Proof.
  intros Ha Hb.
  assert (E : uint8_t (Z.lxor a b) = Z.lxor a b).
  { rewrite uint8_t_land, land_lxor_distr, <- !uint8_t_land.
    now rewrite !uint8_t_id. }
  rewrite <- E. apply uint8_t_range.
Qed.

(** ** CRC8 *)

Lemma updateCrc8_round_spec (x : Z) :
  is_byte x -> updateCrc8_round x = crc8_spec_round x.
Proof.
  intros Hx. apply Z.eqb_eq. revert x Hx.
  apply (forall_byte (fun x => updateCrc8_round x =? crc8_spec_round x)).
  vm_compute. reflexivity.
Qed.

Lemma updateCrc8_round_byte (x : Z) : is_byte (updateCrc8_round x).
Proof. apply uint8_t_range. Qed.

Lemma updateCrc8_rounds_spec (n : nat) (x : Z) :
  is_byte x ->
  Nat.iter n updateCrc8_round x = Nat.iter n crc8_spec_round x
  /\ is_byte (Nat.iter n updateCrc8_round x).
Proof.
  intros Hx. induction n as [|n [IHeq IHb]]; simpl.
  - split; [reflexivity | assumption].
  - split; [| apply updateCrc8_round_byte].
    rewrite <- IHeq. now apply updateCrc8_round_spec.
Qed.

Lemma updateCrc8_spec (b crc : Z) :
  is_byte b -> is_byte crc ->
  updateCrc8 b crc = crc8_spec_byte crc b /\ is_byte (updateCrc8 b crc).
Proof.
  intros Hb Hc. unfold updateCrc8, crc8_spec_byte.
  rewrite (uint8_t_id (Z.lxor b crc)) by now apply lxor_byte.
  rewrite (Z.lxor_comm crc b). apply updateCrc8_rounds_spec. now apply lxor_byte.
Qed.

Lemma at_index_app_length {A : Type} (pre rest : list A) (x : A) :
  at_index (pre ++ x :: rest) (Z.of_nat (length pre)) = Some x.
Proof.
  unfold at_index. destruct (Z.ltb_spec (Z.of_nat (length pre)) 0); [lia |].
  rewrite Nat2Z.id. now rewrite list_lookup_middle.
Qed.

Lemma calculateCrc8_loop_step (Buf : list Z) (n : nat) (i crc b : Z) :
  at_index Buf i = Some b ->
  calculateCrc8_loop Buf (S n) i crc
  = calculateCrc8_loop Buf n (i + 1) (updateCrc8 b crc).
Proof. intros H. cbn [calculateCrc8_loop]. rewrite H. reflexivity. Qed.

Lemma fold_left_cons {A B : Type} (g : A -> B -> A) (b : B) (rest : list B)
      (a : A) :
  fold_left g (b :: rest) a = fold_left g rest (g a b).
Proof. reflexivity. Qed.

Lemma calculateCrc8_loop_spec (rest pre : list Z) (crc : Z) :
  Forall is_byte rest -> is_byte crc ->
  forall tail : list Z,
  calculateCrc8_loop (pre ++ rest ++ tail) (length rest)
                     (Z.of_nat (length pre)) crc
  = Some (fold_left crc8_spec_byte rest crc)
  /\ is_byte (fold_left crc8_spec_byte rest crc).
Proof.
  revert pre crc. induction rest as [|b rest IH]; intros pre crc Hall Hc tail.
  - split; [reflexivity | assumption].
  - apply Forall_cons in Hall as [Hb Hrest].
    destruct (updateCrc8_spec b crc Hb Hc) as [Hstep Hbyte].
    destruct (IH (pre ++ [b]) (updateCrc8 b crc) Hrest Hbyte tail) as [IH1 IH2].
    rewrite length_app, Nat2Z.inj_add, <- app_assoc in IH1.
    rewrite fold_left_cons, <- Hstep.
    change (length (b :: rest)) with (S (length rest)).
    rewrite (calculateCrc8_loop_step _ _ _ _ b) by apply at_index_app_length.
    split; [exact IH1 | exact IH2].
Qed.

Lemma calculateCrc8_spec (Buf : list Z) (BufLen : Z) :
  Forall is_byte Buf -> 0 <= BufLen <= Z.of_nat (length Buf) ->
  calculateCrc8 Buf BufLen = Some (crc8_spec (take (Z.to_nat BufLen) Buf))
  /\ is_byte (crc8_spec (take (Z.to_nat BufLen) Buf)).
Proof.
  intros Hall Hlen. unfold calculateCrc8, crc8_spec.
  assert (Hn : length (take (Z.to_nat BufLen) Buf) = Z.to_nat BufLen)
    by (rewrite length_take; lia).
  pose proof (calculateCrc8_loop_spec (take (Z.to_nat BufLen) Buf) [] 0) as H.
  rewrite Hn in H. cbn [app length] in H.
  specialize (H (Forall_take _ _ _ Hall)).
  rewrite <- (take_drop (Z.to_nat BufLen) Buf) at 1.
  apply H. unfold is_byte. lia.
Qed.

Lemma calculateCrc8_prefix (l tail : list Z) :
  Forall is_byte (l ++ tail) ->
  calculateCrc8 (l ++ tail) (Z.of_nat (length l))
  = calculateCrc8 l (Z.of_nat (length l)).
Proof.
  intros Hall. apply Forall_app in Hall as Hl. destruct Hl as [Hl _].
  destruct (calculateCrc8_spec (l ++ tail) (Z.of_nat (length l)) Hall) as [E1 _].
  { rewrite length_app. lia. }
  destruct (calculateCrc8_spec l (Z.of_nat (length l)) Hl) as [E2 _]; [lia |].
  rewrite E1, E2, Nat2Z.id, take_app_length, firstn_all. reflexivity.
Qed.

Lemma big_endian_16 (hi lo : Z) :
  is_byte hi -> is_byte lo -> Z.lor (Z.shiftl hi 8) lo = hi * 256 + lo.
Proof.
  intros Hhi Hlo. apply Z.eqb_eq. revert lo Hlo.
  pose (row := fun hi => forallb (fun lo => Z.lor (Z.shiftl hi 8) lo =? hi * 256 + lo)
                                 (map Z.of_nat (seq 0 256))).
  assert (Hrow : row hi = true).
  { revert hi Hhi. apply forall_byte. vm_compute. reflexivity. }
  apply forall_byte. exact Hrow.
Qed.

(** ** Arrays *)

Lemma at_index_range {A : Type} (a : list A) (i : Z) (x : A) :
  at_index a i = Some x -> 0 <= i < Z.of_nat (length a).
Proof.
  unfold at_index. destruct (Z.ltb_spec i 0) as [Hneg | Hpos]; [discriminate |].
  intros Hlook%lookup_lt_Some. lia.
Qed.

Lemma store_at_run {A : Type} (a : list A) (i : Z) (x v : A) :
  at_index a i = Some x -> store_at a i v = Some (<[Z.to_nat i := v]> a).
Proof.
  intros H%at_index_range. unfold store_at.
  destruct (Z.leb_spec 0 i), (Z.ltb_spec i (Z.of_nat (length a)));
    try lia; reflexivity.
Qed.

Lemma at_index_insert_eq {A : Type} (a : list A) (i : Z) (x v : A) :
  at_index a i = Some x -> at_index (<[Z.to_nat i := v]> a) i = Some v.
Proof.
  intros H%at_index_range. unfold at_index.
  destruct (Z.ltb_spec i 0); [lia |].
  apply list_lookup_insert_eq. lia.
Qed.

Lemma at_index_insert_ne {A : Type} (a : list A) (i j : Z) (v : A) :
  0 <= i -> i <> j -> at_index (<[Z.to_nat i := v]> a) j = at_index a j.
Proof.
  intros Hi Hne. unfold at_index.
  destruct (Z.ltb_spec j 0); [reflexivity |].
  apply list_lookup_insert_ne. lia.
Qed.

Lemma at_index_insert_id {A : Type} (a : list A) (i : Z) (x : A) :
  at_index a i = Some x -> <[Z.to_nat i := x]> a = a.
Proof.
  unfold at_index. destruct (Z.ltb_spec i 0); [discriminate |].
  apply list_insert_id.
Qed.

(** ** Running the primitives *)

Lemma motorData_run (i : Z) (d : escSensorData_t) (st : globals) :
  at_index (escSensorData st) i = Some d -> motorData i st = Some (d, st).
Proof. intros H. unfold motorData, defined. now rewrite H. Qed.

Lemma motorUpdate_run (i : Z) (f : escSensorData_t -> escSensorData_t)
      (d : escSensorData_t) (st : globals) :
  at_index (escSensorData st) i = Some d ->
  motorUpdate i f st
  = Some (tt, set_escSensorData (<[Z.to_nat i := f d]> (escSensorData st)) st).
Proof.
  intros H. unfold motorUpdate. munfold. rewrite H.
  now rewrite (store_at_run _ _ d).
Qed.

Lemma increaseDataAge_run (p : platform) (d : escSensorData_t) (st : globals) :
  at_index (escSensorData st) (escSensorMotor st) = Some d ->
  increaseDataAge p st
  = Some (tt,
          if dataAge d <? ESC_DATA_INVALID p then
            set_combinedDataNeedsUpdate true
              (set_escSensorData
                 (<[Z.to_nat (escSensorMotor st) :=
                      set_dataAge (uint8_t (dataAge d + 1)) d]> (escSensorData st))
                 st)
          else st).
Proof.
  intros Hd. unfold increaseDataAge. munfold. rewrite Hd.
  destruct (dataAge d <? ESC_DATA_INVALID p); [| reflexivity].
  rewrite Hd, (store_at_run _ _ d _ Hd). reflexivity.
Qed.

Lemma selectNextMotor_run (p : platform) (st : globals) :
  selectNextMotor p st
  = Some (tt, set_escSensorMotor (nextMotor p (escSensorMotor st)) st).
Proof.
  unfold selectNextMotor, nextMotor. munfold. mproj.
  destruct (uint8_t (escSensorMotor st + 1) =? getMotorCount p); reflexivity.
Qed.

Lemma debugCount_run (p : platform) (counter : globals -> Z)
      (set : Z -> globals -> globals) (st : globals) :
  debugCount p counter set st
  = Some (tt, if debugSetEvaluates p then set (uint16_t (counter st + 1)) st
              else st).
Proof. unfold debugCount. destruct (debugSetEvaluates p); reflexivity. Qed.

Lemma debugEscSensorRpm_inv (p : platform) (st st' : globals) (u : unit) :
  debugEscSensorRpm p st = Some (u, st') -> st' = st.
Proof.
  unfold debugEscSensorRpm. munfold.
  destruct (escSensorMotor st <? 4); [| now intros [= _ <-]].
  destruct (debugSetEvaluatesRpm p); [| now intros [= _ <-]].
  destruct (at_index (escSensorData st) (escSensorMotor st)) as [d |];
    [| discriminate].
  destruct (calcEscRpm p (rpm d)) as [erpm |]; [| discriminate].
  destruct (int_div erpm 10); [| discriminate].
  now intros [= _ <-].
Qed.

(** The debug output has a value when it is not evaluated, or when the
    pole count is that of a motor ([uint8_t], at least one pole pair) and
    the rpm field an [int16_t]. *)
Lemma debugEscSensorRpm_run (p : platform) (d : escSensorData_t) (st : globals) :
  (escSensorMotor st < 4 -> debugSetEvaluatesRpm p = true ->
   2 <= motorPoleCount p <= 255) ->
  at_index (escSensorData st) (escSensorMotor st) = Some d ->
  -32768 <= rpm d <= 32767 ->
  debugEscSensorRpm p st = Some (tt, st).
Proof.
  intros Hpoles Hd Hrpm. unfold debugEscSensorRpm. munfold.
  destruct (Z.ltb_spec (escSensorMotor st) 4) as [Hm |]; [| reflexivity].
  destruct (debugSetEvaluatesRpm p); [| reflexivity].
  specialize (Hpoles Hm eq_refl). rewrite Hd.
  assert (Hpairs : 1 <= Z.quot (motorPoleCount p) 2 <= 127).
  { rewrite Z.quot_div_nonneg by lia.
    split; [apply Z.div_le_lower_bound; lia
           | apply Z.lt_succ_r, Z.div_lt_upper_bound; lia]. }
  assert (Hq : - 3276800 <= Z.quot (rpm d * 100) (Z.quot (motorPoleCount p) 2)
               <= 3276800).
  { destruct (Z.le_gt_cases 0 (rpm d)) as [Hpos | Hneg].
    - rewrite Z.quot_div_nonneg by lia. split.
      + transitivity 0; [lia | apply Z.div_pos; lia].
      + apply Z.lt_succ_r, Z.div_lt_upper_bound; nia.
    - replace (rpm d * 100) with (- (- rpm d * 100)) by lia.
      rewrite Z.quot_opp_l by lia. rewrite Z.quot_div_nonneg by lia.
      split.
      + apply Z.opp_le_mono. rewrite Z.opp_involutive.
        apply Z.lt_succ_r, Z.div_lt_upper_bound; nia.
      + assert (0 <= (- rpm d * 100) / Z.quot (motorPoleCount p) 2)
          by (apply Z.div_pos; lia).
        lia. }
  assert (Hq10 : - 3276800 <= Z.quot (Z.quot (rpm d * 100)
                                             (Z.quot (motorPoleCount p) 2)) 10
                 <= 3276800).
  { set (q := Z.quot (rpm d * 100) (Z.quot (motorPoleCount p) 2)) in *.
    destruct (Z.le_gt_cases 0 q) as [Hpos | Hneg].
    - rewrite Z.quot_div_nonneg by lia. split.
      + transitivity 0; [lia | apply Z.div_pos; lia].
      + apply Z.lt_succ_r, Z.div_lt_upper_bound; lia.
    - replace q with (- (- q)) by lia.
      rewrite Z.quot_opp_l by lia. rewrite Z.quot_div_nonneg by lia.
      split.
      + apply Z.opp_le_mono. rewrite Z.opp_involutive.
        apply Z.lt_succ_r, Z.div_lt_upper_bound; lia.
      + assert (0 <= (- q) / 10) by (apply Z.div_pos; lia). lia. }
  unfold calcEscRpm, int_div, int_checked, INT_MIN, INT_MAX.
  cbn [mbind option_bind].
  destruct (Z.leb_spec (-2147483648) (rpm d * 100)); [| lia].
  destruct (Z.leb_spec (rpm d * 100) 2147483647); [| lia].
  cbn [andb mbind option_bind]. change (2 =? 0) with false. cbv iota.
  destruct (Z.leb_spec (-2147483648) (Z.quot (motorPoleCount p) 2)); [| lia].
  destruct (Z.leb_spec (Z.quot (motorPoleCount p) 2) 2147483647); [| lia].
  cbn [andb mbind option_bind].
  destruct (Z.eqb_spec (Z.quot (motorPoleCount p) 2) 0); [lia |].
  destruct (Z.leb_spec (-2147483648)
              (Z.quot (rpm d * 100) (Z.quot (motorPoleCount p) 2))); [| lia].
  destruct (Z.leb_spec (Z.quot (rpm d * 100) (Z.quot (motorPoleCount p) 2))
              2147483647); [| lia].
  cbn [andb]. change (10 =? 0) with false. cbv iota.
  destruct (Z.leb_spec (-2147483648)
              (Z.quot (Z.quot (rpm d * 100) (Z.quot (motorPoleCount p) 2)) 10));
    [| lia].
  destruct (Z.leb_spec
              (Z.quot (Z.quot (rpm d * 100) (Z.quot (motorPoleCount p) 2)) 10)
              2147483647); [| lia].
  reflexivity.
Qed.

(** Without a pole pair the evaluated debug output divides by zero. *)
Lemma debugEscSensorRpm_undefined (p : platform) (st : globals) :
  escSensorMotor st < 4 -> debugSetEvaluatesRpm p = true ->
  Z.quot (motorPoleCount p) 2 = 0 ->
  debugEscSensorRpm p st = None.
Proof.
  intros Hm Heval Hpairs. unfold debugEscSensorRpm. munfold.
  destruct (Z.ltb_spec (escSensorMotor st) 4); [| lia]. rewrite Heval.
  destruct (at_index (escSensorData st) (escSensorMotor st)) as [d |];
    [| reflexivity].
  unfold calcEscRpm, int_div. cbn [mbind option_bind].
  destruct (int_checked (rpm d * 100)) as [scaled |]; [| reflexivity].
  cbn [mbind option_bind]. change (2 =? 0) with false. cbv iota.
  rewrite Hpairs. reflexivity.
Qed.

Lemma decodeEscFrame_pending (p : platform) (st : globals) :
  bufferPosition st <> bufferSize st ->
  decodeEscFrame p st = Some (ESC_SENSOR_FRAME_PENDING, st).
Proof.
  intros Hne. unfold decodeEscFrame. munfold.
  destruct (Z.eqb_spec (bufferPosition st) (bufferSize st)); [contradiction |].
  reflexivity.
Qed.

Lemma int16_t_range (x : Z) : -32768 <= int16_t x <= 32767.
Proof.
  unfold int16_t. pose proof (Z.mod_pos_bound (x + 32768) 65536 ltac:(lia)). lia.
Qed.

Lemma decodeEscFrame_stores
      (p : platform) (st : globals) (b0 b1 b2 b3 b4 b5 b6 b7 b8 b9 : Z)
      (d : escSensorData_t) :
  bufferPosition st = bufferSize st ->
  telemetryBuffer st = [b0; b1; b2; b3; b4; b5; b6; b7; b8; b9] ->
  Forall is_byte [b0; b1; b2; b3; b4; b5; b6; b7; b8; b9] ->
  calculateCrc8 [b0; b1; b2; b3; b4; b5; b6; b7; b8] 9 = Some b9 ->
  at_index (escSensorData st) (escSensorMotor st) = Some d ->
  decodeEscFrame p st
  = (debugEscSensorRpm p;; mret ESC_SENSOR_FRAME_COMPLETE)
      (set_combinedDataNeedsUpdate true
         (set_escSensorData
            (<[Z.to_nat (escSensorMotor st) :=
                 {| dataAge := 0;
                    temperature := int8_t b0;
                    voltage := int16_t (b1 * 256 + b2);
                    current := b3 * 256 + b4;
                    consumption := b5 * 256 + b6;
                    rpm := int16_t (b7 * 256 + b8) |}]> (escSensorData st))
            st)).
Proof.
  intros Hpos Hbuf Hbytes Hcrc Hd.
  assert (Hfull : calculateCrc8 (telemetryBuffer st) 9 = Some b9).
  { rewrite Hbuf, <- Hcrc.
    apply (calculateCrc8_prefix [b0; b1; b2; b3; b4; b5; b6; b7; b8] [b9] Hbytes). }
  unfold decodeEscFrame, motorUpdate. munfold.
  rewrite Hpos, Z.eqb_refl. mproj.
  change (TELEMETRY_FRAME_SIZE - 1) with 9.
  rewrite Hfull, Hbuf. at_index_eval. cbv beta iota.
  rewrite Z.eqb_refl, Hd. rewrite (store_at_run _ _ d _ Hd).
  repeat match goal with
         | H : Forall _ (_ :: _) |- _ => apply Forall_cons in H as [? H]
         end.
  rewrite !big_endian_16 by assumption. reflexivity.
Qed.

Lemma decodeEscFrame_complete
      (p : platform) (st : globals) (b0 b1 b2 b3 b4 b5 b6 b7 b8 b9 : Z)
      (d : escSensorData_t) :
  bufferPosition st = bufferSize st ->
  telemetryBuffer st = [b0; b1; b2; b3; b4; b5; b6; b7; b8; b9] ->
  Forall is_byte [b0; b1; b2; b3; b4; b5; b6; b7; b8; b9] ->
  calculateCrc8 [b0; b1; b2; b3; b4; b5; b6; b7; b8] 9 = Some b9 ->
  at_index (escSensorData st) (escSensorMotor st) = Some d ->
  (escSensorMotor st < 4 -> debugSetEvaluatesRpm p = true ->
   2 <= motorPoleCount p <= 255) ->
  decodeEscFrame p st
  = Some (ESC_SENSOR_FRAME_COMPLETE,
          set_combinedDataNeedsUpdate true
            (set_escSensorData
               (<[Z.to_nat (escSensorMotor st) :=
                    {| dataAge := 0;
                       temperature := int8_t b0;
                       voltage := int16_t (b1 * 256 + b2);
                       current := b3 * 256 + b4;
                       consumption := b5 * 256 + b6;
                       rpm := int16_t (b7 * 256 + b8) |}]> (escSensorData st))
               st)).
Proof.
  intros Hpos Hbuf Hbytes Hcrc Hd Hpoles.
  rewrite (decodeEscFrame_stores p st _ _ _ _ _ _ _ _ _ _ d Hpos Hbuf Hbytes Hcrc Hd).
  unfold mbind at 1, M_bind at 1.
  rewrite (debugEscSensorRpm_run p
             {| dataAge := 0;
                temperature := int8_t b0;
                voltage := int16_t (b1 * 256 + b2);
                current := b3 * 256 + b4;
                consumption := b5 * 256 + b6;
                rpm := int16_t (b7 * 256 + b8) |}).
  - reflexivity.
  - exact Hpoles.
  - mproj. now apply (at_index_insert_eq _ _ d).
  - cbn [rpm]. apply int16_t_range.
Qed.

Lemma decodeEscFrame_failed
      (p : platform) (st : globals) (b0 b1 b2 b3 b4 b5 b6 b7 b8 b9 : Z) :
  bufferPosition st = bufferSize st ->
  telemetryBuffer st = [b0; b1; b2; b3; b4; b5; b6; b7; b8; b9] ->
  Forall is_byte [b0; b1; b2; b3; b4; b5; b6; b7; b8; b9] ->
  calculateCrc8 [b0; b1; b2; b3; b4; b5; b6; b7; b8] 9 <> Some b9 ->
  decodeEscFrame p st = Some (ESC_SENSOR_FRAME_FAILED, st).
Proof.
  intros Hpos Hbuf Hbytes Hcrc.
  pose proof (calculateCrc8_prefix [b0; b1; b2; b3; b4; b5; b6; b7; b8] [b9] Hbytes)
    as Hpre.
  change ([b0; b1; b2; b3; b4; b5; b6; b7; b8] ++ [b9])
    with [b0; b1; b2; b3; b4; b5; b6; b7; b8; b9] in Hpre.
  change (Z.of_nat (length [b0; b1; b2; b3; b4; b5; b6; b7; b8])) with 9 in Hpre.
  destruct (calculateCrc8_spec [b0; b1; b2; b3; b4; b5; b6; b7; b8; b9] 9 Hbytes)
    as [Hval _]; [cbn; lia |].
  unfold decodeEscFrame. munfold.
  rewrite Hpos, Z.eqb_refl. mproj.
  change (TELEMETRY_FRAME_SIZE - 1) with 9.
  rewrite Hbuf, Hval. at_index_eval. cbv beta iota.
  destruct (Z.eqb_spec
              (crc8_spec (take (Z.to_nat 9) [b0; b1; b2; b3; b4; b5; b6; b7; b8; b9]))
              b9) as [E | E]; [| reflexivity].
  exfalso. apply Hcrc. rewrite <- Hpre, Hval, E. reflexivity.
Qed.

(** C5: [calculateCrc8] is a pure function of the bytes it is given and equals
    the checksum algorithm of the specification (seed 0; per byte an XOR into
    the running value and eight shift rounds, XORing 0x07 in when the high
    bit was set, each truncated to eight bits).  For a buffer of bytes and a
    length within it, the result is defined, is the specified checksum of the
    first [BufLen] bytes, is an 8-bit value, and two runs on the same bytes
    agree. *)
Theorem calculateCrc8_refines_crc8_spec (Buf : list Z) (BufLen : Z) :
  Forall is_byte Buf ->
  0 <= BufLen <= Z.of_nat (length Buf) ->
  calculateCrc8 Buf BufLen = Some (crc8_spec (take (Z.to_nat BufLen) Buf))
  /\ is_byte (crc8_spec (take (Z.to_nat BufLen) Buf))
  /\ (forall r1 r2 : Z,
        calculateCrc8 Buf BufLen = Some r1 ->
        calculateCrc8 Buf BufLen = Some r2 -> r1 = r2).
Proof.
  intros Hall Hlen.
  destruct (calculateCrc8_spec Buf BufLen Hall Hlen) as [Heq Hbyte].
  repeat split; try assumption; try apply Hbyte.
  intros r1 r2 H1 H2. congruence.
Qed.

Lemma calculateCrc8_refines_crc8_spec_witness :
  calculateCrc8 frame_nominal 9 = Some (crc8_spec (take (Z.to_nat 9) frame_nominal))
  /\ is_byte (crc8_spec (take (Z.to_nat 9) frame_nominal))
  /\ (forall r1 r2 : Z,
        calculateCrc8 frame_nominal 9 = Some r1 ->
        calculateCrc8 frame_nominal 9 = Some r2 -> r1 = r2).
Proof.
  apply (calculateCrc8_refines_crc8_spec frame_nominal 9).
  - unfold frame_nominal, is_byte. repeat constructor; lia.
  - simpl. lia.
Defined.

(** Known vectors of the checksum. *)
Example calculateCrc8_vectors :
  calculateCrc8 [] 0 = Some 0
  /\ calculateCrc8 [1] 1 = Some 7
  /\ calculateCrc8 [25; 6; 64; 0; 100; 0; 5; 3; 232] 9 = Some 88.
Proof. split_all; vm_compute; reflexivity. Qed.

(** ** KISS frames *)

Lemma int8_t_small (x : Z) : 0 <= x < 128 -> int8_t x = x.
Proof. intros H. unfold int8_t. rewrite Z.mod_small; lia. Qed.

Lemma int8_t_large (x : Z) : 128 <= x < 256 -> int8_t x = x - 256.
Proof.
  intros H. unfold int8_t.
  replace (x + 128) with (x - 128 + 1 * 256) by lia.
  rewrite Z.mod_add, Z.mod_small; lia.
Qed.

Lemma int16_t_small (x : Z) : 0 <= x < 32768 -> int16_t x = x.
Proof. intros H. unfold int16_t. rewrite Z.mod_small; lia. Qed.

Lemma int16_t_large (x : Z) : 32768 <= x < 65536 -> int16_t x = x - 65536.
Proof.
  intros H. unfold int16_t.
  replace (x + 32768) with (x - 32768 + 1 * 65536) by lia.
  rewrite Z.mod_add, Z.mod_small; lia.
Qed.

(** C1, as stated, fails: on the complete, checksum-valid frame [frame_high]
    (byte 0 = 200, bytes 1-2 = 0x8000, bytes 7-8 = 0xFFFF) the decoder
    reports frame-complete and resets the age, but the temperature, voltage
    and rpm it stores are -56, -32768 and -1, not 200, 32768 and 65535:
    the fields are signed. *)
Lemma decodeEscFrame_signed_fields_counterexample :
  telemetryBuffer (kiss_frame_received frame_high) = frame_high
  /\ bufferPosition (kiss_frame_received frame_high)
     = bufferSize (kiss_frame_received frame_high)
  /\ calculateCrc8 (take 9 frame_high) 9 = at_index frame_high 9
  /\ exists st' d,
       decodeEscFrame example_KISS (kiss_frame_received frame_high)
       = Some (ESC_SENSOR_FRAME_COMPLETE, st')
       /\ at_index (escSensorData st') 0 = Some d
       /\ dataAge d = 0
       /\ temperature d = -56 /\ temperature d <> 200
       /\ voltage d = -32768 /\ voltage d <> 128 * 256 + 0
       /\ rpm d = -1 /\ rpm d <> 255 * 256 + 255.
Proof.
  split_all; try (vm_compute; reflexivity).
  eexists. eexists. split; [vm_compute; reflexivity |].
  split_all; try (vm_compute; reflexivity); vm_compute; discriminate.
Qed.

(** C1, amended: for every complete 10-byte frame whose byte 9 is the CRC8 of
    bytes 0..8, and a pole count within 2..255 wherever the rpm debug output
    is evaluated (motor index below 4), [decodeEscFrame] reports
    frame-complete, sets the invalidation flag, leaves the other motors
    alone and writes the selected motor's reading as: age 0; temperature =
    byte 0 converted to [int8_t] (byte 0 itself below 128); voltage and rpm
    = the big-endian values of bytes 1-2 and 7-8 converted to [int16_t] (the
    values themselves below 32768); current and consumption = the
    big-endian values of bytes 3-4 and 5-6.  Where the rpm debug output is
    evaluated and the pole count gives no pole pair, the call has no result:
    it divides by zero. *)
Theorem decodeEscFrame_valid_frame
        (p : platform) (st : globals) (b0 b1 b2 b3 b4 b5 b6 b7 b8 b9 : Z)
        (d : escSensorData_t) :
  bufferPosition st = bufferSize st ->
  telemetryBuffer st = [b0; b1; b2; b3; b4; b5; b6; b7; b8; b9] ->
  Forall is_byte [b0; b1; b2; b3; b4; b5; b6; b7; b8; b9] ->
  calculateCrc8 [b0; b1; b2; b3; b4; b5; b6; b7; b8] 9 = Some b9 ->
  at_index (escSensorData st) (escSensorMotor st) = Some d ->
  ((escSensorMotor st < 4 -> debugSetEvaluatesRpm p = true ->
    2 <= motorPoleCount p <= 255) ->
   exists st',
     decodeEscFrame p st = Some (ESC_SENSOR_FRAME_COMPLETE, st')
     /\ at_index (escSensorData st') (escSensorMotor st)
        = Some {| dataAge := 0;
                  temperature := int8_t b0;
                  voltage := int16_t (b1 * 256 + b2);
                  current := b3 * 256 + b4;
                  consumption := b5 * 256 + b6;
                  rpm := int16_t (b7 * 256 + b8) |}
     /\ (b0 < 128 -> int8_t b0 = b0)
     /\ (b1 < 128 -> int16_t (b1 * 256 + b2) = b1 * 256 + b2)
     /\ (b7 < 128 -> int16_t (b7 * 256 + b8) = b7 * 256 + b8)
     /\ combinedDataNeedsUpdate st' = true
     /\ (forall j, j <> escSensorMotor st ->
           at_index (escSensorData st') j = at_index (escSensorData st) j))
  /\ (escSensorMotor st < 4 -> debugSetEvaluatesRpm p = true ->
      Z.quot (motorPoleCount p) 2 = 0 ->
      decodeEscFrame p st = None).
Proof.
  intros Hpos Hbuf Hbytes Hcrc Hd. split.
  - intros Hpoles. eexists. split.
    { exact (decodeEscFrame_complete p st _ _ _ _ _ _ _ _ _ _ d
               Hpos Hbuf Hbytes Hcrc Hd Hpoles). }
    mproj.
    pose proof (at_index_range _ _ _ Hd) as Hrange.
    repeat match goal with
           | H : Forall _ (_ :: _) |- _ => apply Forall_cons in H as [? H]
           end.
    unfold is_byte in *.
    split; [now apply (at_index_insert_eq _ _ d) |].
    split; [intros; apply int8_t_small; lia |].
    split; [intros; apply int16_t_small; lia |].
    split; [intros; apply int16_t_small; lia |].
    split; [reflexivity |].
    intros j Hj. apply at_index_insert_ne; [lia | congruence].
  - intros Hm Heval Hpairs.
    rewrite (decodeEscFrame_stores p st _ _ _ _ _ _ _ _ _ _ d
               Hpos Hbuf Hbytes Hcrc Hd).
    unfold mbind at 1, M_bind at 1.
    now rewrite debugEscSensorRpm_undefined.
Qed.

Lemma decodeEscFrame_valid_frame_witness :
  (exists st',
     decodeEscFrame example_KISS (kiss_frame_received frame_nominal)
     = Some (ESC_SENSOR_FRAME_COMPLETE, st')
     /\ at_index (escSensorData st')
                 (escSensorMotor (kiss_frame_received frame_nominal))
        = Some {| dataAge := 0;
                  temperature := int8_t 25;
                  voltage := int16_t (6 * 256 + 64);
                  current := 0 * 256 + 100;
                  consumption := 0 * 256 + 5;
                  rpm := int16_t (3 * 256 + 232) |}
     /\ (25 < 128 -> int8_t 25 = 25)
     /\ (6 < 128 -> int16_t (6 * 256 + 64) = 6 * 256 + 64)
     /\ (3 < 128 -> int16_t (3 * 256 + 232) = 3 * 256 + 232)
     /\ combinedDataNeedsUpdate st' = true
     /\ (forall j, j <> escSensorMotor (kiss_frame_received frame_nominal) ->
           at_index (escSensorData st') j
           = at_index (escSensorData (kiss_frame_received frame_nominal)) j))
  /\ decodeEscFrame example_KISS_one_pole (kiss_frame_received frame_nominal)
     = None.
Proof.
  assert (H1 : bufferPosition (kiss_frame_received frame_nominal)
               = bufferSize (kiss_frame_received frame_nominal))
    by (vm_compute; reflexivity).
  assert (H2 : telemetryBuffer (kiss_frame_received frame_nominal)
               = [25; 6; 64; 0; 100; 0; 5; 3; 232; 88])
    by (vm_compute; reflexivity).
  assert (H3 : Forall is_byte [25; 6; 64; 0; 100; 0; 5; 3; 232; 88])
    by (unfold is_byte; repeat constructor; lia).
  assert (H4 : calculateCrc8 [25; 6; 64; 0; 100; 0; 5; 3; 232] 9 = Some 88)
    by (vm_compute; reflexivity).
  assert (H5 : at_index (escSensorData (kiss_frame_received frame_nominal))
                        (escSensorMotor (kiss_frame_received frame_nominal))
               = Some {| dataAge := 255; temperature := 0; voltage := 0;
                         current := 0; consumption := 0; rpm := 0 |})
    by (vm_compute; reflexivity).
  split.
  - apply (proj1 (decodeEscFrame_valid_frame
                    example_KISS (kiss_frame_received frame_nominal)
                    25 6 64 0 100 0 5 3 232 88 _ H1 H2 H3 H4 H5)).
    intros _ _. cbn. lia.
  - apply (proj2 (decodeEscFrame_valid_frame
                    example_KISS_one_pole (kiss_frame_received frame_nominal)
                    25 6 64 0 100 0 5 3 232 88 _ H1 H2 H3 H4 H5)).
    + vm_compute. reflexivity.
    + reflexivity.
    + reflexivity.
Defined.

(** The KISS branch of a polling cycle that finds a complete frame with a
    wrong checksum before the request timed out. *)
Lemma escSensorProcess_KISS_failed
      (p : platform) (currentTimeMs : Z) (st : globals)
      (b0 b1 b2 b3 b4 b5 b6 b7 b8 b9 : Z) (d : escSensorData_t) :
  escSensorTriggerState st = ESC_SENSOR_TRIGGER_PENDING ->
  currentTimeMs < uint32_t (escTriggerTimestamp st + ESC_REQUEST_TIMEOUT) ->
  bufferPosition st = bufferSize st ->
  telemetryBuffer st = [b0; b1; b2; b3; b4; b5; b6; b7; b8; b9] ->
  Forall is_byte [b0; b1; b2; b3; b4; b5; b6; b7; b8; b9] ->
  calculateCrc8 [b0; b1; b2; b3; b4; b5; b6; b7; b8] 9 <> Some b9 ->
  at_index (escSensorData st) (escSensorMotor st) = Some d ->
  escSensorProcess_KISS p currentTimeMs st
  = Some (tt,
          let st1 :=
            if dataAge d <? ESC_DATA_INVALID p then
              set_combinedDataNeedsUpdate true
                (set_escSensorData
                   (<[Z.to_nat (escSensorMotor st) :=
                        set_dataAge (uint8_t (dataAge d + 1)) d]> (escSensorData st))
                   st)
            else st in
          let st2 :=
            set_escSensorTriggerState ESC_SENSOR_TRIGGER_READY
              (set_escSensorMotor (nextMotor p (escSensorMotor st)) st1) in
          if debugSetEvaluates p then
            set_totalCrcErrorCount (uint16_t (totalCrcErrorCount st + 1)) st2
          else st2).
Proof.
  intros Htrig Htime Hpos Hbuf Hbytes Hcrc Hd.
  unfold escSensorProcess_KISS.
  cbv beta iota delta [mbind M_bind mret M_ret get modify].
  rewrite Htrig. cbv beta iota.
  destruct (Z.ltb_spec currentTimeMs
                       (uint32_t (escTriggerTimestamp st + ESC_REQUEST_TIMEOUT)))
    as [_ | Hge]; [| lia].
  rewrite (decodeEscFrame_failed p st _ _ _ _ _ _ _ _ _ _ Hpos Hbuf Hbytes Hcrc).
  cbv beta iota. rewrite (increaseDataAge_run p d st Hd).
  rewrite selectNextMotor_run, debugCount_run.
  destruct (dataAge d <? ESC_DATA_INVALID p), (debugSetEvaluates p); reflexivity.
Qed.

(** C6: for every complete 10-byte frame whose byte 9 differs from the CRC8
    of bytes 0..8, [decodeEscFrame] reports a checksum failure and changes
    nothing, and the polling cycle that handles the failure leaves the
    temperature, voltage, current, consumption and rpm of every motor as
    they were: per motor, only the age of the polled motor moves, by one,
    unless it already is at [ESC_DATA_INVALID]; beside that the CRC-error
    counter advances when [DEBUG_SET] evaluates its argument. *)
Theorem decodeEscFrame_checksum_failure
        (p : platform) (currentTimeMs : Z) (st : globals)
        (b0 b1 b2 b3 b4 b5 b6 b7 b8 b9 : Z) (d : escSensorData_t) :
  escSensorTriggerState st = ESC_SENSOR_TRIGGER_PENDING ->
  currentTimeMs < uint32_t (escTriggerTimestamp st + ESC_REQUEST_TIMEOUT) ->
  bufferPosition st = bufferSize st ->
  telemetryBuffer st = [b0; b1; b2; b3; b4; b5; b6; b7; b8; b9] ->
  Forall is_byte [b0; b1; b2; b3; b4; b5; b6; b7; b8; b9] ->
  calculateCrc8 [b0; b1; b2; b3; b4; b5; b6; b7; b8] 9 <> Some b9 ->
  at_index (escSensorData st) (escSensorMotor st) = Some d ->
  decodeEscFrame p st = Some (ESC_SENSOR_FRAME_FAILED, st)
  /\ exists st',
       escSensorProcess_KISS p currentTimeMs st = Some (tt, st')
       /\ length (escSensorData st') = length (escSensorData st)
       /\ (forall j dj,
             at_index (escSensorData st) j = Some dj ->
             exists dj',
               at_index (escSensorData st') j = Some dj'
               /\ temperature dj' = temperature dj
               /\ voltage dj' = voltage dj
               /\ current dj' = current dj
               /\ consumption dj' = consumption dj
               /\ rpm dj' = rpm dj
               /\ dataAge dj'
                  = (if (j =? escSensorMotor st)
                        && (dataAge dj <? ESC_DATA_INVALID p)
                     then uint8_t (dataAge dj + 1) else dataAge dj))
       /\ totalCrcErrorCount st'
          = (if debugSetEvaluates p then uint16_t (totalCrcErrorCount st + 1)
             else totalCrcErrorCount st)
       /\ totalTimeoutCount st' = totalTimeoutCount st
       /\ combinedEscSensorData st' = combinedEscSensorData st
       /\ escSensorMotor st' = nextMotor p (escSensorMotor st)
       /\ escSensorTriggerState st' = ESC_SENSOR_TRIGGER_READY.
Proof.
  intros Htrig Htime Hpos Hbuf Hbytes Hcrc Hd.
  split; [exact (decodeEscFrame_failed p st _ _ _ _ _ _ _ _ _ _ Hpos Hbuf Hbytes Hcrc) |].
  eexists. split.
  { exact (escSensorProcess_KISS_failed p currentTimeMs st _ _ _ _ _ _ _ _ _ _ d
             Htrig Htime Hpos Hbuf Hbytes Hcrc Hd). }
  pose proof (at_index_range _ _ _ Hd) as Hrange.
  cbv zeta.
  destruct (Z.ltb_spec (dataAge d) (ESC_DATA_INVALID p)) as [Hlt | Hge].
  - assert (Hdata : forall j dj,
               at_index (escSensorData st) j = Some dj ->
               exists dj',
                 at_index
                   (<[Z.to_nat (escSensorMotor st) :=
                        set_dataAge (uint8_t (dataAge d + 1)) d]> (escSensorData st)) j
                 = Some dj'
                 /\ temperature dj' = temperature dj
                 /\ voltage dj' = voltage dj
                 /\ current dj' = current dj
                 /\ consumption dj' = consumption dj
                 /\ rpm dj' = rpm dj
                 /\ dataAge dj'
                    = (if (j =? escSensorMotor st)
                          && (dataAge dj <? ESC_DATA_INVALID p)
                       then uint8_t (dataAge dj + 1) else dataAge dj)).
    { intros j dj Hj.
      destruct (Z.eqb_spec j (escSensorMotor st)) as [-> | Hne]; cbn [andb].
      - rewrite Hd in Hj. injection Hj as <-.
        destruct (Z.ltb_spec (dataAge d) (ESC_DATA_INVALID p)); [| lia].
        eexists. split; [apply (at_index_insert_eq _ _ d _ Hd) |].
        repeat split; reflexivity.
      - exists dj. rewrite at_index_insert_ne by (lia || congruence).
        repeat split; [assumption | reflexivity ..]. }
    destruct (debugSetEvaluates p); mproj;
      (split; [apply length_insert |]); (split; [exact Hdata |]);
      repeat split; reflexivity.
  - assert (Hdata : forall j dj,
               at_index (escSensorData st) j = Some dj ->
               exists dj',
                 at_index (escSensorData st) j = Some dj'
                 /\ temperature dj' = temperature dj
                 /\ voltage dj' = voltage dj
                 /\ current dj' = current dj
                 /\ consumption dj' = consumption dj
                 /\ rpm dj' = rpm dj
                 /\ dataAge dj'
                    = (if (j =? escSensorMotor st)
                          && (dataAge dj <? ESC_DATA_INVALID p)
                       then uint8_t (dataAge dj + 1) else dataAge dj)).
    { intros j dj Hj. exists dj.
      destruct (Z.eqb_spec j (escSensorMotor st)) as [-> | Hne]; cbn [andb].
      - rewrite Hd in Hj. injection Hj as <-.
        destruct (Z.ltb_spec (dataAge d) (ESC_DATA_INVALID p)); [lia |].
        repeat split; [assumption | reflexivity ..].
      - repeat split; [assumption | reflexivity ..]. }
    destruct (debugSetEvaluates p); mproj;
      (split; [reflexivity |]); (split; [exact Hdata |]);
      repeat split; reflexivity.
Qed.

Lemma decodeEscFrame_checksum_failure_witness :
  decodeEscFrame example_KISS (kiss_frame_received frame_corrupt)
  = Some (ESC_SENSOR_FRAME_FAILED, kiss_frame_received frame_corrupt)
  /\ exists st',
       escSensorProcess_KISS example_KISS 5020
                             (kiss_frame_received frame_corrupt)
       = Some (tt, st')
       /\ length (escSensorData st')
          = length (escSensorData (kiss_frame_received frame_corrupt))
       /\ (forall j dj,
             at_index (escSensorData (kiss_frame_received frame_corrupt)) j
             = Some dj ->
             exists dj',
               at_index (escSensorData st') j = Some dj'
               /\ temperature dj' = temperature dj
               /\ voltage dj' = voltage dj
               /\ current dj' = current dj
               /\ consumption dj' = consumption dj
               /\ rpm dj' = rpm dj
               /\ dataAge dj'
                  = (if (j =? escSensorMotor (kiss_frame_received frame_corrupt))
                        && (dataAge dj <? ESC_DATA_INVALID example_KISS)
                     then uint8_t (dataAge dj + 1) else dataAge dj))
       /\ totalCrcErrorCount st'
          = (if debugSetEvaluates example_KISS
             then uint16_t
                    (totalCrcErrorCount (kiss_frame_received frame_corrupt) + 1)
             else totalCrcErrorCount (kiss_frame_received frame_corrupt))
       /\ totalTimeoutCount st'
          = totalTimeoutCount (kiss_frame_received frame_corrupt)
       /\ combinedEscSensorData st'
          = combinedEscSensorData (kiss_frame_received frame_corrupt)
       /\ escSensorMotor st'
          = nextMotor example_KISS
                      (escSensorMotor (kiss_frame_received frame_corrupt))
       /\ escSensorTriggerState st' = ESC_SENSOR_TRIGGER_READY.
Proof.
  apply (decodeEscFrame_checksum_failure
           example_KISS 5020 (kiss_frame_received frame_corrupt)
           25 6 64 0 100 0 5 3 232 89
           {| dataAge := 255; temperature := 0; voltage := 0; current := 0;
              consumption := 0; rpm := 0 |}).
  - vm_compute. reflexivity.
  - vm_compute. reflexivity.
  - vm_compute. reflexivity.
  - vm_compute. reflexivity.
  - unfold is_byte. repeat constructor; lia.
  - vm_compute. discriminate.
  - vm_compute. reflexivity.
Defined.

(** ** Staleness *)

(** The KISS path clamps: [increaseDataAge] never moves an age that is within
    [0..ESC_DATA_INVALID] beyond [ESC_DATA_INVALID], and never lowers it. *)
Lemma increaseDataAge_clamped (p : platform) (d : escSensorData_t) (st : globals) :
  at_index (escSensorData st) (escSensorMotor st) = Some d ->
  0 <= dataAge d <= ESC_DATA_INVALID p ->
  ESC_DATA_INVALID p <= 255 ->
  exists st' d',
    increaseDataAge p st = Some (tt, st')
    /\ at_index (escSensorData st') (escSensorMotor st) = Some d'
    /\ dataAge d <= dataAge d' <= ESC_DATA_INVALID p
    /\ (dataAge d < ESC_DATA_INVALID p -> dataAge d' = dataAge d + 1).
Proof.
  intros Hd Hage Hinv. rewrite (increaseDataAge_run p d st Hd).
  destruct (Z.ltb_spec (dataAge d) (ESC_DATA_INVALID p)) as [Hlt | Hge].
  - eexists. eexists. split; [reflexivity |]. mproj.
    split; [apply (at_index_insert_eq _ _ d _ Hd) |]. mproj.
    rewrite uint8_t_id by (unfold is_byte; lia). lia.
  - exists st, d. repeat split; try assumption; lia.
Qed.

(** C2 fails on the Hobbywing path (the claim is what the KISS path does,
    see [increaseDataAge_clamped]): [escSensorProcess] increments the age of
    motor 0 without the guard of [increaseDataAge].  Right after
    [escSensorInit] the age is [ESC_DATA_INVALID] = 255; one polling cycle with
    no byte on the serial port, hence with no decode at all, wraps it to 0,
    and [isEscSensorValid] then reports the motor valid. *)
Theorem escSensorProcess_HW_dataAge_wraps :
  dataAge <$> at_index (escSensorData hw_initialised) 0
  = Some (ESC_DATA_INVALID example_HW)
  /\ exists st',
       escSensorProcess example_HW 10000 [] hw_initialised = Some (tt, st')
       /\ dataAge <$> at_index (escSensorData st') 0 = Some 0
       /\ isEscSensorValid example_HW 0 st' = Some (true, st').
Proof.
  split; [vm_compute; reflexivity |].
  eexists. split; [vm_compute; reflexivity |].
  split; vm_compute; reflexivity.
Qed.

(** ** Hobbywing temperature calibration *)

Lemma forall_below (n : nat) (P : Z -> bool) :
  forallb P (map Z.of_nat (seq 0 n)) = true ->
  forall x, 0 <= x < Z.of_nat n -> P x = true.
Proof.
  intros Hall x Hx. rewrite forallb_forall in Hall. apply Hall.
  rewrite <- (Z2Nat.id x) by lia. apply in_map, in_seq. lia.
Qed.

(** Every row of the table but the last is returned exactly when the
    transformed raw value hits its breakpoint. *)
Lemma calcTempHW_rows :
  Forall (fun row : Z * Z =>
            row.1 <> 2705 ->
            calcTempHW (3828 - row.1) = Some (float_of_int row.2))
         tempFunc.
Proof.
  unfold tempFunc.
  repeat (apply Forall_cons; split;
          [intros Hne; try (vm_compute; reflexivity);
           exfalso; apply Hne; reflexivity |]).
  apply Forall_nil. exact I.
Qed.

(** C3, as stated, fails at the upper boundary: the raw value 3828 is not
    above 3828, so it is looked up in the table, where it hits the first
    breakpoint (0, 1): the result is 1, not 0. *)
Lemma calcTempHW_3828_counterexample :
  calcTempHW 3828 = Some (float_of_int 1)
  /\ calcTempHW 3828 <> Some (float_of_int 0).
Proof. split; vm_compute; [reflexivity | discriminate]. Qed.

(** C3, amended: [calcTempHW] returns exactly 100 for every raw input below
    1123 and exactly 0 for every raw input above 3828; for every raw input
    above 1123 and up to 3828 whose transformed value 3828 - raw equals a
    breakpoint of the calibration table, it returns exactly that
    breakpoint's temperature (1 at raw = 3828).  The raw value 1123 is left
    out. *)
Theorem calcTempHW_boundaries_and_breakpoints (tempRaw : Z) :
  0 <= tempRaw < 65536 ->
  (tempRaw < 1123 -> calcTempHW tempRaw = Some (float_of_int 100))
  /\ (3828 < tempRaw -> calcTempHW tempRaw = Some (float_of_int 0))
  /\ (1123 < tempRaw <= 3828 ->
      forall (k breakpoint degrees : Z),
        at_index tempFunc k = Some (breakpoint, degrees) ->
        3828 - tempRaw = breakpoint ->
        calcTempHW tempRaw = Some (float_of_int degrees)).
Proof.
  intros Hraw. unfold calcTempHW at 1 2. repeat split.
  - intros Hlow.
    destruct (Z.gtb_spec tempRaw 3828); [lia |].
    destruct (Z.ltb_spec tempRaw 1123); [reflexivity | lia].
  - intros Hhigh. destruct (Z.gtb_spec tempRaw 3828); [reflexivity | lia].
  - intros Hmid k breakpoint degrees Hrow Hbp.
    unfold at_index in Hrow. destruct (k <? 0); [discriminate |].
    pose proof calcTempHW_rows as Hrows.
    rewrite Forall_lookup in Hrows. specialize (Hrows _ _ Hrow). cbn in Hrows.
    replace tempRaw with (3828 - breakpoint) by lia. apply Hrows. lia.
Qed.

Lemma calcTempHW_boundaries_and_breakpoints_witness :
  (2513 < 1123 -> calcTempHW 2513 = Some (float_of_int 100))
  /\ (3828 < 2513 -> calcTempHW 2513 = Some (float_of_int 0))
  /\ (1123 < 2513 <= 3828 ->
      forall (k breakpoint degrees : Z),
        at_index tempFunc k = Some (breakpoint, degrees) ->
        3828 - 2513 = breakpoint ->
        calcTempHW 2513 = Some (float_of_int degrees)).
Proof. apply (calcTempHW_boundaries_and_breakpoints 2513). lia. Defined.

(** The breakpoint clause at work: 3828 - 2513 = 1315 is the breakpoint of
    row 18, whose temperature is 54. *)
Example calcTempHW_2513 : calcTempHW 2513 = Some (float_of_int 54).
Proof. vm_compute. reflexivity. Qed.

(** Away from the raw value 1123 the search loop leaves [i] within 1..25 and
    the function is defined. *)
Lemma calcTempHW_loop_in_range (tempRaw : Z) :
  0 <= tempRaw < 2705 ->
  exists i, calcTempHW_loop 27 0 tempRaw = Some i /\ 1 <= i <= 25.
Proof.
  intros Hraw.
  pose (ok := fun t => match calcTempHW_loop 27 0 t with
                       | Some i => (1 <=? i) && (i <=? 25)
                       | None => false
                       end).
  assert (Hok : ok tempRaw = true).
  { apply (forall_below 2705 ok); [vm_compute; reflexivity | lia]. }
  unfold ok in Hok. destruct (calcTempHW_loop 27 0 tempRaw) as [i |];
    [| discriminate].
  exists i. split; [reflexivity | lia].
Qed.

Lemma calcTempHW_defined (tempRaw : Z) :
  0 <= tempRaw < 65536 -> tempRaw <> 1123 ->
  exists degrees, calcTempHW tempRaw = Some degrees.
Proof.
  intros Hraw Hne. unfold calcTempHW.
  destruct (Z.gtb_spec tempRaw 3828); [eexists; reflexivity |].
  destruct (Z.ltb_spec tempRaw 1123); [eexists; reflexivity |].
  rewrite (Z.mod_small (3828 - tempRaw) 65536 ltac:(lia) : uint16_t _ = _).
  destruct (calcTempHW_loop_in_range (3828 - tempRaw)) as (i & Hi & Hrange);
    [lia |].
  rewrite Hi. cbn [mbind option_bind].
  assert (Hlo : is_Some (at_index tempFunc (i - 1))).
  { unfold at_index. destruct (Z.ltb_spec (i - 1) 0); [lia |].
    apply lookup_lt_is_Some. cbn. lia. }
  assert (Hhi : is_Some (at_index tempFunc i)).
  { unfold at_index. destruct (Z.ltb_spec i 0); [lia |].
    apply lookup_lt_is_Some. cbn. lia. }
  destruct Hlo as [lo ->], Hhi as [hi ->]. eexists. reflexivity.
Qed.

(** C9 fails at one raw input: for 1123 neither range check fires, the
    transformed value 2705 equals the last breakpoint, the search loop runs
    to [i] = 26, and the interpolation reads [tempFunc[26]], one row past
    the 26 rows of the table.  (For every other 16-bit raw input the index
    stays within 1..25, see [calcTempHW_loop_in_range].) *)
Theorem calcTempHW_1123_reads_past_table :
  (1123 >? 3828) = false /\ (1123 <? 1123) = false
  /\ calcTempHW_loop 27 0 (uint16_t (3828 - 1123)) = Some 26
  /\ at_index tempFunc 26 = None
  /\ calcTempHW 1123 = None.
Proof. split_all; vm_compute; reflexivity. Qed.

(** ** The invalidation flag of the combined data *)

Lemma bind_inv {A B : Type} (m : M A) (k : A -> M B) (st st' : globals) (b : B) :
  (m ≫= k) st = Some (b, st') ->
  exists a st1, m st = Some (a, st1) /\ k a st1 = Some (b, st').
Proof.
  unfold mbind, M_bind. destruct (m st) as [[a st1] |]; [| discriminate].
  intros H. exists a, st1. split; [reflexivity | exact H].
Qed.

Section Preserves.
Context {B : Type} (f : globals -> B).

Lemma preserves_ret {A : Type} (a : A) : preserves f (mret a).
Proof. intros st a' st' H. injection H as _ <-. reflexivity. Qed.

Lemma preserves_get {A : Type} (g : globals -> A) : preserves f (get g).
Proof. intros st a' st' H. injection H as _ <-. reflexivity. Qed.

Lemma preserves_defined {A : Type} (o : option A) : preserves f (defined o).
Proof.
  intros st a' st' H. unfold defined in H. destruct o; [| discriminate].
  injection H as _ <-. reflexivity.
Qed.

Lemma preserves_modify (g : globals -> globals) :
  (forall st, f (g st) = f st) -> preserves f (modify g).
Proof. intros Hg st a' st' H. injection H as _ <-. apply Hg. Qed.

Lemma preserves_bind {A C : Type} (m : M A) (k : A -> M C) :
  preserves f m -> (forall a, preserves f (k a)) -> preserves f (m ≫= k).
Proof.
  intros Hm Hk st c st' H.
  apply bind_inv in H as (a & st1 & H1 & H2).
  rewrite (Hk a _ _ _ H2). exact (Hm _ _ _ H1).
Qed.

Lemma preserves_for_range (body : Z -> M unit) (n : nat) (i : Z) :
  (forall j, preserves f (body j)) -> preserves f (for_range n i body).
Proof.
  intros Hbody. revert i. induction n as [| n IH]; intros i; cbn [for_range].
  - apply preserves_ret.
  - apply preserves_bind; [apply Hbody | intros _; apply IH].
Qed.

Lemma preserves_motorData (i : Z) : preserves f (motorData i).
Proof. intros st. apply preserves_defined. Qed.
End Preserves.

Create HintDb preserves.

Ltac preserves_step :=
  cbv beta zeta;
  first
    [ apply preserves_ret
    | apply preserves_get
    | apply preserves_defined
    | apply preserves_motorData
    | apply preserves_modify; intro; reflexivity
    | apply preserves_bind; [| intro]
    | apply preserves_for_range; intro
    | match goal with
      | |- preserves _ (if ?b then _ else _) => destruct b
      | |- preserves _ (match ?x with _ => _ end) => destruct x
      end
    | solve [auto with preserves] ].

Ltac preserves_tac := repeat preserves_step.

Lemma motorUpdate_keeps_flag (i : Z) (g : escSensorData_t -> escSensorData_t) :
  preserves combinedDataNeedsUpdate (motorUpdate i g).
Proof. unfold motorUpdate. preserves_tac. Qed.

Lemma combinedUpdate_keeps_flag (g : escSensorData_t -> escSensorData_t) :
  preserves combinedDataNeedsUpdate (combinedUpdate g).
Proof. unfold combinedUpdate. preserves_tac. Qed.

Lemma combinedUpdate_keeps_data (g : escSensorData_t -> escSensorData_t) :
  preserves escSensorData (combinedUpdate g).
Proof. unfold combinedUpdate. preserves_tac. Qed.

#[local] Hint Resolve motorUpdate_keeps_flag combinedUpdate_keeps_flag
  combinedUpdate_keeps_data : preserves.


Lemma isEscSensorValid_keeps (p : platform) {B : Type} (f : globals -> B) (i : Z) :
  preserves f (isEscSensorValid p i).
Proof. unfold isEscSensorValid. preserves_tac. Qed.

Lemma processHWv4TelemetryStream_keeps_flag (dataByte : Z) :
  preserves combinedDataNeedsUpdate (processHWv4TelemetryStream dataByte).
Proof. unfold processHWv4TelemetryStream. preserves_tac. Qed.

Lemma debugEscSensorRpm_keeps (p : platform) {B : Type} (f : globals -> B) :
  preserves f (debugEscSensorRpm p).
Proof. intros st u st' H. now rewrite (debugEscSensorRpm_inv p st st' u H). Qed.

#[local] Hint Resolve debugEscSensorRpm_keeps : preserves.

Lemma escSensorProcess_HWpacket_keeps_flag (p : platform) :
  preserves combinedDataNeedsUpdate (escSensorProcess_HWpacket p).
Proof. unfold escSensorProcess_HWpacket. preserves_tac. Qed.

#[local] Hint Resolve processHWv4TelemetryStream_keeps_flag
  escSensorProcess_HWpacket_keeps_flag isEscSensorValid_keeps : preserves.




(** A pass over a motor that is not valid zeroes the cached combined
    voltage, current, consumption and rpm directly. *)
Lemma escSensorProcess_zeroInvalid_combined (p : platform) (i : Z)
      (st st' : globals) :
  isEscSensorValid p (uint8_t i) st = Some (false, st) ->
  escSensorProcess_zeroInvalid p i st = Some (tt, st') ->
  combinedEscSensorData st' = zeroData (combinedEscSensorData st).
Proof.
  intros Hvalid H. unfold escSensorProcess_zeroInvalid in H.
  apply bind_inv in H as (valid & st1 & H1 & H2).
  rewrite Hvalid in H1. injection H1 as <- <-. cbn [negb] in H2.
  apply bind_inv in H2 as ([] & st2 & H2 & H3).
  injection H3 as <-. mproj.
  unfold motorUpdate in H2.
  apply bind_inv in H2 as (d & st3 & Hd & H2).
  apply (preserves_motorData combinedEscSensorData) in Hd.
  apply bind_inv in H2 as (a & st4 & Ha & H2). injection Ha as <- <-.
  apply bind_inv in H2 as (a' & st5 & Ha' & H2).
  apply (preserves_defined combinedEscSensorData) in Ha'.
  injection H2 as <-. mproj. congruence.
Qed.

(** The recomputation leaves the per-motor data alone and ends with the flag
    cleared. *)
Lemma combineAll_run (p : platform) (st st' : globals) (u : unit) :
  combineAll p st = Some (u, st') ->
  combinedDataNeedsUpdate st' = false /\ escSensorData st' = escSensorData st.
Proof.
  intros H. unfold combineAll in H.
  apply bind_inv in H as (u1 & st1 & H1 & H).
  apply bind_inv in H as (u2 & st2 & H2 & H).
  apply bind_inv in H as (u3 & st3 & H3 & H).
  injection H as _ <-. mproj. split; [reflexivity |].
  assert (Hloop : preserves escSensorData
                    (for_range (Z.to_nat (getMotorCount p)) 0 combineMotor)).
  { unfold combineMotor. preserves_tac. }
  assert (Havg : preserves escSensorData (combineAverage p)).
  { unfold combineAverage. preserves_tac. }
  rewrite (Havg _ _ _ H3), (Hloop _ _ _ H2).
  exact (combinedUpdate_keeps_data _ _ _ _ H1).
Qed.

Lemma getEscSensorData_combined (p : platform) (st st' : globals)
      (r : escSensorDataRef) :
  escSensorProtocol p = ESC_SENSOR_PROTOCOL_KISS ->
  featureIsEnabled_ESC_SENSOR p = true ->
  getMotorCount p <= ESC_SENSOR_COMBINED p ->
  getEscSensorData p (ESC_SENSOR_COMBINED p) st = Some (r, st') ->
  r = RefCombined
  /\ combinedDataNeedsUpdate st' = false
  /\ escSensorData st' = escSensorData st.
Proof.
  intros Hproto Hfeature Hcount H. unfold getEscSensorData in H.
  rewrite Hfeature, Hproto in H. cbn [negb] in H.
  destruct (Z.ltb_spec (ESC_SENSOR_COMBINED p) (getMotorCount p)); [lia |].
  rewrite Z.eqb_refl in H.
  apply bind_inv in H as (needsUpdate & st1 & H1 & H). injection H1 as <- <-.
  apply bind_inv in H as (u & st2 & H2 & H). injection H as <- <-.
  split; [reflexivity |].
  destruct (combinedDataNeedsUpdate st) eqn:Hflag.
  - exact (combineAll_run p _ _ _ H2).
  - injection H2 as _ <-. split; [assumption | reflexivity].
Qed.

(** What the KISS functions do to the flag and to the per-motor data. *)
Lemma decodeEscFrame_flag (p : platform) (st st' : globals)
      (r : escTlmFrameState_t) :
  decodeEscFrame p st = Some (r, st') ->
  (r <> ESC_SENSOR_FRAME_COMPLETE /\ st' = st)
  \/ (r = ESC_SENSOR_FRAME_COMPLETE /\ combinedDataNeedsUpdate st' = true).
Proof.
  intros H. unfold decodeEscFrame in H.
  apply bind_inv in H as (complete & st1 & H1 & H).
  unfold isFrameComplete in H1. injection H1 as <- <-.
  destruct (bufferPosition st =? bufferSize st); cbn [negb] in H.
  2: { injection H as <- <-. left. split; [discriminate | reflexivity]. }
  apply bind_inv in H as (buf & st1 & H1 & H). injection H1 as <- <-.
  apply bind_inv in H as (chksum & st1 & H1 & H).
  unfold defined in H1. destruct (calculateCrc8 _ _); [| discriminate].
  injection H1 as <- <-.
  apply bind_inv in H as (tlmsum & st1 & H1 & H).
  unfold defined in H1. destruct (at_index _ _); [| discriminate].
  injection H1 as <- <-.
  destruct (_ =? _).
  2: { injection H as <- <-. left. split; [discriminate | reflexivity]. }
  right.
  assert (Hlast : forall (m : M unit) (s0 s1 : globals) (res : escTlmFrameState_t),
             (m;; modify (set_combinedDataNeedsUpdate true);;
              debugEscSensorRpm p;;
              mret ESC_SENSOR_FRAME_COMPLETE) s0 = Some (res, s1) ->
             res = ESC_SENSOR_FRAME_COMPLETE /\ combinedDataNeedsUpdate s1 = true).
  { intros m s0 s1 res Hm.
    apply bind_inv in Hm as (u1 & s2 & _ & Hm).
    apply bind_inv in Hm as (u2 & s3 & Hs3 & Hm).
    injection Hs3 as _ <-.
    apply bind_inv in Hm as (u3 & s4 & Hs4 & Hm).
    apply debugEscSensorRpm_inv in Hs4 as ->.
    injection Hm as <- <-. split; reflexivity. }
  repeat (apply bind_inv in H as (? & ? & _ & H); try (eapply Hlast; exact H)).
Qed.


Lemma selectNextMotor_keeps (p : platform) {B : Type} (f : globals -> B) :
  (forall v st, f (set_escSensorMotor v st) = f st) ->
  preserves f (selectNextMotor p).
Proof.
  intros Hf st u st' H. rewrite selectNextMotor_run in H.
  injection H as _ <-. apply Hf.
Qed.



(** ** The Hobbywing V4 stream parser *)

Lemma processHWv4TelemetryStream_collision (st : globals) :
  parser_invariant st -> bytesRead st = 1 ->
  processHWv4TelemetryStream 0x9B st
  = Some (false, set_skipPackets 11 (set_bytesRead 0 st)).
Proof.
  intros [_ [Hskip | Hread]] Hone; [| congruence].
  unfold processHWv4TelemetryStream. munfold. rewrite Hskip, Hone. reflexivity.
Qed.

Lemma processHWv4TelemetryStream_invariant (dataByte : Z) (st st' : globals)
      (ready : bool) :
  parser_invariant st ->
  processHWv4TelemetryStream dataByte st = Some (ready, st') ->
  parser_invariant st'.
Proof.
  unfold parser_invariant. intros [Hnonneg Hinv] H.
  unfold processHWv4TelemetryStream in H. munfold in H.
  destruct (Z.gtb_spec (skipPackets st) 0) as [Hskip | Hskip].
  { injection H as _ <-. mproj. split; [apply uint8_t_range |].
    destruct Hinv; [lia | now right]. }
  assert (Hzero : skipPackets st = 0) by lia.
  destruct ((bytesRead st =? 0) && (dataByte =? 155)).
  { injection H as _ <-. mproj. split; [lia | now left]. }
  destruct ((bytesRead st =? 1) && (dataByte =? 155)).
  { injection H as _ <-. mproj. split; [lia | now right]. }
  destruct (bytesRead st >? 0).
  - destruct (store_at _ _ _); [| discriminate]. mproj_in H.
    destruct (_ =? 19); injection H as _ <-; mproj; split; (lia || now left).
  - injection H as _ <-. split; [lia | now left].
Qed.

(** As long as fewer than 18 bytes of a packet have been read, a byte does
    not complete a packet. *)
Lemma processHWv4TelemetryStream_not_ready (dataByte : Z) (st : globals) :
  length (telemetryData st) = 18%nat ->
  0 <= bytesRead st < 18 ->
  exists st',
    processHWv4TelemetryStream dataByte st = Some (false, st')
    /\ length (telemetryData st') = 18%nat
    /\ 0 <= bytesRead st' <= bytesRead st + 1.
Proof.
  intros Hlen Hread.
  unfold processHWv4TelemetryStream. munfold.
  destruct (skipPackets st >? 0).
  { eexists. split; [reflexivity |]. mproj. split; [assumption | lia]. }
  destruct ((bytesRead st =? 0) && (dataByte =? 155)) eqn:Hstart.
  { eexists. split; [reflexivity |]. mproj. split; [assumption | lia]. }
  destruct ((bytesRead st =? 1) && (dataByte =? 155)).
  { eexists. split; [reflexivity |]. mproj. split; [assumption | lia]. }
  destruct (Z.gtb_spec (bytesRead st) 0) as [Hpos | Hzero].
  - unfold store_at. rewrite Hlen.
    destruct (Z.leb_spec 0 (bytesRead st - 1)); [| lia].
    destruct (Z.ltb_spec (bytesRead st - 1) (Z.of_nat 18)); [| lia].
    cbn [andb]. mproj.
    rewrite (uint8_t_id (bytesRead st + 1)) by (unfold is_byte; lia).
    destruct (Z.eqb_spec (bytesRead st + 1) 19); [lia |].
    eexists. split; [reflexivity |]. mproj.
    split; [rewrite length_insert; assumption | lia].
  - eexists. split; [reflexivity |]. split; [assumption | lia].
Qed.

Lemma feedHWv4_cons (dataByte : Z) (bytes : list Z) (st : globals) :
  feedHWv4 (dataByte :: bytes) st
  = match processHWv4TelemetryStream dataByte st with
    | Some (ready, st1) =>
        match feedHWv4 bytes st1 with
        | Some (rest, st2) => Some (ready :: rest, st2)
        | None => None
        end
    | None => None
    end.
Proof.
  cbn [feedHWv4]. unfold mbind, M_bind, mret, M_ret.
  destruct (processHWv4TelemetryStream dataByte st) as [[ready st1] |];
    reflexivity.
Qed.

Lemma feedHWv4_not_ready (bytes : list Z) (st : globals) :
  length (telemetryData st) = 18%nat ->
  0 <= bytesRead st ->
  bytesRead st + Z.of_nat (length bytes) < 19 ->
  exists st' results,
    feedHWv4 bytes st = Some (results, st')
    /\ Forall (fun ready => ready = false) results
    /\ length results = length bytes.
Proof.
  revert st. induction bytes as [| dataByte bytes IH]; intros st Hlen Hread Hfit.
  - exists st, []. split; [reflexivity |]. split; [constructor | reflexivity].
  - cbn [length] in Hfit.
    destruct (processHWv4TelemetryStream_not_ready dataByte st Hlen)
      as (st1 & Hstep & Hlen1 & Hread1); [lia |].
    destruct (IH st1 Hlen1) as (st' & results & Hrest & Hall & Hcount);
      [lia | lia |].
    exists st', (false :: results).
    rewrite feedHWv4_cons, Hstep, Hrest.
    split; [reflexivity |]. split; [now constructor | cbn; now rewrite Hcount].
Qed.

(** C7: whenever the parser holds exactly one byte (in a state it can reach,
    where no skip is pending while a packet is open) and is fed the sentinel
    0x9B, it reports no packet, returns to idle ([bytesRead] = 0) and
    schedules the next 11 bytes to be skipped; the invariant holds at
    start-up and is kept by every call.  Fed [0x9B; 0x9B; 0x9B] and 16
    arbitrary bytes from idle, the parser reports no packet for the first
    two bytes, nor for any of the 19. *)
Theorem processHWv4TelemetryStream_resync :
  (forall st,
      parser_invariant st -> bytesRead st = 1 ->
      processHWv4TelemetryStream 0x9B st
      = Some (false, set_skipPackets 11 (set_bytesRead 0 st)))
  /\ (forall p, parser_invariant (globals_init p))
  /\ (forall dataByte st st' ready,
        parser_invariant st ->
        processHWv4TelemetryStream dataByte st = Some (ready, st') ->
        parser_invariant st')
  /\ (forall st tail,
        bytesRead st = 0 -> skipPackets st = 0 ->
        length (telemetryData st) = 18%nat ->
        length tail = 16%nat ->
        exists st' results,
          feedHWv4 ([0x9B; 0x9B; 0x9B] ++ tail) st = Some (results, st')
          /\ take 2 results = [false; false]
          /\ Forall (fun ready => ready = false) results
          /\ length results = 19%nat).
Proof.
  split; [exact processHWv4TelemetryStream_collision |].
  split; [intros p; split; [cbn; lia | now left] |].
  split; [exact processHWv4TelemetryStream_invariant |].
  intros st tail Hread Hskip Hlen Htail.
  set (st2 := set_skipPackets 11 (set_bytesRead 0 (set_bytesRead 1 st))).
  assert (H1 : processHWv4TelemetryStream 0x9B st
               = Some (false, set_bytesRead 1 st)).
  { unfold processHWv4TelemetryStream. munfold. rewrite Hskip, Hread.
    reflexivity. }
  assert (H2 : processHWv4TelemetryStream 0x9B (set_bytesRead 1 st)
               = Some (false, st2)).
  { unfold processHWv4TelemetryStream. munfold. mproj. rewrite Hskip.
    reflexivity. }
  destruct (feedHWv4_not_ready (0x9B :: tail) st2)
    as (st' & results & Hrest & Hall & Hcount).
  { exact Hlen. }
  { cbn. lia. }
  { cbn [length]. rewrite Htail. cbn. lia. }
  exists st', (false :: false :: results).
  change ([155; 155; 155] ++ tail) with (155 :: 155 :: 155 :: tail).
  rewrite feedHWv4_cons, H1, feedHWv4_cons, H2, Hrest.
  split; [reflexivity |]. split; [reflexivity |].
  split; [repeat constructor; assumption |].
  cbn [length]. rewrite Hcount. cbn [length]. rewrite Htail. reflexivity.
Qed.

Lemma processHWv4TelemetryStream_resync_witness :
  processHWv4TelemetryStream 0x9B (set_bytesRead 1 hw_initialised)
  = Some (false, set_skipPackets 11 (set_bytesRead 0 (set_bytesRead 1 hw_initialised)))
  /\ exists st' results,
       feedHWv4 ([0x9B; 0x9B; 0x9B] ++ replicate 16 0x9B) hw_initialised
       = Some (results, st')
       /\ take 2 results = [false; false]
       /\ Forall (fun ready => ready = false) results
       /\ length results = 19%nat.
Proof.
  destruct processHWv4TelemetryStream_resync as (Hcollision & _ & _ & Hfeed).
  split.
  - apply Hcollision; [split; [vm_compute; discriminate | left; reflexivity] |
                       reflexivity].
  - apply Hfeed; reflexivity.
Defined.

(** ** RPM *)

Lemma int_checked_in_range (x : Z) :
  INT_MIN <= x <= INT_MAX -> int_checked x = Some x.
Proof.
  intros H. unfold int_checked.
  destruct (Z.leb_spec INT_MIN x), (Z.leb_spec x INT_MAX); try lia. reflexivity.
Qed.

Lemma quot_in_range (a b : Z) :
  INT_MIN <= a <= INT_MAX -> 1 <= b -> INT_MIN <= Z.quot a b <= INT_MAX.
Proof.
  intros Ha Hb. unfold INT_MIN, INT_MAX in *.
  destruct (Z.le_gt_cases 0 a) as [Hpos | Hneg].
  - pose proof (Z.quot_pos a b Hpos ltac:(lia)).
    pose proof (Z.quot_le_upper_bound a b a ltac:(lia) ltac:(nia)). lia.
  - pose proof (Z.quot_opp_l a b ltac:(lia)) as Hopp.
    pose proof (Z.quot_pos (- a) b ltac:(lia) ltac:(lia)).
    pose proof (Z.quot_le_upper_bound (- a) b (- a) ltac:(lia) ltac:(nia)). lia.
Qed.

Lemma int_div_run (a b : Z) :
  INT_MIN <= a <= INT_MAX -> 1 <= b -> int_div a b = Some (Z.quot a b).
Proof.
  intros Ha Hb. unfold int_div.
  destruct (Z.eqb_spec b 0); [lia |].
  apply int_checked_in_range. now apply quot_in_range.
Qed.

(** C8: for every electrical-RPM value and pole count for which the C
    expression is defined (a pole count of at least 2, so that the divisor
    is not zero, and [erpm * 100] within [int]), [calcEscRpm] returns
    [erpm * 100 / (pole_count / 2)], both divisions truncating. *)
Theorem calcEscRpm_formula (p : platform) (erpm : Z) :
  2 <= motorPoleCount p <= INT_MAX ->
  INT_MIN <= erpm * 100 <= INT_MAX ->
  calcEscRpm p erpm
  = Some (Z.quot (erpm * 100) (Z.quot (motorPoleCount p) 2)).
Proof.
  intros Hpoles Hscaled. unfold calcEscRpm.
  rewrite (int_checked_in_range _ Hscaled). cbn [mbind option_bind].
  assert (Hpairs : 1 <= Z.quot (motorPoleCount p) 2).
  { apply Z.quot_le_lower_bound; lia. }
  rewrite (int_div_run (motorPoleCount p) 2)
    by (unfold INT_MIN, INT_MAX in *; lia).
  cbn [mbind option_bind]. now apply int_div_run.
Qed.

Lemma calcEscRpm_formula_witness :
  calcEscRpm example_KISS (-5)
  = Some (Z.quot (-5 * 100) (Z.quot (motorPoleCount example_KISS) 2)).
Proof.
  apply (calcEscRpm_formula example_KISS (-5)).
  - unfold INT_MAX. cbn. lia.
  - unfold INT_MIN, INT_MAX. lia.
Defined.

(** Truncation is towards zero: -500 / 7 is -71, not -72; and an odd pole
    count loses its half pole pair. *)
Example calcEscRpm_truncates :
  calcEscRpm example_KISS (-5) = Some (-71)
  /\ calcEscRpm example_KISS 5 = Some 71.
Proof. split; vm_compute; reflexivity. Qed.

(** C10, as stated, fails in its last part: after the valid frame
    [frame_high] (rpm bytes 0xFFFF) motor 0's stored rpm field is -1, and
    [getEscSensorRPM] returns 65535 for it. *)
Lemma getEscSensorRPM_negative_counterexample :
  0 < getMotorCount example_KISS
  /\ rpm <$> at_index (escSensorData (kiss_frame_decoded frame_high)) 0
     = Some (-1)
  /\ getEscSensorRPM example_KISS 0 (kiss_frame_decoded frame_high)
     = Some (65535, kiss_frame_decoded frame_high)
  /\ 65535 <> -1.
Proof.
  split; [reflexivity |]. split; [vm_compute; reflexivity |].
  split; [vm_compute; reflexivity | discriminate].
Qed.

(** C10, amended: [getEscSensorRPM] returns 0 and changes nothing for every
    motor index at or above the motor count, the combined index
    [ESC_SENSOR_COMBINED] included, which [getEscSensorData] answers with a
    reading ([&combinedEscSensorData] for KISS, [&escSensorData[0]] for
    Hobbywing) when the feature is enabled; for an index below the motor
    count it returns that motor's stored rpm field converted to [uint16_t]
    (the field itself when it is not negative) and changes nothing, so no
    aggregation happens. *)
Theorem getEscSensorRPM_behaviour (p : platform) (motorNumber : Z) (st : globals) :
  (getMotorCount p <= motorNumber ->
   getEscSensorRPM p motorNumber st = Some (0, st))
  /\ (getMotorCount p <= ESC_SENSOR_COMBINED p ->
      getEscSensorRPM p (ESC_SENSOR_COMBINED p) st = Some (0, st)
      /\ (featureIsEnabled_ESC_SENSOR p = true ->
          escSensorProtocol p <> ESC_SENSOR_PROTOCOL_OTHER ->
          forall r st',
            getEscSensorData p (ESC_SENSOR_COMBINED p) st = Some (r, st') ->
            r = match escSensorProtocol p with
                | ESC_SENSOR_PROTOCOL_KISS => RefCombined
                | _ => RefMotor 0
                end))
  /\ (forall d,
        motorNumber < getMotorCount p ->
        at_index (escSensorData st) motorNumber = Some d ->
        getEscSensorRPM p motorNumber st = Some (uint16_t (rpm d), st)
        /\ (0 <= rpm d < 65536 -> uint16_t (rpm d) = rpm d)).
Proof.
  assert (Hzero : forall n, getMotorCount p <= n ->
                            getEscSensorRPM p n st = Some (0, st)).
  { intros n Hn. unfold getEscSensorRPM.
    destruct (Z.ltb_spec n (getMotorCount p)); [lia | reflexivity]. }
  split; [apply Hzero |]. split.
  - intros Hcount. split; [now apply Hzero |].
    intros Hfeature Hproto r st' H. unfold getEscSensorData in H.
    rewrite Hfeature in H. cbn [negb] in H.
    destruct (Z.ltb_spec (ESC_SENSOR_COMBINED p) (getMotorCount p)); [lia |].
    rewrite Z.eqb_refl in H.
    destruct (escSensorProtocol p); [| | contradiction].
    + apply bind_inv in H as (needsUpdate & st1 & _ & H).
      apply bind_inv in H as (u & st2 & _ & H). injection H as <- _.
      reflexivity.
    + injection H as <- _. reflexivity.
  - intros d Hlt Hd. split.
    + unfold getEscSensorRPM.
      destruct (Z.ltb_spec motorNumber (getMotorCount p)); [| lia].
      munfold. rewrite Hd. reflexivity.
    + intros Hrange. unfold uint16_t. apply Z.mod_small. lia.
Qed.

Lemma getEscSensorRPM_behaviour_witness :
  getEscSensorRPM example_KISS 255 (kiss_frame_decoded frame_nominal)
  = Some (0, kiss_frame_decoded frame_nominal)
  /\ getEscSensorRPM example_KISS 0 (kiss_frame_decoded frame_nominal)
     = Some (uint16_t 1000, kiss_frame_decoded frame_nominal)
  /\ uint16_t 1000 = 1000.
Proof.
  destruct (getEscSensorRPM_behaviour
              example_KISS 255 (kiss_frame_decoded frame_nominal))
    as (Hzero & _ & _).
  destruct (getEscSensorRPM_behaviour
              example_KISS 0 (kiss_frame_decoded frame_nominal))
    as (_ & _ & Hread).
  split; [apply Hzero; vm_compute; discriminate |].
  destruct (Hread {| dataAge := 0; temperature := 25; voltage := 1600;
                     current := 100; consumption := 5; rpm := 1000 |})
    as [Hrpm Hid].
  - reflexivity.
  - vm_compute. reflexivity.
  - split; [exact Hrpm | apply Hid; cbn; lia].
Defined.

(** * Further properties of the code *)

(** ** The checksum as an error-detecting code *)

Lemma lxor_eq_iff (a b : Z) : Z.lxor a b = 0 <-> a = b.
Proof. split; [apply Z.lxor_eq | intros ->; apply Z.lxor_nilpotent]. Qed.

Lemma crc8_rounds_injective (x y : Z) :
  is_byte x -> is_byte y ->
  Nat.iter 8 crc8_spec_round x = Nat.iter 8 crc8_spec_round y -> x = y.
Proof.
  intros Hx Hy Heq. apply Z.eqb_eq.
  pose (row := fun x =>
          forallb (fun y => negb (Nat.iter 8 crc8_spec_round x
                                  =? Nat.iter 8 crc8_spec_round y)
                            || (x =? y))
                  (map Z.of_nat (seq 0 256))).
  assert (Hrow : row x = true).
  { revert x Hx Heq. intros x Hx _. revert x Hx. apply forall_byte.
    vm_compute. reflexivity. }
  pose proof (forall_byte _ Hrow y Hy) as Hxy. cbv beta in Hxy.
  rewrite Heq, Z.eqb_refl in Hxy. exact Hxy.
Qed.

Lemma crc8_spec_byte_eq (value byte : Z) :
  crc8_spec_byte value byte = Nat.iter 8 crc8_spec_round (Z.lxor value byte).
Proof. reflexivity. Qed.

Lemma crc8_rounds_zero : Nat.iter 8 crc8_spec_round 0 = 0.
Proof. vm_compute. reflexivity. Qed.

Lemma crc8_spec_byte_range (value byte : Z) :
  is_byte value -> is_byte byte -> is_byte (crc8_spec_byte value byte).
Proof.
  intros Hv Hb. destruct (updateCrc8_spec byte value Hb Hv) as [<- H]. exact H.
Qed.

Lemma crc8_spec_byte_injective_byte (value b b' : Z) :
  is_byte value -> is_byte b -> is_byte b' ->
  crc8_spec_byte value b = crc8_spec_byte value b' -> b = b'.
Proof.
  intros Hv Hb Hb' Heq. rewrite !crc8_spec_byte_eq in Heq.
  apply crc8_rounds_injective in Heq; try (apply lxor_byte; assumption).
  apply (f_equal (Z.lxor value)) in Heq.
  now rewrite <- !Z.lxor_assoc, Z.lxor_nilpotent, !Z.lxor_0_l in Heq.
Qed.

Lemma crc8_spec_byte_injective_value (v v' b : Z) :
  is_byte v -> is_byte v' -> is_byte b ->
  crc8_spec_byte v b = crc8_spec_byte v' b -> v = v'.
Proof.
  intros Hv Hv' Hb Heq. rewrite !crc8_spec_byte_eq in Heq.
  apply crc8_rounds_injective in Heq; try (apply lxor_byte; assumption).
  apply (f_equal (fun x => Z.lxor x b)) in Heq. cbv beta in Heq.
  now rewrite !Z.lxor_assoc, Z.lxor_nilpotent, !Z.lxor_0_r in Heq.
Qed.

Lemma crc8_spec_byte_zero (value byte : Z) :
  is_byte value -> is_byte byte ->
  crc8_spec_byte value byte = 0 <-> byte = value.
Proof.
  intros Hv Hb. split.
  - intros Hzero. symmetry. apply lxor_eq_iff.
    apply (crc8_rounds_injective (Z.lxor value byte) 0);
      [now apply lxor_byte | unfold is_byte; lia |].
    rewrite crc8_rounds_zero, <- crc8_spec_byte_eq. exact Hzero.
  - intros ->. rewrite crc8_spec_byte_eq, Z.lxor_nilpotent.
    exact crc8_rounds_zero.
Qed.

Lemma fold_crc8_range (bytes : list Z) (value : Z) :
  Forall is_byte bytes -> is_byte value ->
  is_byte (fold_left crc8_spec_byte bytes value).
Proof.
  revert value. induction bytes as [| b bytes IH]; intros value Hall Hv.
  - exact Hv.
  - apply Forall_cons in Hall as [Hb Hall]. rewrite fold_left_cons.
    apply IH; [assumption | now apply crc8_spec_byte_range].
Qed.

Lemma fold_crc8_injective (bytes : list Z) (v v' : Z) :
  Forall is_byte bytes -> is_byte v -> is_byte v' ->
  fold_left crc8_spec_byte bytes v = fold_left crc8_spec_byte bytes v' ->
  v = v'.
Proof.
  revert v v'. induction bytes as [| b bytes IH]; intros v v' Hall Hv Hv' Heq.
  - exact Heq.
  - apply Forall_cons in Hall as [Hb Hall]. rewrite !fold_left_cons in Heq.
    apply IH in Heq; try assumption; try now apply crc8_spec_byte_range.
    now apply (crc8_spec_byte_injective_value v v' b).
Qed.

(** Replacing one byte of a message changes its checksum. *)
Lemma crc8_spec_detects_one_byte (pre post : list Z) (b b' : Z) :
  Forall is_byte pre -> Forall is_byte post -> is_byte b -> is_byte b' ->
  b <> b' ->
  crc8_spec (pre ++ b :: post) <> crc8_spec (pre ++ b' :: post).
Proof.
  intros Hpre Hpost Hb Hb' Hne Heq. apply Hne. unfold crc8_spec in Heq.
  rewrite !fold_left_app, !fold_left_cons in Heq.
  assert (Hv : is_byte (fold_left crc8_spec_byte pre 0)).
  { apply fold_crc8_range; [assumption | unfold is_byte; lia]. }
  apply fold_crc8_injective in Heq; try assumption;
    try now apply crc8_spec_byte_range.
  now apply (crc8_spec_byte_injective_byte _ b b') in Heq.
Qed.

Lemma frame_valid_spec (frame : list Z) :
  Forall is_byte frame -> length frame = 10%nat ->
  frame_valid frame <-> at_index frame 9 = Some (crc8_spec (take 9 frame)).
Proof.
  intros Hall Hlen. unfold frame_valid.
  destruct (calculateCrc8_spec frame 9 Hall) as [Hcrc _]; [lia |].
  change (Z.to_nat 9) with 9%nat in Hcrc. rewrite Hcrc. split.
  - intros (crc & Hc & Hlast). now injection Hc as <-.
  - intros Hlast. eexists. split; [reflexivity | exact Hlast].
Qed.

(** X1: single-byte error detection.  If a ten-byte frame passes the
    checksum test of [decodeEscFrame], then every frame that differs from
    it in exactly one byte (any position, the checksum byte included) fails
    the test. *)
Theorem frame_valid_detects_single_byte_error (frame : list Z) (i : nat)
        (old new : Z) :
  Forall is_byte frame -> length frame = 10%nat ->
  frame !! i = Some old -> is_byte new -> new <> old ->
  frame_valid frame ->
  ~ frame_valid (<[i := new]> frame).
Proof.
  intros Hall Hlen Hold Hnew Hne Hvalid Hvalid'.
  assert (Hall' : Forall is_byte (<[i := new]> frame)).
  { now apply Forall_insert. }
  apply frame_valid_spec in Hvalid; [| assumption | assumption].
  apply frame_valid_spec in Hvalid';
    [| assumption | now rewrite length_insert].
  pose proof (lookup_lt_Some _ _ _ Hold) as Hi.
  unfold at_index in Hvalid, Hvalid'. cbn [Z.ltb Z.compare] in Hvalid, Hvalid'.
  change (Z.to_nat 9) with 9%nat in Hvalid, Hvalid'.
  destruct (decide (i = 9%nat)) as [-> | Hi9].
  - rewrite list_lookup_insert_eq in Hvalid' by lia.
    rewrite take_insert_ge in Hvalid' by lia. congruence.
  - rewrite list_lookup_insert_ne in Hvalid' by assumption.
    rewrite Hvalid in Hvalid'. injection Hvalid' as Heq.
    assert (Hi' : (i < 9)%nat) by lia.
    assert (Hsplit : take 9 frame = take i frame ++ old :: drop (S i) (take 9 frame)).
    { rewrite <- (take_drop_middle (take 9 frame) i old) at 1.
      - rewrite take_take, Nat.min_l by lia. reflexivity.
      - rewrite lookup_take_lt by lia. exact Hold. }
    assert (Hsplit' : take 9 (<[i := new]> frame)
                      = take i frame ++ new :: drop (S i) (take 9 frame)).
    { rewrite take_insert_lt by lia. rewrite Hsplit at 1.
      rewrite insert_app_r_alt by (rewrite length_take; lia).
      rewrite length_take. replace (i - i `min` length frame)%nat with 0%nat by lia.
      reflexivity. }
    rewrite Hsplit, Hsplit' in Heq.
    apply Forall_take with (n := 9%nat) in Hall as Hall9. rewrite Hsplit in Hall9.
    apply Forall_app in Hall9 as [Hpre Hrest].
    apply Forall_cons in Hrest as [Hb Hpost].
    revert Heq. apply crc8_spec_detects_one_byte; auto.
Qed.

Lemma frame_valid_detects_single_byte_error_witness :
  ~ frame_valid (<[3%nat := 1]> frame_nominal).
Proof.
  apply (frame_valid_detects_single_byte_error frame_nominal 3 0 1).
  - unfold frame_nominal, is_byte. repeat constructor; lia.
  - reflexivity.
  - reflexivity.
  - unfold is_byte. lia.
  - discriminate.
  - exists 88. split; vm_compute; reflexivity.
Defined.

(** What [decodeEscFrame] answers on a complete ten-byte buffer. *)
Lemma decodeEscFrame_result (p : platform) (st st' : globals)
      (r : escTlmFrameState_t) :
  bufferPosition st = bufferSize st ->
  decodeEscFrame p st = Some (r, st') ->
  (r = ESC_SENSOR_FRAME_COMPLETE /\ frame_valid (telemetryBuffer st))
  \/ (r = ESC_SENSOR_FRAME_FAILED /\ ~ frame_valid (telemetryBuffer st)
      /\ st' = st).
Proof.
  intros Hpos H. unfold decodeEscFrame in H.
  apply bind_inv in H as (complete & st1 & H1 & H).
  unfold isFrameComplete in H1. injection H1 as <- <-.
  rewrite Hpos, Z.eqb_refl in H. cbn [negb] in H.
  apply bind_inv in H as (buf & st1 & H1 & H). injection H1 as <- <-.
  apply bind_inv in H as (chksum & st1 & H1 & H).
  unfold defined in H1. change (TELEMETRY_FRAME_SIZE - 1) with 9 in *.
  destruct (calculateCrc8 (telemetryBuffer st) 9) as [c |] eqn:Hc; [| discriminate].
  injection H1 as <- <-.
  apply bind_inv in H as (tlmsum & st1 & H1 & H).
  unfold defined in H1.
  destruct (at_index (telemetryBuffer st) 9) as [t |] eqn:Ht; [| discriminate].
  injection H1 as <- <-.
  destruct (Z.eqb_spec c t) as [-> | Hne].
  - left. split; [| exists t; split; assumption].
    destruct (decodeEscFrame_flag p st st' r) as [[Hr _] | [Hr _]]; [| | exact Hr].
    + unfold decodeEscFrame. unfold mbind at 1, M_bind at 1.
      unfold isFrameComplete, get. rewrite Hpos, Z.eqb_refl. cbn [negb].
      unfold mbind at 1, M_bind at 1. unfold get.
      unfold mbind at 1, M_bind at 1. unfold defined at 1.
      change (TELEMETRY_FRAME_SIZE - 1) with 9. rewrite Hc.
      unfold mbind at 1, M_bind at 1. unfold defined at 1. rewrite Ht.
      rewrite Z.eqb_refl. exact H.
    + exfalso.
      repeat (apply bind_inv in H as (? & ? & _ & H)).
      injection H as <- _. apply Hr. reflexivity.
  - right. injection H as <- <-. split; [reflexivity |]. split; [| reflexivity].
    intros (crc & Hc' & Ht'). congruence.
Qed.

Lemma f_equal_iff_Some {A : Type} (x y : A) : Some x = Some y <-> x = y.
Proof. split; [intros H; now injection H | intros ->; reflexivity]. Qed.

(** X2: the residue form of the checksum test.  A ten-byte frame passes the
    test of [decodeEscFrame] (byte 9 equals the CRC8 of bytes 0..8) exactly
    when the CRC8 of all ten bytes is 0. *)
Theorem frame_valid_iff_zero_residue (frame : list Z) :
  Forall is_byte frame -> length frame = 10%nat ->
  frame_valid frame <-> calculateCrc8 frame 10 = Some 0.
Proof.
  intros Hall Hlen.
  rewrite (frame_valid_spec frame Hall Hlen).
  destruct (calculateCrc8_spec frame 10 Hall) as [Hcrc _]; [lia |].
  rewrite Hcrc. change (Z.to_nat 10) with 10%nat.
  rewrite <- Hlen, firstn_all.
  assert (Hlast : exists b9, at_index frame 9 = Some b9 /\ is_byte b9
                             /\ frame = take 9 frame ++ [b9]).
  { destruct (lookup_lt_is_Some_2 frame 9 ltac:(lia)) as [b9 Hb9].
    exists b9. split; [exact Hb9 |]. split.
    - rewrite Forall_lookup in Hall. exact (Hall _ _ Hb9).
    - rewrite <- (take_drop_middle frame 9 b9 Hb9) at 1.
      rewrite drop_ge by lia. reflexivity. }
  destruct Hlast as (b9 & Hb9 & Hbyte & Hsplit).
  rewrite Hb9. rewrite Hsplit at 2. unfold crc8_spec at 2.
  rewrite fold_left_app, fold_left_cons. cbn [fold_left].
  fold (crc8_spec (take 9 frame)).
  assert (Hv : is_byte (crc8_spec (take 9 frame))).
  { apply fold_crc8_range; [now apply Forall_take | unfold is_byte; lia]. }
  rewrite (f_equal_iff_Some (crc8_spec_byte (crc8_spec (take 9 frame)) b9) 0).
  rewrite (crc8_spec_byte_zero _ _ Hv Hbyte).
  split; [intros H; now injection H | intros ->; reflexivity].
Qed.

Lemma frame_valid_iff_zero_residue_witness :
  frame_valid frame_nominal <-> calculateCrc8 frame_nominal 10 = Some 0.
Proof.
  apply (frame_valid_iff_zero_residue frame_nominal).
  - repeat constructor; unfold is_byte; lia.
  - reflexivity.
Defined.

(** ** The receive path of the KISS frame buffer *)

Lemma with_buffer_eta (st : globals) :
  with_buffer (telemetryBuffer st) (bufferPosition st) st = st.
Proof. destruct st. reflexivity. Qed.

Lemma escSensorDataReceive_complete (c : Z) (st : globals) :
  bufferPosition st = bufferSize st ->
  escSensorDataReceive c st = Some (tt, st).
Proof.
  intros H. unfold escSensorDataReceive. munfold. rewrite H, Z.eqb_refl.
  reflexivity.
Qed.

Lemma escSensorDataReceive_store (c : Z) (st : globals) (pre rest : list Z)
      (r0 : Z) :
  telemetryBuffer st = pre ++ r0 :: rest ->
  bufferPosition st = Z.of_nat (length pre) ->
  bufferPosition st < bufferSize st <= 255 ->
  escSensorDataReceive c st
  = Some (tt, with_buffer (pre ++ uint8_t c :: rest)
                          (Z.of_nat (length (pre ++ [uint8_t c]))) st).
Proof.
  intros Hbuf Hpos Hsize. unfold escSensorDataReceive. munfold.
  destruct (Z.eqb_spec (bufferPosition st) (bufferSize st)); [lia |].
  unfold store_at. rewrite Hbuf, Hpos, length_app. cbn [length].
  destruct (Z.leb_spec 0 (Z.of_nat (length pre))); [| lia].
  destruct (Z.ltb_spec (Z.of_nat (length pre))
                       (Z.of_nat (length pre + S (length rest)))); [| lia].
  cbn [andb]. rewrite Nat2Z.id.
  rewrite insert_app_r_alt by lia. rewrite Nat.sub_diag. cbn [insert list_insert].
  rewrite uint8_t_id by (unfold is_byte; lia).
  unfold with_buffer. rewrite length_app. cbn [length].
  replace (Z.of_nat (length pre + 1)) with (Z.of_nat (length pre) + 1) by lia.
  reflexivity.
Qed.

Lemma receiveAll_store (bytes : list Z) :
  forall (st : globals) (pre rest : list Z),
    telemetryBuffer st = pre ++ rest ->
    bufferPosition st = Z.of_nat (length pre) ->
    (length bytes <= length rest)%nat ->
    Z.of_nat (length pre + length bytes) <= bufferSize st <= 255 ->
    receiveAll bytes st
    = Some (tt, with_buffer (pre ++ map uint8_t bytes ++ drop (length bytes) rest)
                            (Z.of_nat (length pre + length bytes)) st).
Proof.
  induction bytes as [| c bytes IH]; intros st pre rest Hbuf Hpos Hlen Hsize.
  - replace (pre ++ map uint8_t [] ++ drop (length (@nil Z)) rest)
      with (telemetryBuffer st) by (rewrite Hbuf; reflexivity).
    replace (Z.of_nat (length pre + length (@nil Z))) with (bufferPosition st)
      by (rewrite Hpos; cbn [length]; lia).
    now rewrite with_buffer_eta.
  - destruct rest as [| r0 rest]; [cbn in Hlen; lia |].
    cbn [receiveAll]. unfold mbind at 1, M_bind at 1.
    cbn [length] in Hlen, Hsize.
    rewrite (escSensorDataReceive_store c st pre rest r0 Hbuf Hpos) by lia.
    rewrite (IH _ (pre ++ [uint8_t c]) rest).
    + unfold with_buffer. mproj. cbn [map length drop].
      rewrite <- app_assoc. cbn [app]. rewrite length_app. cbn [length].
      replace (length pre + 1 + length bytes)%nat
        with (length pre + S (length bytes))%nat by lia.
      reflexivity.
    + unfold with_buffer. mproj. now rewrite <- app_assoc.
    + reflexivity.
    + lia.
    + unfold with_buffer. mproj. rewrite length_app. cbn [length]. lia.
Qed.

(** X3: arming the frame buffer and receiving as many bytes as were asked
    for stores the low eight bits of each received value in order at the
    start of the buffer, leaves the rest of the buffer and every other
    variable alone, and completes the frame: the fill position equals both
    the number of bytes and the frame length. *)
Theorem startEscDataRead_receiveAll (frameLength : Z) (bytes : list Z)
        (st : globals) :
  0 <= frameLength <= 255 ->
  Z.of_nat (length bytes) = frameLength ->
  (length bytes <= length (telemetryBuffer st))%nat ->
  exists st',
    (startEscDataRead frameLength;; receiveAll bytes) st = Some (tt, st')
    /\ st' = with_buffer (map uint8_t bytes
                          ++ drop (length bytes) (telemetryBuffer st))
                         frameLength (set_bufferSize frameLength st)
    /\ isFrameComplete st' = Some (true, st')
    /\ getNumberEscBytesRead st' = Some (frameLength, st').
Proof.
  intros Hrange Hlen Hfit. eexists. split.
  - unfold startEscDataRead. unfold mbind at 1, M_bind at 1.
    unfold mbind at 1, M_bind at 1. unfold modify.
    rewrite (uint8_t_id frameLength) by (unfold is_byte; lia).
    rewrite (receiveAll_store bytes _ [] (telemetryBuffer st));
      [reflexivity | reflexivity | reflexivity | exact Hfit |].
    mproj. cbn [length]. lia.
  - cbn [length app Nat.add]. rewrite Hlen. unfold with_buffer.
    split; [reflexivity |].
    unfold isFrameComplete, getNumberEscBytesRead, get. mproj.
    rewrite Z.eqb_refl. split; reflexivity.
Qed.

Lemma startEscDataRead_receiveAll_witness :
  exists st',
    (startEscDataRead 10;; receiveAll frame_nominal) (globals_init example_KISS)
    = Some (tt, st')
    /\ st' = with_buffer (map uint8_t frame_nominal
                          ++ drop (length frame_nominal)
                                  (telemetryBuffer (globals_init example_KISS)))
                         10 (set_bufferSize 10 (globals_init example_KISS))
    /\ isFrameComplete st' = Some (true, st')
    /\ getNumberEscBytesRead st' = Some (10, st').
Proof.
  apply (startEscDataRead_receiveAll 10 frame_nominal (globals_init example_KISS)).
  - lia.
  - reflexivity.
  - cbn. lia.
Defined.

(** X4: once the frame is complete the receive callback drops every further
    byte: no variable changes, whatever arrives and however much of it. *)
Theorem receiveAll_complete_ignored (bytes : list Z) (st : globals) :
  bufferPosition st = bufferSize st ->
  receiveAll bytes st = Some (tt, st).
Proof.
  intros Hcomplete. induction bytes as [| c bytes IH]; [reflexivity |].
  cbn [receiveAll]. unfold mbind, M_bind.
  rewrite (escSensorDataReceive_complete c st Hcomplete). exact IH.
Qed.

Lemma receiveAll_complete_ignored_witness :
  receiveAll [1; 2; 3] (kiss_frame_received frame_nominal)
  = Some (tt, kiss_frame_received frame_nominal).
Proof.
  apply (receiveAll_complete_ignored [1; 2; 3] (kiss_frame_received frame_nominal)).
  vm_compute. reflexivity.
Defined.

(** ** The KISS polling cycle *)

Lemma escSensorProcess_KISS_ready (p : platform) (currentTimeMs : Z)
      (st : globals) :
  escSensorTriggerState st = ESC_SENSOR_TRIGGER_READY ->
  escSensorProcess_KISS p currentTimeMs st
  = Some (tt, set_escSensorTriggerState ESC_SENSOR_TRIGGER_PENDING
                (set_bufferSize 10
                   (set_bufferPosition 0
                      (set_escTriggerTimestamp currentTimeMs st)))).
Proof.
  intros Htrig. unfold escSensorProcess_KISS, startEscDataRead.
  cbv beta iota delta [mbind M_bind mret M_ret get modify]. rewrite Htrig.
  reflexivity.
Qed.

Lemma map_uint8_t_bytes (bytes : list Z) :
  Forall is_byte bytes -> map uint8_t bytes = bytes.
Proof.
  induction 1 as [| b bytes Hb _ IH]; [reflexivity |].
  cbn [map]. now rewrite IH, uint8_t_id.
Qed.

(** X5: one KISS poll from request to result.  From the READY state, the
    cycle that requests telemetry, the ten bytes of a checksum-valid frame
    arriving through the receive callback, and a following cycle before
    the 100 ms timeout together store the decoded reading for the polled
    motor, set the invalidation flag, move on to the next motor, return to
    READY and leave both error counters alone.  Where the rpm debug output
    is evaluated (motor index below 4) the pole count is taken within
    2..255, so that its division has a value. *)
Theorem kiss_poll_decodes_received_frame
        (p : platform) (now later : Z) (st : globals)
        (b0 b1 b2 b3 b4 b5 b6 b7 b8 b9 : Z) (d : escSensorData_t) :
  escSensorTriggerState st = ESC_SENSOR_TRIGGER_READY ->
  length (telemetryBuffer st) = 10%nat ->
  Forall is_byte [b0; b1; b2; b3; b4; b5; b6; b7; b8; b9] ->
  calculateCrc8 [b0; b1; b2; b3; b4; b5; b6; b7; b8] 9 = Some b9 ->
  at_index (escSensorData st) (escSensorMotor st) = Some d ->
  later < uint32_t (now + ESC_REQUEST_TIMEOUT) ->
  (escSensorMotor st < 4 -> debugSetEvaluatesRpm p = true ->
   2 <= motorPoleCount p <= 255) ->
  exists st',
    (escSensorProcess_KISS p now;;
     receiveAll [b0; b1; b2; b3; b4; b5; b6; b7; b8; b9];;
     escSensorProcess_KISS p later) st = Some (tt, st')
    /\ at_index (escSensorData st') (escSensorMotor st)
       = Some {| dataAge := 0;
                 temperature := int8_t b0;
                 voltage := int16_t (b1 * 256 + b2);
                 current := b3 * 256 + b4;
                 consumption := b5 * 256 + b6;
                 rpm := int16_t (b7 * 256 + b8) |}
    /\ combinedDataNeedsUpdate st' = true
    /\ escSensorMotor st' = nextMotor p (escSensorMotor st)
    /\ escSensorTriggerState st' = ESC_SENSOR_TRIGGER_READY
    /\ totalCrcErrorCount st' = totalCrcErrorCount st
    /\ totalTimeoutCount st' = totalTimeoutCount st.
Proof.
  intros Htrig Hlen Hbytes Hcrc Hd Hlater Hpoles.
  set (frame := [b0; b1; b2; b3; b4; b5; b6; b7; b8; b9]) in *.
  set (st1 := set_escSensorTriggerState ESC_SENSOR_TRIGGER_PENDING
                (set_bufferSize 10
                   (set_bufferPosition 0 (set_escTriggerTimestamp now st)))).
  set (st2 := with_buffer frame 10 st1).
  assert (H1 : escSensorProcess_KISS p now st = Some (tt, st1))
    by now apply escSensorProcess_KISS_ready.
  assert (H2 : receiveAll frame st1 = Some (tt, st2)).
  { rewrite (receiveAll_store frame st1 [] (telemetryBuffer st));
      [| reflexivity | reflexivity | rewrite Hlen; cbn; lia | cbn; lia].
    unfold st2. rewrite (map_uint8_t_bytes frame Hbytes).
    rewrite drop_ge by (rewrite Hlen; cbn; lia).
    rewrite app_nil_r. reflexivity. }
  assert (H3 : decodeEscFrame p st2
               = Some (ESC_SENSOR_FRAME_COMPLETE,
                       set_combinedDataNeedsUpdate true
                         (set_escSensorData
                            (<[Z.to_nat (escSensorMotor st2) :=
                                 {| dataAge := 0;
                                    temperature := int8_t b0;
                                    voltage := int16_t (b1 * 256 + b2);
                                    current := b3 * 256 + b4;
                                    consumption := b5 * 256 + b6;
                                    rpm := int16_t (b7 * 256 + b8) |}]>
                               (escSensorData st2)) st2))).
  { apply (decodeEscFrame_complete p st2 b0 b1 b2 b3 b4 b5 b6 b7 b8 b9 d);
      try assumption; reflexivity. }
  eexists. split.
  { unfold mbind at 1, M_bind at 1. rewrite H1.
    unfold mbind at 1, M_bind at 1. rewrite H2.
    unfold escSensorProcess_KISS.
    unfold mbind at 1, M_bind at 1. unfold get at 1.
    change (escSensorTriggerState st2) with ESC_SENSOR_TRIGGER_PENDING.
    cbv iota.
    unfold mbind at 1, M_bind at 1. unfold get at 1.
    change (escTriggerTimestamp st2) with now.
    destruct (Z.ltb_spec later (uint32_t (now + ESC_REQUEST_TIMEOUT)));
      [| lia].
    unfold mbind at 1, M_bind at 1. rewrite H3. cbv iota.
    unfold mbind at 1, M_bind at 1. rewrite selectNextMotor_run.
    reflexivity. }
  mproj. split.
  { change (escSensorMotor st2) with (escSensorMotor st).
    change (escSensorData st2) with (escSensorData st).
    apply (at_index_insert_eq _ _ d _ Hd). }
  repeat split; reflexivity.
Qed.

Lemma kiss_poll_decodes_received_frame_witness :
  exists st',
    (escSensorProcess_KISS example_KISS 5030;;
     receiveAll [25; 6; 64; 0; 100; 0; 5; 3; 232; 88];;
     escSensorProcess_KISS example_KISS 5040)
      (kiss_frame_decoded frame_nominal) = Some (tt, st')
    /\ at_index (escSensorData st')
                (escSensorMotor (kiss_frame_decoded frame_nominal))
       = Some {| dataAge := 0;
                 temperature := int8_t 25;
                 voltage := int16_t (6 * 256 + 64);
                 current := 0 * 256 + 100;
                 consumption := 0 * 256 + 5;
                 rpm := int16_t (3 * 256 + 232) |}
    /\ combinedDataNeedsUpdate st' = true
    /\ escSensorMotor st'
       = nextMotor example_KISS (escSensorMotor (kiss_frame_decoded frame_nominal))
    /\ escSensorTriggerState st' = ESC_SENSOR_TRIGGER_READY
    /\ totalCrcErrorCount st' = totalCrcErrorCount (kiss_frame_decoded frame_nominal)
    /\ totalTimeoutCount st' = totalTimeoutCount (kiss_frame_decoded frame_nominal).
Proof.
  apply (kiss_poll_decodes_received_frame
           example_KISS 5030 5040 (kiss_frame_decoded frame_nominal)
           25 6 64 0 100 0 5 3 232 88
           {| dataAge := 255; temperature := 0; voltage := 0; current := 0;
              consumption := 0; rpm := 0 |}).
  - vm_compute. reflexivity.
  - vm_compute. reflexivity.
  - unfold is_byte. repeat constructor; lia.
  - vm_compute. reflexivity.
  - vm_compute. reflexivity.
  - vm_compute. reflexivity.
  - intros _ _. cbn. lia.
Defined.

(** X6: a request that has timed out is abandoned whatever the buffer
    holds, even a complete frame with a valid checksum: nothing is decoded,
    the temperature, voltage, current, consumption and rpm of every motor
    stay, the polled motor's age advances by one unless it is at
    [ESC_DATA_INVALID] already, polling moves to the next motor in the READY
    state, and only the timeout counter may advance. *)
Theorem escSensorProcess_KISS_timeout
        (p : platform) (currentTimeMs : Z) (st : globals) (d : escSensorData_t) :
  escSensorTriggerState st = ESC_SENSOR_TRIGGER_PENDING ->
  uint32_t (escTriggerTimestamp st + ESC_REQUEST_TIMEOUT) <= currentTimeMs ->
  at_index (escSensorData st) (escSensorMotor st) = Some d ->
  exists st',
    escSensorProcess_KISS p currentTimeMs st = Some (tt, st')
    /\ escSensorData st'
       = (if dataAge d <? ESC_DATA_INVALID p
          then <[Z.to_nat (escSensorMotor st) :=
                   set_dataAge (uint8_t (dataAge d + 1)) d]> (escSensorData st)
          else escSensorData st)
    /\ totalTimeoutCount st'
       = (if debugSetEvaluates p then uint16_t (totalTimeoutCount st + 1)
          else totalTimeoutCount st)
    /\ totalCrcErrorCount st' = totalCrcErrorCount st
    /\ telemetryBuffer st' = telemetryBuffer st
    /\ escSensorMotor st' = nextMotor p (escSensorMotor st)
    /\ escSensorTriggerState st' = ESC_SENSOR_TRIGGER_READY.
Proof.
  intros Htrig Hlate Hd. unfold escSensorProcess_KISS.
  cbv beta iota delta [mbind M_bind mret M_ret get modify].
  rewrite Htrig. cbv beta iota.
  destruct (Z.ltb_spec currentTimeMs
                       (uint32_t (escTriggerTimestamp st + ESC_REQUEST_TIMEOUT)));
    [lia |].
  rewrite (increaseDataAge_run p d st Hd), selectNextMotor_run, debugCount_run.
  eexists. split; [reflexivity |].
  destruct (dataAge d <? ESC_DATA_INVALID p), (debugSetEvaluates p); mproj;
    repeat split; reflexivity.
Qed.

Lemma escSensorProcess_KISS_timeout_witness :
  exists st',
    escSensorProcess_KISS example_KISS 6000 (kiss_frame_received frame_nominal)
    = Some (tt, st')
    /\ escSensorData st'
       = (if 255 <? ESC_DATA_INVALID example_KISS
          then <[Z.to_nat (escSensorMotor (kiss_frame_received frame_nominal)) :=
                   set_dataAge (uint8_t (255 + 1)) escSensorData_zero]>
                 (escSensorData (kiss_frame_received frame_nominal))
          else escSensorData (kiss_frame_received frame_nominal))
    /\ totalTimeoutCount st'
       = (if debugSetEvaluates example_KISS
          then uint16_t (totalTimeoutCount (kiss_frame_received frame_nominal) + 1)
          else totalTimeoutCount (kiss_frame_received frame_nominal))
    /\ totalCrcErrorCount st'
       = totalCrcErrorCount (kiss_frame_received frame_nominal)
    /\ telemetryBuffer st' = telemetryBuffer (kiss_frame_received frame_nominal)
    /\ escSensorMotor st'
       = nextMotor example_KISS
                   (escSensorMotor (kiss_frame_received frame_nominal))
    /\ escSensorTriggerState st' = ESC_SENSOR_TRIGGER_READY.
Proof.
  apply (escSensorProcess_KISS_timeout
           example_KISS 6000 (kiss_frame_received frame_nominal)
           (set_dataAge 255 escSensorData_zero)).
  - vm_compute. reflexivity.
  - vm_compute. discriminate.
  - vm_compute. reflexivity.
Defined.

(** ** Round robin over the motors *)

Lemma nextMotor_mod (p : platform) (m : Z) :
  0 < getMotorCount p <= 255 -> 0 <= m < getMotorCount p ->
  nextMotor p m = (m + 1) mod getMotorCount p.
Proof.
  intros Hcount Hm. unfold nextMotor.
  rewrite uint8_t_id by (unfold is_byte; lia).
  destruct (Z.eqb_spec (m + 1) (getMotorCount p)) as [-> | Hne].
  - now rewrite Z.mod_same by lia.
  - rewrite Z.mod_small; lia.
Qed.

Lemma nextMotor_iter (p : platform) (m : Z) (k : nat) :
  0 < getMotorCount p <= 255 -> 0 <= m < getMotorCount p ->
  Nat.iter k (nextMotor p) m = (m + Z.of_nat k) mod getMotorCount p.
Proof.
  intros Hcount Hm. induction k as [| k IH].
  - change (Nat.iter 0 (nextMotor p) m) with m.
    change (Z.of_nat 0) with 0. rewrite Z.add_0_r, Z.mod_small; lia.
  - change (Nat.iter (S k) (nextMotor p) m)
      with (nextMotor p (Nat.iter k (nextMotor p) m)).
    rewrite IH, nextMotor_mod; try assumption.
    + rewrite Zplus_mod_idemp_l. f_equal. lia.
    + apply Z.mod_pos_bound. lia.
Qed.

(** X7: round robin.  With a motor count within 1..255 and the polled index
    below it, [selectNextMotor] moves to [(index + 1) mod count]; [k] calls
    move to [(index + k) mod count], so [count] calls select every motor
    once and end on the index they started from. *)
Theorem selectNextMotor_round_robin (p : platform) (st : globals) :
  0 < getMotorCount p <= 255 ->
  0 <= escSensorMotor st < getMotorCount p ->
  selectNextMotor p st
  = Some (tt, set_escSensorMotor
                ((escSensorMotor st + 1) mod getMotorCount p) st)
  /\ (forall k : nat,
        Nat.iter k (nextMotor p) (escSensorMotor st)
        = (escSensorMotor st + Z.of_nat k) mod getMotorCount p)
  /\ Nat.iter (Z.to_nat (getMotorCount p)) (nextMotor p) (escSensorMotor st)
     = escSensorMotor st.
Proof.
  intros Hcount Hm. split; [| split].
  - rewrite selectNextMotor_run, nextMotor_mod by assumption. reflexivity.
  - intros k. now apply nextMotor_iter.
  - rewrite nextMotor_iter by assumption. rewrite Z2Nat.id by lia.
    rewrite <- (Z.mul_1_l (getMotorCount p)) at 1.
    rewrite Z.mod_add by lia. apply Z.mod_small. lia.
Qed.

Lemma selectNextMotor_round_robin_witness :
  selectNextMotor example_KISS (kiss_frame_decoded frame_nominal)
  = Some (tt, set_escSensorMotor
                ((escSensorMotor (kiss_frame_decoded frame_nominal) + 1)
                   mod getMotorCount example_KISS)
                (kiss_frame_decoded frame_nominal))
  /\ (forall k : nat,
        Nat.iter k (nextMotor example_KISS)
                 (escSensorMotor (kiss_frame_decoded frame_nominal))
        = (escSensorMotor (kiss_frame_decoded frame_nominal) + Z.of_nat k)
            mod getMotorCount example_KISS)
  /\ Nat.iter (Z.to_nat (getMotorCount example_KISS)) (nextMotor example_KISS)
              (escSensorMotor (kiss_frame_decoded frame_nominal))
     = escSensorMotor (kiss_frame_decoded frame_nominal).
Proof.
  apply (selectNextMotor_round_robin example_KISS
                                     (kiss_frame_decoded frame_nominal)).
  - cbn. lia.
  - vm_compute. split; [discriminate | reflexivity].
Defined.

(** ** The accessor [getEscSensorData] *)

(** X8: when [getEscSensorData] answers [NULL].  A defined call returns the
    null pointer exactly when the ESC-sensor feature is disabled, or the
    protocol is neither KISS nor Hobbywing, or the index is neither below
    the motor count nor the combined index; a null answer changes nothing.
    In the Hobbywing protocol every other answer is [&escSensorData[0]] and
    no call changes anything; in the KISS protocol an index below the motor
    count is answered by that motor's own reading, again with no change. *)
Theorem getEscSensorData_answers (p : platform) (motorNumber : Z)
        (st st' : globals) (r : escSensorDataRef) :
  getEscSensorData p motorNumber st = Some (r, st') ->
  (r = RefNull <->
   featureIsEnabled_ESC_SENSOR p = false
   \/ escSensorProtocol p = ESC_SENSOR_PROTOCOL_OTHER
   \/ (getMotorCount p <= motorNumber /\ motorNumber <> ESC_SENSOR_COMBINED p))
  /\ (r = RefNull -> st' = st)
  /\ (escSensorProtocol p = ESC_SENSOR_PROTOCOL_HOBBYWINGV4 ->
      st' = st /\ (r = RefNull \/ r = RefMotor 0))
  /\ (escSensorProtocol p = ESC_SENSOR_PROTOCOL_KISS ->
      featureIsEnabled_ESC_SENSOR p = true ->
      motorNumber < getMotorCount p ->
      r = RefMotor motorNumber /\ st' = st).
Proof.
  intros H. unfold getEscSensorData in H.
  destruct (featureIsEnabled_ESC_SENSOR p) eqn:Hfeature; cbn [negb] in H.
  2: { injection H as <- <-. repeat split; try discriminate; auto. }
  destruct (escSensorProtocol p) eqn:Hproto.
  - destruct (Z.ltb_spec motorNumber (getMotorCount p)).
    { injection H as <- <-.
      repeat split; try discriminate; auto.
      intros [Hf | [Hp | [Hge _]]]; [discriminate | discriminate | lia]. }
    destruct (Z.eqb_spec motorNumber (ESC_SENSOR_COMBINED p)).
    + apply bind_inv in H as (needsUpdate & st1 & _ & H).
      apply bind_inv in H as (u & st2 & _ & H). injection H as <- _.
      repeat split; try discriminate; try lia.
      intros [Hf | [Hp | [_ Hne]]];
        [discriminate | discriminate | contradiction].
    + injection H as <- <-. repeat split; try discriminate; auto; lia.
  - destruct (Z.ltb_spec motorNumber (getMotorCount p)).
    { injection H as <- <-.
      repeat split; try discriminate; auto.
      intros [Hf | [Hp | [Hge _]]]; [discriminate | discriminate | lia]. }
    destruct (Z.eqb_spec motorNumber (ESC_SENSOR_COMBINED p)).
    + injection H as <- <-. repeat split; try discriminate; auto.
      intros [Hf | [Hp | [_ Hne]]];
        [discriminate | discriminate | contradiction].
    + injection H as <- <-. repeat split; try discriminate; auto.
  - injection H as <- <-. repeat split; try discriminate; auto.
Qed.

Lemma getEscSensorData_answers_witness :
  (RefNull = RefNull <->
   featureIsEnabled_ESC_SENSOR example_KISS = false
   \/ escSensorProtocol example_KISS = ESC_SENSOR_PROTOCOL_OTHER
   \/ (getMotorCount example_KISS <= 7 /\ 7 <> ESC_SENSOR_COMBINED example_KISS))
  /\ (RefNull = RefNull ->
      kiss_frame_decoded frame_nominal = kiss_frame_decoded frame_nominal)
  /\ (escSensorProtocol example_KISS = ESC_SENSOR_PROTOCOL_HOBBYWINGV4 ->
      kiss_frame_decoded frame_nominal = kiss_frame_decoded frame_nominal
      /\ (RefNull = RefNull \/ RefNull = RefMotor 0))
  /\ (escSensorProtocol example_KISS = ESC_SENSOR_PROTOCOL_KISS ->
      featureIsEnabled_ESC_SENSOR example_KISS = true ->
      7 < getMotorCount example_KISS ->
      RefNull = RefMotor 7
      /\ kiss_frame_decoded frame_nominal = kiss_frame_decoded frame_nominal).
Proof.
  apply (getEscSensorData_answers example_KISS 7
           (kiss_frame_decoded frame_nominal) (kiss_frame_decoded frame_nominal)
           RefNull).
  reflexivity.
Defined.

(** X9: reading the combined data twice.  In the KISS protocol a second
    read of the combined data, with nothing in between, returns the same
    pointer and changes nothing: the cache is recomputed at most once. *)
Theorem getEscSensorData_combined_idempotent (p : platform) (st st' : globals)
        (r : escSensorDataRef) :
  escSensorProtocol p = ESC_SENSOR_PROTOCOL_KISS ->
  featureIsEnabled_ESC_SENSOR p = true ->
  getMotorCount p <= ESC_SENSOR_COMBINED p ->
  getEscSensorData p (ESC_SENSOR_COMBINED p) st = Some (r, st') ->
  getEscSensorData p (ESC_SENSOR_COMBINED p) st' = Some (r, st').
Proof.
  intros Hproto Hfeature Hcount H.
  destruct (getEscSensorData_combined p st st' r Hproto Hfeature Hcount H)
    as (-> & Hflag & _).
  unfold getEscSensorData. rewrite Hfeature, Hproto. cbn [negb].
  destruct (Z.ltb_spec (ESC_SENSOR_COMBINED p) (getMotorCount p)); [lia |].
  rewrite Z.eqb_refl. munfold. rewrite Hflag. reflexivity.
Qed.

Lemma getEscSensorData_combined_idempotent_witness :
  getEscSensorData example_KISS (ESC_SENSOR_COMBINED example_KISS)
                   (kiss_combined_read frame_nominal)
  = Some (RefCombined, kiss_combined_read frame_nominal).
Proof.
  apply (getEscSensorData_combined_idempotent
           example_KISS (kiss_frame_decoded frame_nominal)).
  - reflexivity.
  - reflexivity.
  - vm_compute. discriminate.
  - vm_compute. reflexivity.
Defined.

(** ** The closing loop of [escSensorProcess] *)

Lemma isEscSensorValid_entry (p : platform) (i : Z) (d : escSensorData_t)
      (st : globals) :
  escSensorPort st = true -> i < getMotorCount p ->
  at_index (escSensorData st) i = Some d ->
  isEscSensorValid p i st = Some (entry_valid p d, st).
Proof.
  intros Hport Hi Hd. unfold isEscSensorValid, entry_valid. munfold.
  rewrite Hport. cbn [negb].
  destruct (escSensorProtocol p); [| | reflexivity];
    (destruct (Z.ltb_spec i (getMotorCount p)); [| lia]);
    rewrite Hd; reflexivity.
Qed.

Lemma zeroData_idempotent (d : escSensorData_t) :
  zeroData (zeroData d) = zeroData d.
Proof. reflexivity. Qed.

Lemma data_combined_eta (st : globals) :
  set_combinedEscSensorData (combinedEscSensorData st)
    (set_escSensorData (escSensorData st) st) = st.
Proof. destruct st. reflexivity. Qed.

Lemma escSensorProcess_zeroInvalid_run (p : platform) (i : Z)
      (d : escSensorData_t) (st : globals) :
  escSensorPort st = true -> 0 <= i < getMotorCount p -> i < 256 ->
  at_index (escSensorData st) i = Some d ->
  escSensorProcess_zeroInvalid p i st
  = Some (tt,
          set_combinedEscSensorData
            (if entry_valid p d then combinedEscSensorData st
             else zeroData (combinedEscSensorData st))
            (set_escSensorData
               (<[Z.to_nat i := zeroed_if_invalid p d]> (escSensorData st)) st)).
Proof.
  intros Hport Hi Hbyte Hd. unfold escSensorProcess_zeroInvalid, zeroed_if_invalid.
  rewrite uint8_t_id by (unfold is_byte; lia).
  unfold mbind at 1, M_bind at 1.
  rewrite (isEscSensorValid_entry p i d st Hport ltac:(lia) Hd).
  destruct (entry_valid p d); cbn [negb].
  - rewrite (at_index_insert_id _ _ _ Hd), data_combined_eta. reflexivity.
  - unfold mbind at 1, M_bind at 1. rewrite (motorUpdate_run i zeroData d st Hd).
    reflexivity.
Qed.

Lemma escSensorProcess_zeroInvalid_loop (p : platform) (k : nat) :
  forall (st : globals) (pre rest : list escSensorData_t),
    escSensorPort st = true ->
    escSensorData st = pre ++ rest ->
    (k <= length rest)%nat ->
    Z.of_nat (length pre + k) <= getMotorCount p ->
    Z.of_nat (length pre + k) <= 256 ->
    for_range k (Z.of_nat (length pre)) (escSensorProcess_zeroInvalid p) st
    = Some (tt,
            set_combinedEscSensorData
              (if forallb (entry_valid p) (take k rest)
               then combinedEscSensorData st
               else zeroData (combinedEscSensorData st))
              (set_escSensorData
                 (pre ++ map (zeroed_if_invalid p) (take k rest) ++ drop k rest)
                 st)).
Proof.
  induction k as [| k IH]; intros st pre rest Hport Hdata Hk Hcount Hbyte.
  - change (take 0 rest) with (@nil escSensorData_t).
    change (drop 0 rest) with rest. cbn [for_range map forallb app].
    rewrite <- Hdata. now rewrite data_combined_eta.
  - destruct rest as [| d rest]; [cbn in Hk; lia |]. cbn [length] in Hk.
    assert (Hd : at_index (escSensorData st) (Z.of_nat (length pre)) = Some d).
    { rewrite Hdata. apply at_index_app_length. }
    cbn [for_range]. unfold mbind at 1, M_bind at 1.
    rewrite (escSensorProcess_zeroInvalid_run p _ d st Hport) by (assumption || lia).
    rewrite Nat2Z.id, Hdata.
    rewrite insert_app_r_alt by lia. rewrite Nat.sub_diag.
    cbn [insert list_insert].
    replace (Z.of_nat (length pre) + 1)
      with (Z.of_nat (length (pre ++ [zeroed_if_invalid p d])))
      by (rewrite length_app; cbn [length]; lia).
    rewrite (IH _ (pre ++ [zeroed_if_invalid p d]) rest).
    + mproj. change (take (S k) (d :: rest)) with (d :: take k rest).
      change (drop (S k) (d :: rest)) with (drop k rest). cbn [map forallb].
      rewrite <- app_assoc. cbn [app].
      destruct (entry_valid p d); cbn [andb].
      * reflexivity.
      * rewrite zeroData_idempotent.
        destruct (forallb (entry_valid p) (take k rest)); reflexivity.
    + exact Hport.
    + mproj. now rewrite <- app_assoc.
    + lia.
    + rewrite length_app. cbn [length]. lia.
    + rewrite length_app. cbn [length]. lia.
Qed.

(** X10: the end-of-cycle check of every motor.  With the port open, a
    motor count of at most 256 and within the array, the closing loop of
    [escSensorProcess] is defined and its effect is exactly this: each
    motor below the count keeps its reading if [isEscSensorValid] accepts it
    and otherwise has voltage, current, consumption and rpm set to 0 (age
    and temperature stay); the motors from the count on are untouched; the
    cached combined data are zeroed in the same four fields as soon as one
    motor is not valid; nothing else changes, the invalidation flag
    included. *)
Theorem escSensorProcess_zeroing_pass (p : platform) (st : globals) :
  escSensorPort st = true ->
  0 <= getMotorCount p <= 256 ->
  getMotorCount p <= Z.of_nat (length (escSensorData st)) ->
  for_range (Z.to_nat (getMotorCount p)) 0 (escSensorProcess_zeroInvalid p) st
  = Some (tt,
          set_combinedEscSensorData
            (if forallb (entry_valid p)
                        (take (Z.to_nat (getMotorCount p)) (escSensorData st))
             then combinedEscSensorData st
             else zeroData (combinedEscSensorData st))
            (set_escSensorData
               (map (zeroed_if_invalid p)
                    (take (Z.to_nat (getMotorCount p)) (escSensorData st))
                ++ drop (Z.to_nat (getMotorCount p)) (escSensorData st))
               st))
  /\ (forall d,
        (entry_valid p d = true /\ zeroed_if_invalid p d = d)
        \/ (entry_valid p d = false
            /\ zeroed_if_invalid p d
               = {| dataAge := dataAge d; temperature := temperature d;
                    voltage := 0; current := 0; consumption := 0; rpm := 0 |})).
Proof.
  intros Hport Hcount Hlen. split.
  - apply (escSensorProcess_zeroInvalid_loop
             p (Z.to_nat (getMotorCount p)) st [] (escSensorData st));
      try assumption; try reflexivity; cbn [length]; lia.
  - intros d. unfold zeroed_if_invalid.
    destruct (entry_valid p d); [left | right]; split; reflexivity.
Qed.

Lemma escSensorProcess_zeroing_pass_witness :
  for_range (Z.to_nat (getMotorCount example_KISS)) 0
            (escSensorProcess_zeroInvalid example_KISS)
            (kiss_combined_read frame_nominal)
  = Some (tt,
          set_combinedEscSensorData
            (if forallb (entry_valid example_KISS)
                        (take (Z.to_nat (getMotorCount example_KISS))
                              (escSensorData (kiss_combined_read frame_nominal)))
             then combinedEscSensorData (kiss_combined_read frame_nominal)
             else zeroData (combinedEscSensorData (kiss_combined_read frame_nominal)))
            (set_escSensorData
               (map (zeroed_if_invalid example_KISS)
                    (take (Z.to_nat (getMotorCount example_KISS))
                          (escSensorData (kiss_combined_read frame_nominal)))
                ++ drop (Z.to_nat (getMotorCount example_KISS))
                        (escSensorData (kiss_combined_read frame_nominal)))
               (kiss_combined_read frame_nominal)))
  /\ (forall d,
        (entry_valid example_KISS d = true
         /\ zeroed_if_invalid example_KISS d = d)
        \/ (entry_valid example_KISS d = false
            /\ zeroed_if_invalid example_KISS d
               = {| dataAge := dataAge d; temperature := temperature d;
                    voltage := 0; current := 0; consumption := 0; rpm := 0 |})).
Proof.
  apply (escSensorProcess_zeroing_pass example_KISS
                                       (kiss_combined_read frame_nominal)).
  - vm_compute. reflexivity.
  - cbn. lia.
  - vm_compute. discriminate.
Defined.

(** ** The combined reading *)

Lemma combineMotor_inv (i : Z) (st st' : globals) (u : unit) :
  combineMotor i st = Some (u, st') ->
  exists d,
    at_index (escSensorData st) i = Some d
    /\ escSensorData st' = escSensorData st
    /\ dataAge (combinedEscSensorData st')
       = Z.max (dataAge (combinedEscSensorData st)) (dataAge d)
    /\ temperature (combinedEscSensorData st')
       = Z.max (temperature (combinedEscSensorData st)) (temperature d).
Proof.
  intros H. unfold combineMotor in H.
  apply bind_inv in H as (d & st1 & H1 & H).
  unfold motorData, defined in H1.
  destruct (at_index (escSensorData st) i) as [d0 |] eqn:Hd; [| discriminate].
  injection H1 as <- <-.
  apply bind_inv in H as (c & st1 & H1 & H). injection H1 as <- <-.
  apply bind_inv in H as (cur & st1 & H1 & H).
  unfold defined in H1. destruct (int_checked _); [| discriminate].
  injection H1 as <- <-.
  apply bind_inv in H as (cons & st1 & H1 & H).
  unfold defined in H1. destruct (int_checked _); [| discriminate].
  injection H1 as <- <-.
  injection H as _ <-. exists d0. mproj. repeat split; reflexivity.
Qed.

Lemma combineMotor_loop (k : nat) :
  forall (i0 : Z) (st st' : globals) (u : unit),
    for_range k i0 combineMotor st = Some (u, st') ->
    escSensorData st' = escSensorData st
    /\ dataAge (combinedEscSensorData st)
       <= dataAge (combinedEscSensorData st')
    /\ temperature (combinedEscSensorData st)
       <= temperature (combinedEscSensorData st')
    /\ (forall j d,
          i0 <= j < i0 + Z.of_nat k ->
          at_index (escSensorData st) j = Some d ->
          dataAge d <= dataAge (combinedEscSensorData st')
          /\ temperature d <= temperature (combinedEscSensorData st')).
Proof.
  induction k as [| k IH]; intros i0 st st' u H.
  - injection H as _ <-. repeat split; try lia.
  - cbn [for_range] in H. apply bind_inv in H as (u1 & st1 & H1 & H).
    apply combineMotor_inv in H1 as (d0 & Hd0 & Hdata1 & Hage1 & Htemp1).
    destruct (IH _ _ _ _ H) as (Hdata & Hage & Htemp & Hall).
    rewrite Hdata1 in Hdata.
    split; [exact Hdata |]. split; [lia |]. split; [lia |].
    intros j d Hj Hd.
    destruct (Z.eq_dec j i0) as [-> | Hne].
    + rewrite Hd0 in Hd. injection Hd as <-. lia.
    + apply (Hall j d); [lia | rewrite Hdata1; exact Hd].
Qed.

(** X11: what the recomputed combined reading bounds.  Whenever the
    recomputation inside [getEscSensorData] is defined, the combined age and
    temperature are at least those of every motor below the motor count, and
    neither is negative: a combined age within the validity limit means
    every motor's age is within it, and temperatures below zero are
    reported as 0. *)
Theorem combineAll_bounds (p : platform) (st st' : globals) (u : unit) :
  combineAll p st = Some (u, st') ->
  0 <= dataAge (combinedEscSensorData st')
  /\ 0 <= temperature (combinedEscSensorData st')
  /\ (forall j d,
        0 <= j < getMotorCount p ->
        at_index (escSensorData st) j = Some d ->
        dataAge d <= dataAge (combinedEscSensorData st')
        /\ temperature d <= temperature (combinedEscSensorData st')).
Proof.
  intros H. unfold combineAll in H.
  apply bind_inv in H as (u1 & st1 & H1 & H).
  unfold combinedUpdate in H1. injection H1 as _ <-.
  apply bind_inv in H as (u2 & st2 & H2 & H).
  destruct (combineMotor_loop _ _ _ _ _ H2) as (Hdata & Hage & Htemp & Hall).
  mproj_in Hdata. mproj_in Hage. mproj_in Htemp.
  apply bind_inv in H as (u3 & st3 & H3 & H). injection H as _ <-.
  assert (Hsame : dataAge (combinedEscSensorData st3)
                  = dataAge (combinedEscSensorData st2)
                  /\ temperature (combinedEscSensorData st3)
                     = temperature (combinedEscSensorData st2)).
  { unfold combineAverage, combinedUpdate in H3.
    apply bind_inv in H3 as (c & s1 & Hc & H3). injection Hc as <- <-.
    apply bind_inv in H3 as (v & s1 & Hv & H3).
    unfold defined in Hv. destruct (int_div _ _); [| discriminate].
    injection Hv as <- <-.
    apply bind_inv in H3 as (u4 & s1 & Hu & H3). injection Hu as _ <-.
    apply bind_inv in H3 as (c' & s2 & Hc' & H3). injection Hc' as <- <-.
    apply bind_inv in H3 as (r & s2 & Hr & H3).
    unfold defined in Hr. destruct (int_div _ _); [| discriminate].
    injection Hr as <- <-. injection H3 as _ <-. split; reflexivity. }
  destruct Hsame as [Hsa Hst]. mproj. rewrite Hsa, Hst.
  cbn [escSensorData_zero dataAge temperature] in Hage, Htemp.
  split; [exact Hage |]. split; [exact Htemp |].
  intros j d Hj Hd. apply (Hall j d); [lia | exact Hd].
Qed.

Lemma combineAll_bounds_witness :
  0 <= dataAge (combinedEscSensorData (kiss_combined_read frame_nominal))
  /\ 0 <= temperature (combinedEscSensorData (kiss_combined_read frame_nominal))
  /\ (forall j d,
        0 <= j < getMotorCount example_KISS ->
        at_index (escSensorData (kiss_frame_decoded frame_nominal)) j = Some d ->
        dataAge d
        <= dataAge (combinedEscSensorData (kiss_combined_read frame_nominal))
        /\ temperature d
           <= temperature (combinedEscSensorData (kiss_combined_read frame_nominal))).
Proof.
  apply (combineAll_bounds example_KISS (kiss_frame_decoded frame_nominal)
                           (kiss_combined_read frame_nominal) tt).
  vm_compute. reflexivity.
Defined.

(** ** Staleness on the KISS path *)

Lemma motorUpdate_inv (i : Z) (f : escSensorData_t -> escSensorData_t)
      (st st' : globals) (u : unit) :
  motorUpdate i f st = Some (u, st') ->
  exists d,
    at_index (escSensorData st) i = Some d
    /\ st' = set_escSensorData (<[Z.to_nat i := f d]> (escSensorData st)) st.
Proof.
  intros H.
  destruct (at_index (escSensorData st) i) as [d0 |] eqn:Hd.
  - rewrite (motorUpdate_run i f d0 st Hd) in H. injection H as _ <-.
    exists d0. split; reflexivity.
  - exfalso. unfold motorUpdate in H.
    apply bind_inv in H as (d & st1 & H1 & _).
    unfold motorData, defined in H1. rewrite Hd in H1. discriminate.
Qed.

Lemma ages_insert (data : list escSensorData_t) (i : Z) (d d' : escSensorData_t) :
  at_index data i = Some d ->
  map dataAge (<[Z.to_nat i := d']> data)
  = <[Z.to_nat i := dataAge d']> (map dataAge data).
Proof. intros _. apply (list_fmap_insert dataAge). Qed.

Lemma ages_insert_same (data : list escSensorData_t) (i : Z)
      (d d' : escSensorData_t) :
  at_index data i = Some d -> dataAge d' = dataAge d ->
  map dataAge (<[Z.to_nat i := d']> data) = map dataAge data.
Proof.
  intros Hd Hsame. rewrite (ages_insert data i d d' Hd), Hsame.
  apply list_insert_id. unfold at_index in Hd.
  destruct (i <? 0); [discriminate |].
  change (map dataAge data !! Z.to_nat i) with ((dataAge <$> data) !! Z.to_nat i).
  now rewrite list_lookup_fmap, Hd.
Qed.

Lemma escSensorProcess_zeroInvalid_keeps_ages (p : platform) (i : Z) :
  preserves (fun st => map dataAge (escSensorData st))
            (escSensorProcess_zeroInvalid p i).
Proof.
  intros st u st' H. unfold escSensorProcess_zeroInvalid in H.
  apply bind_inv in H as (valid & st1 & H1 & H).
  pose proof (isEscSensorValid_keeps p (fun st => st) _ _ _ _ H1) as Heq.
  cbv beta in Heq. subst st1.
  destruct valid; cbn [negb] in H.
  - injection H as _ <-. reflexivity.
  - apply bind_inv in H as (u1 & st2 & H2 & H).
    apply motorUpdate_inv in H2 as (d & Hd & ->).
    unfold combinedUpdate in H. injection H as _ <-. mproj.
    now apply (ages_insert_same _ _ d).
Qed.

Lemma decodeEscFrame_ages (p : platform) (st st' : globals)
      (r : escTlmFrameState_t) :
  decodeEscFrame p st = Some (r, st') ->
  escSensorData st' = escSensorData st
  \/ (exists d, at_index (escSensorData st) (escSensorMotor st) = Some d)
     /\ map dataAge (escSensorData st')
        = <[Z.to_nat (escSensorMotor st) := 0]> (map dataAge (escSensorData st)).
Proof.
  intros H. unfold decodeEscFrame in H.
  apply bind_inv in H as (complete & st1 & H1 & H).
  unfold isFrameComplete in H1. injection H1 as <- <-.
  destruct (negb _).
  { injection H as _ <-. now left. }
  apply bind_inv in H as (buf & st1 & H1 & H). injection H1 as <- <-.
  apply bind_inv in H as (chksum & st1 & H1 & H).
  unfold defined in H1. destruct (calculateCrc8 _ _); [| discriminate].
  injection H1 as <- <-.
  apply bind_inv in H as (tlmsum & st1 & H1 & H).
  unfold defined in H1. destruct (at_index _ _); [| discriminate].
  injection H1 as <- <-.
  destruct (_ =? _).
  2: { injection H as _ <-. now left. }
  right.
  repeat (apply bind_inv in H as (? & st1 & H1 & H);
          unfold defined in H1;
          match type of H1 with
          | match ?o with _ => _ end = _ =>
              destruct o; [| discriminate]; injection H1 as <- <-
          end).
  apply bind_inv in H as (m & st1 & H1 & H). injection H1 as <- <-.
  apply bind_inv in H as (u1 & st1 & H1 & H).
  apply motorUpdate_inv in H1 as (d & Hd & ->).
  apply bind_inv in H as (u2 & st2 & H2 & H). injection H2 as _ <-.
  apply bind_inv in H as (u3 & st3 & H3 & H).
  apply debugEscSensorRpm_inv in H3 as ->.
  injection H as _ <-. mproj.
  split; [now exists d |]. now rewrite (ages_insert _ _ d).
Qed.

Lemma increaseDataAge_ages (p : platform) (st st' : globals) (u : unit) :
  increaseDataAge p st = Some (u, st') ->
  escSensorData st' = escSensorData st
  \/ exists d,
       at_index (escSensorData st) (escSensorMotor st) = Some d
       /\ dataAge d < ESC_DATA_INVALID p
       /\ map dataAge (escSensorData st')
          = <[Z.to_nat (escSensorMotor st) := uint8_t (dataAge d + 1)]>
              (map dataAge (escSensorData st)).
Proof.
  intros H.
  destruct (at_index (escSensorData st) (escSensorMotor st)) as [d0 |] eqn:Hd.
  - rewrite (increaseDataAge_run p d0 st Hd) in H.
    destruct (Z.ltb_spec (dataAge d0) (ESC_DATA_INVALID p)) as [Hlt | Hge];
      injection H as _ <-.
    + right. exists d0. mproj.
      split; [reflexivity |]. split; [exact Hlt |].
      now rewrite (ages_insert _ _ d0).
    + now left.
  - exfalso. unfold increaseDataAge in H.
    apply bind_inv in H as (m & st1 & H1 & H). injection H1 as <- <-.
    apply bind_inv in H as (d & st1 & H1 & _).
    unfold motorData, defined in H1. rewrite Hd in H1. discriminate.
Qed.

Lemma debugCount_keeps_data (p : platform) (counter : globals -> Z)
      (set : Z -> globals -> globals) :
  (forall v st, escSensorData (set v st) = escSensorData st) ->
  preserves escSensorData (debugCount p counter set).
Proof.
  intros Hset st u st' H. rewrite debugCount_run in H. injection H as _ <-.
  destruct (debugSetEvaluates p); [apply Hset | reflexivity].
Qed.

Lemma kiss_tail_keeps_data (p : platform) (count : M unit) :
  preserves escSensorData count ->
  preserves escSensorData
            (selectNextMotor p;;
             modify (set_escSensorTriggerState ESC_SENSOR_TRIGGER_READY);;
             count).
Proof.
  intros Hcount. apply preserves_bind.
  - apply selectNextMotor_keeps. reflexivity.
  - intros _. preserves_tac; assumption.
Qed.

Lemma escSensorProcess_KISS_ages (p : platform) (currentTimeMs : Z)
      (st st' : globals) (u : unit) :
  escSensorProcess_KISS p currentTimeMs st = Some (u, st') ->
  escSensorData st' = escSensorData st
  \/ ((exists d, at_index (escSensorData st) (escSensorMotor st) = Some d)
      /\ map dataAge (escSensorData st')
         = <[Z.to_nat (escSensorMotor st) := 0]> (map dataAge (escSensorData st)))
  \/ (exists d,
        at_index (escSensorData st) (escSensorMotor st) = Some d
        /\ dataAge d < ESC_DATA_INVALID p
        /\ map dataAge (escSensorData st')
           = <[Z.to_nat (escSensorMotor st) := uint8_t (dataAge d + 1)]>
               (map dataAge (escSensorData st))).
Proof.
  intros H. unfold escSensorProcess_KISS in H.
  apply bind_inv in H as (trigger & st1 & H1 & H). injection H1 as <- <-.
  assert (Hage : forall (count : M unit) (s1 : globals) (v : unit),
             preserves escSensorData count ->
             (increaseDataAge p;; selectNextMotor p;;
              modify (set_escSensorTriggerState ESC_SENSOR_TRIGGER_READY);;
              count) st = Some (v, s1) ->
             escSensorData s1 = escSensorData st
             \/ (exists d,
                   at_index (escSensorData st) (escSensorMotor st) = Some d
                   /\ dataAge d < ESC_DATA_INVALID p
                   /\ map dataAge (escSensorData s1)
                      = <[Z.to_nat (escSensorMotor st) := uint8_t (dataAge d + 1)]>
                          (map dataAge (escSensorData st)))).
  { intros count s1 v Hcount Hrun.
    apply bind_inv in Hrun as (u1 & s2 & Hinc & Hrun).
    rewrite (kiss_tail_keeps_data p count Hcount _ _ _ Hrun).
    now apply (increaseDataAge_ages p st s2 u1). }
  destruct (escSensorTriggerState st).
  - left. destruct (_ >=? _); injection H as _ <-; reflexivity.
  - left.
    assert (Hk : preserves escSensorData
                   (modify (set_escTriggerTimestamp currentTimeMs);;
                    startEscDataRead TELEMETRY_FRAME_SIZE;;
                    modify (set_escSensorTriggerState ESC_SENSOR_TRIGGER_PENDING))).
    { unfold startEscDataRead. preserves_tac. }
    exact (Hk _ _ _ H).
  - apply bind_inv in H as (timestamp & st1 & H1 & H). injection H1 as _ <-.
    destruct (_ <? _).
    + apply bind_inv in H as (state & st1 & Hdec & H).
      destruct (decodeEscFrame_flag _ _ _ _ Hdec) as [[Hne ->] | [-> _]].
      * destruct state; [| contradiction |].
        -- injection H as _ <-. now left.
        -- destruct (Hage _ _ _ (debugCount_keeps_data p totalCrcErrorCount
                                   set_totalCrcErrorCount
                                   ltac:(reflexivity)) H) as [Hsame | Hinc].
           ++ now left.
           ++ right. now right.
      * assert (Hk : preserves escSensorData
                       (selectNextMotor p;;
                        modify (set_escSensorTriggerState ESC_SENSOR_TRIGGER_READY))).
        { apply preserves_bind; [apply selectNextMotor_keeps; reflexivity |].
          intros _. preserves_tac. }
        rewrite (Hk _ _ _ H).
        destruct (decodeEscFrame_ages _ _ _ _ Hdec) as [Hsame | Hreset].
        -- now left.
        -- right. now left.
    + destruct (Hage _ _ _ (debugCount_keeps_data p totalTimeoutCount
                              set_totalTimeoutCount
                              ltac:(reflexivity)) H) as [Hsame | Hinc].
      * now left.
      * right. now right.
Qed.

(** X12: staleness over a whole KISS polling cycle.  In the KISS protocol
    with the invalid sentinel within a byte, one call of [escSensorProcess]
    keeps every motor's age within [0 .. ESC_DATA_INVALID] and keeps the
    number of motor entries; the age of a motor other than the polled one
    does not change, and the polled motor's age stays, advances by exactly
    one, or is reset to 0. *)
Theorem escSensorProcess_KISS_staleness
        (p : platform) (currentTimeUs : Z) (rx : list Z) (st st' : globals)
        (u : unit) :
  escSensorProtocol p = ESC_SENSOR_PROTOCOL_KISS ->
  0 <= ESC_DATA_INVALID p <= 255 ->
  ages_within p st ->
  escSensorProcess p currentTimeUs rx st = Some (u, st') ->
  ages_within p st'
  /\ length (escSensorData st') = length (escSensorData st)
  /\ (forall (i : nat) (d d' : escSensorData_t),
        escSensorData st !! i = Some d ->
        escSensorData st' !! i = Some d' ->
        (i <> Z.to_nat (escSensorMotor st) -> dataAge d' = dataAge d)
        /\ (dataAge d' = dataAge d \/ dataAge d' = dataAge d + 1
            \/ dataAge d' = 0)).
Proof.
  intros Hproto Hinv Hages H.
  assert (Hgoal : forall ages' : list Z,
             map dataAge (escSensorData st') = ages' ->
             (ages' = map dataAge (escSensorData st)
              \/ ((exists d, at_index (escSensorData st) (escSensorMotor st) = Some d)
                  /\ ages' = <[Z.to_nat (escSensorMotor st) := 0]>
                               (map dataAge (escSensorData st)))
              \/ (exists d,
                    at_index (escSensorData st) (escSensorMotor st) = Some d
                    /\ dataAge d < ESC_DATA_INVALID p
                    /\ ages' = <[Z.to_nat (escSensorMotor st) :=
                                   uint8_t (dataAge d + 1)]>
                                 (map dataAge (escSensorData st)))) ->
             ages_within p st'
             /\ length (escSensorData st') = length (escSensorData st)
             /\ (forall (i : nat) (d d' : escSensorData_t),
                   escSensorData st !! i = Some d ->
                   escSensorData st' !! i = Some d' ->
                   (i <> Z.to_nat (escSensorMotor st) -> dataAge d' = dataAge d)
                   /\ (dataAge d' = dataAge d \/ dataAge d' = dataAge d + 1
                       \/ dataAge d' = 0))).
  { intros ages' Hages' Hcases.
    assert (Hlook : forall i d', escSensorData st' !! i = Some d' ->
                                 ages' !! i = Some (dataAge d')).
    { intros i d' Hd'. rewrite <- Hages'.
      change (map dataAge (escSensorData st') !! i)
        with ((dataAge <$> escSensorData st') !! i).
      now rewrite list_lookup_fmap, Hd'. }
    assert (Hlook0 : forall i d, escSensorData st !! i = Some d ->
                                 map dataAge (escSensorData st) !! i
                                 = Some (dataAge d)).
    { intros i d Hd.
      change (map dataAge (escSensorData st) !! i)
        with ((dataAge <$> escSensorData st) !! i).
      now rewrite list_lookup_fmap, Hd. }
    assert (Hlen : length (escSensorData st') = length (escSensorData st)).
    { rewrite <- (length_map dataAge (escSensorData st')), Hages'.
      destruct Hcases as [-> | [[_ ->] | (d & _ & _ & ->)]];
        rewrite ?length_insert; apply length_map. }
    unfold ages_within in *. rewrite Forall_lookup in Hages.
    split; [| split; [exact Hlen |]].
    - rewrite Forall_lookup. intros i d' Hd'.
      pose proof (Hlook i d' Hd') as Ha.
      destruct Hcases as [-> | [[_ ->] | (d & Hd & Hlt & ->)]].
      + change (map dataAge (escSensorData st) !! i)
          with ((dataAge <$> escSensorData st) !! i) in Ha.
        rewrite list_lookup_fmap in Ha.
        destruct (escSensorData st !! i) as [d0 |] eqn:Hd0; [| discriminate].
        injection Ha as Ha. rewrite <- Ha. exact (Hages i d0 Hd0).
      + destruct (decide (i = Z.to_nat (escSensorMotor st))) as [-> | Hne].
        * rewrite list_lookup_insert_eq in Ha
            by (rewrite length_map, <- Hlen; now apply lookup_lt_Some in Hd').
          injection Ha as <-. lia.
        * rewrite list_lookup_insert_ne in Ha by congruence.
          change (map dataAge (escSensorData st) !! i)
            with ((dataAge <$> escSensorData st) !! i) in Ha.
          rewrite list_lookup_fmap in Ha.
          destruct (escSensorData st !! i) as [d0 |] eqn:Hd0; [| discriminate].
          injection Ha as Ha. rewrite <- Ha. exact (Hages i d0 Hd0).
      + unfold at_index in Hd. destruct (escSensorMotor st <? 0); [discriminate |].
        pose proof (Hages _ _ Hd) as Hd_range.
        destruct (decide (i = Z.to_nat (escSensorMotor st))) as [-> | Hne].
        * rewrite list_lookup_insert_eq in Ha
            by (rewrite length_map, <- Hlen; now apply lookup_lt_Some in Hd').
          injection Ha as <-.
          rewrite uint8_t_id by (unfold is_byte; lia). lia.
        * rewrite list_lookup_insert_ne in Ha by congruence.
          change (map dataAge (escSensorData st) !! i)
            with ((dataAge <$> escSensorData st) !! i) in Ha.
          rewrite list_lookup_fmap in Ha.
          destruct (escSensorData st !! i) as [d0 |] eqn:Hd0; [| discriminate].
          injection Ha as Ha. rewrite <- Ha. exact (Hages i d0 Hd0).
    - intros i d d' Hd Hd'.
      pose proof (Hlook i d' Hd') as Ha. pose proof (Hlook0 i d Hd) as Ha0.
      destruct Hcases as [-> | [[_ ->] | (dm & Hdm & Hlt & ->)]].
      + rewrite Ha0 in Ha. injection Ha as Ha. split; [intros _ |]; auto.
      + destruct (decide (i = Z.to_nat (escSensorMotor st))) as [-> | Hne].
        * rewrite list_lookup_insert_eq in Ha
            by (rewrite length_map; now apply lookup_lt_Some in Hd).
          injection Ha as Ha. split; [contradiction | auto].
        * rewrite list_lookup_insert_ne in Ha by congruence.
          rewrite Ha0 in Ha. injection Ha as Ha. split; [intros _ |]; auto.
      + unfold at_index in Hdm. destruct (escSensorMotor st <? 0); [discriminate |].
        pose proof (Hages _ _ Hdm) as Hdm_range.
        destruct (decide (i = Z.to_nat (escSensorMotor st))) as [-> | Hne].
        * rewrite list_lookup_insert_eq in Ha
            by (rewrite length_map; now apply lookup_lt_Some in Hd).
          injection Ha as Ha. rewrite Hd in Hdm. injection Hdm as <-.
          rewrite uint8_t_id in Ha by (unfold is_byte; lia).
          split; [contradiction | auto].
        * rewrite list_lookup_insert_ne in Ha by congruence.
          rewrite Ha0 in Ha. injection Ha as Ha. split; [intros _ |]; auto. }
  unfold escSensorProcess in H. cbv zeta in H.
  apply bind_inv in H as (port & st1 & H1 & H). injection H1 as <- <-.
  destruct (negb (escSensorPort st) || negb (motorIsEnabled p)).
  { injection H as _ <-. apply (Hgoal _ eq_refl). now left. }
  rewrite Hproto in H.
  apply bind_inv in H as (u1 & st1 & Hkiss & Hloop).
  assert (Hkeep : map dataAge (escSensorData st')
                  = map dataAge (escSensorData st1)).
  { revert Hloop.
    apply (preserves_for_range (fun st => map dataAge (escSensorData st))).
    intros j. apply escSensorProcess_zeroInvalid_keeps_ages. }
  apply (Hgoal _ Hkeep).
  destruct (escSensorProcess_KISS_ages p _ st st1 u1 Hkiss)
    as [-> | [[Hd ->] | (d & Hd & Hlt & ->)]].
  - now left.
  - right. left. split; [exact Hd | reflexivity].
  - right. right. exists d. repeat split; assumption.
Qed.

Lemma escSensorProcess_KISS_staleness_witness :
  ages_within example_KISS (kiss_frame_decoded frame_nominal)
  /\ length (escSensorData (kiss_frame_decoded frame_nominal))
     = length (escSensorData (kiss_frame_received frame_nominal))
  /\ (forall (i : nat) (d d' : escSensorData_t),
        escSensorData (kiss_frame_received frame_nominal) !! i = Some d ->
        escSensorData (kiss_frame_decoded frame_nominal) !! i = Some d' ->
        (i <> Z.to_nat (escSensorMotor (kiss_frame_received frame_nominal)) ->
         dataAge d' = dataAge d)
        /\ (dataAge d' = dataAge d \/ dataAge d' = dataAge d + 1
            \/ dataAge d' = 0)).
Proof.
  apply (escSensorProcess_KISS_staleness
           example_KISS 5020000 [] (kiss_frame_received frame_nominal)
           (kiss_frame_decoded frame_nominal) tt).
  - reflexivity.
  - cbn. lia.
  - unfold ages_within. vm_compute.
    repeat (constructor; [split; discriminate |]). constructor.
  - vm_compute. reflexivity.
Defined.

(** ** The Hobbywing V4 framer *)

Lemma feedHWv4_app (a b : list Z) (st : globals) :
  feedHWv4 (a ++ b) st
  = match feedHWv4 a st with
    | Some (ra, st1) =>
        match feedHWv4 b st1 with
        | Some (rb, st2) => Some (ra ++ rb, st2)
        | None => None
        end
    | None => None
    end.
Proof.
  revert st. induction a as [| x a IH]; intros st.
  - change ([] ++ b) with b. change (feedHWv4 [] st) with (Some ([] : list bool, st)).
    cbv beta iota. destruct (feedHWv4 b st) as [[rb st2] |] eqn:Hb; reflexivity.
  - change ((x :: a) ++ b) with (x :: (a ++ b)). rewrite !feedHWv4_cons.
    destruct (processHWv4TelemetryStream x st) as [[ready st1] |]; [| reflexivity].
    rewrite IH.
    destruct (feedHWv4 a st1) as [[ra st2] |]; [| reflexivity].
    destruct (feedHWv4 b st2) as [[rb st3] |]; reflexivity.
Qed.

Lemma processHWv4TelemetryStream_skip (dataByte : Z) (st : globals) :
  0 < skipPackets st <= 255 ->
  processHWv4TelemetryStream dataByte st
  = Some (false, set_skipPackets (skipPackets st - 1) st).
Proof.
  intros Hskip. unfold processHWv4TelemetryStream. munfold.
  destruct (Z.gtb_spec (skipPackets st) 0); [| lia].
  rewrite uint8_t_id by (unfold is_byte; lia). reflexivity.
Qed.

Lemma feedHWv4_skip (bytes : list Z) (st : globals) :
  Z.of_nat (length bytes) <= skipPackets st <= 255 ->
  exists st',
    feedHWv4 bytes st = Some (replicate (length bytes) false, st')
    /\ skipPackets st' = skipPackets st - Z.of_nat (length bytes)
    /\ bytesRead st' = bytesRead st
    /\ telemetryData st' = telemetryData st.
Proof.
  revert st. induction bytes as [| dataByte bytes IH]; intros st Hskip.
  - exists st. split; [reflexivity |]. cbn [length]. split; [lia | now split].
  - cbn [length] in Hskip.
    destruct (IH (set_skipPackets (skipPackets st - 1) st))
      as (st' & Hrest & Hskip' & Hread' & Hdata'); [mproj; lia |].
    exists st'. rewrite feedHWv4_cons, processHWv4TelemetryStream_skip by lia.
    rewrite Hrest. split; [reflexivity |].
    revert Hskip' Hread' Hdata'. mproj. intros -> -> ->.
    cbn [length]. split; [lia | now split].
Qed.

Lemma processHWv4TelemetryStream_open (st : globals) :
  skipPackets st = 0 -> bytesRead st = 0 ->
  processHWv4TelemetryStream 0x9B st = Some (false, set_bytesRead 1 st).
Proof.
  intros Hskip Hread. unfold processHWv4TelemetryStream. munfold.
  rewrite Hskip, Hread. reflexivity.
Qed.

Lemma processHWv4TelemetryStream_store (dataByte : Z) (st : globals) :
  skipPackets st = 0 -> 1 <= bytesRead st <= 18 ->
  (bytesRead st = 1 -> dataByte <> 0x9B) ->
  length (telemetryData st) = 18%nat ->
  exists st',
    processHWv4TelemetryStream dataByte st = Some (bytesRead st =? 18, st')
    /\ telemetryData st'
       = <[Z.to_nat (bytesRead st - 1) := dataByte]> (telemetryData st)
    /\ bytesRead st' = (if bytesRead st =? 18 then 0 else bytesRead st + 1)
    /\ skipPackets st' = 0.
Proof.
  intros Hskip Hread Hfirst Hlen.
  unfold processHWv4TelemetryStream. munfold. rewrite Hskip.
  change (0 >? 0) with false. cbv iota.
  destruct (Z.eqb_spec (bytesRead st) 0) as [Hzero | _]; [lia |].
  cbn [andb].
  assert (Hsecond : (bytesRead st =? 1) && (dataByte =? 155) = false).
  { destruct (Z.eqb_spec (bytesRead st) 1) as [Hone | _]; [| reflexivity].
    destruct (Z.eqb_spec dataByte 155) as [Hsentinel | _]; [| reflexivity].
    now destruct (Hfirst Hone). }
  rewrite Hsecond.
  destruct (Z.gtb_spec (bytesRead st) 0); [| lia].
  unfold store_at. rewrite Hlen.
  destruct (Z.leb_spec 0 (bytesRead st - 1)); [| lia].
  destruct (Z.ltb_spec (bytesRead st - 1) (Z.of_nat 18)); [| lia].
  cbn [andb]. mproj.
  rewrite (uint8_t_id (bytesRead st + 1)) by (unfold is_byte; lia).
  destruct (Z.eqb_spec (bytesRead st + 1) 19) as [Hlast | Hmore].
  - destruct (Z.eqb_spec (bytesRead st) 18); [| lia].
    eexists. split; [reflexivity |]. mproj. split_all; reflexivity || assumption.
  - destruct (Z.eqb_spec (bytesRead st) 18); [lia |].
    eexists. split; [reflexivity |]. mproj. split_all; reflexivity || assumption.
Qed.

Lemma feedHWv4_store (bytes : list Z) (st : globals) :
  skipPackets st = 0 -> 1 <= bytesRead st ->
  bytesRead st + Z.of_nat (length bytes) <= 18 ->
  (bytesRead st = 1 -> head bytes <> Some 0x9B) ->
  length (telemetryData st) = 18%nat ->
  exists st',
    feedHWv4 bytes st = Some (replicate (length bytes) false, st')
    /\ telemetryData st'
       = take (Z.to_nat (bytesRead st - 1)) (telemetryData st) ++ bytes
         ++ drop (Z.to_nat (bytesRead st - 1) + length bytes) (telemetryData st)
    /\ bytesRead st' = bytesRead st + Z.of_nat (length bytes)
    /\ skipPackets st' = 0.
Proof.
  revert st.
  induction bytes as [| dataByte bytes IH]; intros st Hskip Hread Hfit Hfirst Hlen.
  - exists st. split; [reflexivity |]. cbn [length app].
    rewrite Nat.add_0_r, take_drop. split; [reflexivity |]. split; [lia | assumption].
  - cbn [length] in Hfit.
    destruct (processHWv4TelemetryStream_store dataByte st Hskip)
      as (st1 & Hstep & Hdata1 & Hread1 & Hskip1); [lia | | assumption |].
    { intros Hone Hsentinel. apply (Hfirst Hone). now rewrite Hsentinel. }
    destruct (Z.eqb_spec (bytesRead st) 18) as [Hfull | _]; [lia |].
    destruct (IH st1 Hskip1) as (st' & Hrest & Hdata' & Hread' & Hskip');
      [lia | lia | lia | rewrite Hdata1, length_insert; assumption |].
    exists st'. rewrite feedHWv4_cons, Hstep, Hrest.
    split; [reflexivity |]. split; [| split; [cbn [length]; lia | assumption]].
    rewrite Hdata', Hdata1, Hread1.
    replace (Z.to_nat (bytesRead st + 1 - 1)) with (S (Z.to_nat (bytesRead st - 1)))
      by lia.
    assert (Hin : (Z.to_nat (bytesRead st - 1) < length (telemetryData st))%nat)
      by lia.
    rewrite (take_S_r _ _ dataByte) by (now apply list_lookup_insert_eq).
    rewrite take_insert_ge by lia.
    rewrite drop_insert_lt by lia.
    rewrite <- app_assoc. cbn [length app].
    now rewrite Nat.add_succ_r.
Qed.

Lemma feedHWv4_packet (st : globals) (payload : list Z) :
  skipPackets st = 0 -> bytesRead st = 0 ->
  length (telemetryData st) = 18%nat -> length payload = 18%nat ->
  head payload <> Some 0x9B ->
  exists st',
    feedHWv4 (0x9B :: payload) st = Some (replicate 18 false ++ [true], st')
    /\ telemetryData st' = payload
    /\ bytesRead st' = 0
    /\ skipPackets st' = 0.
Proof.
  intros Hskip Hread Hlen Hpayload Hfirst.
  destruct (lookup_lt_is_Some_2 payload 17 ltac:(lia)) as [last Hlast].
  assert (Hsplit : payload = take 17 payload ++ [last]).
  { rewrite <- (take_S_r _ _ _ Hlast). symmetry. apply take_ge. lia. }
  destruct (feedHWv4_store (take 17 payload) (set_bytesRead 1 st))
    as (st1 & Hbody & Hdata1 & Hread1 & Hskip1).
  { mproj. assumption. }
  { mproj. lia. }
  { mproj. rewrite length_take. lia. }
  { intros _. destruct payload as [| b payload']; [discriminate |]. exact Hfirst. }
  { mproj. assumption. }
  revert Hdata1 Hread1. mproj. rewrite length_take, Hpayload.
  change (17 `min` 18)%nat with 17%nat.
  change (Z.to_nat (1 - 1)) with 0%nat. change (1 + Z.of_nat 17) with 18.
  rewrite take_0. cbn [app Nat.add]. intros Hdata1 Hread1.
  destruct (processHWv4TelemetryStream_store last st1 Hskip1)
    as (st2 & Hstep & Hdata2 & Hread2 & Hskip2); [lia | lia | |].
  { rewrite Hdata1, length_app, length_take, length_drop. lia. }
  rewrite Hread1 in Hstep, Hdata2, Hread2.
  change (18 =? 18) with true in Hstep, Hread2. cbv iota in Hread2.
  change (Z.to_nat (18 - 1)) with 17%nat in Hdata2.
  exists st2. rewrite feedHWv4_cons, processHWv4TelemetryStream_open by assumption.
  rewrite Hsplit at 1. rewrite feedHWv4_app, Hbody, feedHWv4_cons, Hstep.
  change (feedHWv4 [] st2) with (Some ([] : list bool, st2)).
  rewrite length_take, Hpayload. change (17 `min` 18)%nat with 17%nat.
  split; [reflexivity |]. split; [| split; assumption].
  transitivity (take 17 payload ++ [last]); [| now symmetry].
  rewrite Hdata2, Hdata1.
  rewrite insert_app_r_alt by (rewrite length_take; lia).
  rewrite length_take, Hpayload. change (17 - 17 `min` 18)%nat with 0%nat.
  destruct (drop 17 (telemetryData st)) as [| x rest] eqn:Hdrop.
  - apply (f_equal length) in Hdrop. rewrite length_drop in Hdrop.
    cbn [length] in Hdrop. lia.
  - apply (f_equal length) in Hdrop. rewrite length_drop in Hdrop.
    cbn [length] in Hdrop. destruct rest; [| cbn [length] in Hdrop; lia].
    reflexivity.
Qed.

(** X13: a Hobbywing packet is framed.  From the idle parser state the
    sentinel 0x9B followed by 18 bytes, the first of which is not the
    sentinel, is reported as one packet exactly on the last byte; the 18
    bytes are then in [telemetryData] in order, whatever it held before and
    even where later bytes equal the sentinel, and the parser is idle
    again. *)
Theorem processHWv4TelemetryStream_frames_packet
        (st : globals) (payload : list Z) :
  skipPackets st = 0 -> bytesRead st = 0 ->
  length (telemetryData st) = 18%nat -> length payload = 18%nat ->
  head payload <> Some 0x9B ->
  exists st',
    feedHWv4 (0x9B :: payload) st = Some (replicate 18 false ++ [true], st')
    /\ telemetryData st' = payload
    /\ bytesRead st' = 0
    /\ skipPackets st' = 0.
Proof. exact (feedHWv4_packet st payload). Qed.

Lemma processHWv4TelemetryStream_frames_packet_witness :
  exists st',
    feedHWv4 (0x9B :: 1 :: replicate 17 0x9B) hw_initialised
    = Some (replicate 18 false ++ [true], st')
    /\ telemetryData st' = 1 :: replicate 17 0x9B
    /\ bytesRead st' = 0
    /\ skipPackets st' = 0.
Proof.
  apply (processHWv4TelemetryStream_frames_packet
           hw_initialised (1 :: replicate 17 0x9B));
    try reflexivity.
  discriminate.
Defined.

(** X14: resynchronisation.  When the sentinel arrives twice in a row at the
    start of a read, the two sentinels and the 11 bytes after them are
    dropped whatever their values, and the packet that follows is framed as
    usual: of the 32 bytes only the last reports a packet, and
    [telemetryData] then holds the 18 bytes of that packet. *)
Theorem processHWv4TelemetryStream_resync_then_packet
        (st : globals) (dropped payload : list Z) :
  skipPackets st = 0 -> bytesRead st = 0 ->
  length (telemetryData st) = 18%nat ->
  length dropped = 11%nat -> length payload = 18%nat ->
  head payload <> Some 0x9B ->
  exists st',
    feedHWv4 ([0x9B; 0x9B] ++ dropped ++ 0x9B :: payload) st
    = Some (replicate 31 false ++ [true], st')
    /\ telemetryData st' = payload
    /\ bytesRead st' = 0
    /\ skipPackets st' = 0.
Proof.
  intros Hskip Hread Hlen Hdropped Hpayload Hfirst.
  set (st2 := set_skipPackets 11 (set_bytesRead 0 (set_bytesRead 1 st))).
  destruct (feedHWv4_skip dropped st2)
    as (st3 & Hdrop & Hskip3 & Hread3 & Hdata3); [subst st2; mproj; lia |].
  revert Hskip3 Hread3 Hdata3. subst st2. mproj. rewrite Hdropped.
  change (11 - Z.of_nat 11) with 0. intros Hskip3 Hread3 Hdata3.
  destruct (feedHWv4_packet st3 payload Hskip3 Hread3)
    as (st' & Hpacket & Hresult); [congruence | assumption | assumption |].
  exists st'. split; [| exact Hresult].
  change ([155; 155] ++ dropped ++ 155 :: payload)
    with (155 :: 155 :: (dropped ++ 155 :: payload)).
  rewrite feedHWv4_cons, processHWv4TelemetryStream_open by assumption.
  rewrite feedHWv4_cons, processHWv4TelemetryStream_collision;
    [| split; mproj; [lia | now left] | reflexivity].
  rewrite feedHWv4_app, Hdrop, Hpacket, Hdropped. reflexivity.
Qed.

Lemma processHWv4TelemetryStream_resync_then_packet_witness :
  exists st',
    feedHWv4 ([0x9B; 0x9B] ++ replicate 11 0x9B ++ 0x9B :: 1 :: replicate 17 0x9B)
             hw_initialised
    = Some (replicate 31 false ++ [true], st')
    /\ telemetryData st' = 1 :: replicate 17 0x9B
    /\ bytesRead st' = 0
    /\ skipPackets st' = 0.
Proof.
  apply (processHWv4TelemetryStream_resync_then_packet
           hw_initialised (replicate 11 0x9B) (1 :: replicate 17 0x9B));
    try reflexivity.
  discriminate.
Defined.

(** ** The Hobbywing temperature curve *)

Lemma SFleb_positive (m1 m2 : positive) (e1 e2 : Z) :
  SFleb (S754_finite false m1 e1) (S754_finite false m2 e2) = true
  <-> e1 < e2 \/ (e1 = e2 /\ (m1 <= m2)%positive).
Proof.
  unfold SFleb, SFcompare.
  change (Pos.compare_cont Eq m1 m2) with (m1 ?= m2)%positive.
  destruct (Z.compare_spec e1 e2) as [Heq | Hlt | Hgt].
  - destruct (Pos.compare_spec m1 m2) as [Hm | Hm | Hm]; split;
      try discriminate; try (intros _; right; split; [assumption | lia]);
      try reflexivity; intros [Hlt | [_ Hle]]; lia.
  - split; [intros _; now left | reflexivity].
  - split; [discriminate | intros [Hlt | [Heq _]]; lia].
Qed.

Lemma temperature_geb_trans (x y z : option float) :
  temperature_geb x y = true -> temperature_geb y z = true ->
  temperature_geb x z = true.
Proof.
  unfold temperature_geb.
  destruct x as [[| | | [] mx ex] |]; try discriminate.
  destruct y as [[| | | [] my ey] |]; try discriminate.
  destruct z as [[| | | [] mz ez] |]; try discriminate.
  rewrite !andb_true_iff, !SFleb_positive.
  intros [Hxy Hx] [Hyz _]. split; [lia | assumption].
Qed.

Lemma chainb_head {A : Type} (r : A -> A -> bool) (x : A) (l : list A) :
  (forall a b c, r a b = true -> r b c = true -> r a c = true) ->
  chainb r (x :: l) = true ->
  forall (j : nat) (b : A), l !! j = Some b -> r x b = true.
Proof.
  intros Htrans. revert x.
  induction l as [| y l IH]; intros x Hchain j b Hb; [discriminate |].
  change (chainb r (x :: y :: l)) with (r x y && chainb r (y :: l)) in Hchain.
  apply andb_true_iff in Hchain as [Hxy Hchain].
  destruct j as [| j].
  - injection Hb as <-. exact Hxy.
  - apply (Htrans x y b Hxy). exact (IH y Hchain j b Hb).
Qed.

Lemma chainb_tail {A : Type} (r : A -> A -> bool) (x : A) (l : list A) :
  chainb r (x :: l) = true -> chainb r l = true.
Proof.
  destruct l as [| y l]; [reflexivity |].
  change (chainb r (x :: y :: l)) with (r x y && chainb r (y :: l)).
  now intros [_ H]%andb_true_iff.
Qed.

Lemma chainb_ordered {A : Type} (r : A -> A -> bool) (l : list A) :
  (forall a b c, r a b = true -> r b c = true -> r a c = true) ->
  chainb r l = true ->
  forall (i j : nat) (a b : A),
    (i < j)%nat -> l !! i = Some a -> l !! j = Some b -> r a b = true.
Proof.
  intros Htrans. induction l as [| x l IH]; intros Hchain i j a b Hij Ha Hb;
    [discriminate |].
  destruct j as [| j]; [lia |].
  destruct i as [| i].
  - injection Ha as <-. exact (chainb_head r x l Htrans Hchain j b Hb).
  - apply (IH (chainb_tail r x l Hchain) i j a b); [lia | assumption..].
Qed.

Lemma calcTempHW_results_lookup (first : Z) (count k : nat) :
  (k < count)%nat ->
  calcTempHW_results first count !! k = Some (calcTempHW (first + Z.of_nat k)).
Proof.
  intros Hk. unfold calcTempHW_results.
  change (map ?f ?l) with (f <$> l).
  rewrite list_lookup_fmap, lookup_seq_lt by assumption. reflexivity.
Qed.

Lemma calcTempHW_results_chain :
  chainb temperature_geb (calcTempHW_results 1124 2705) = true.
Proof. vm_compute. reflexivity. Qed.

Lemma calcTempHW_results_bounded :
  forallb (fun t => temperature_geb t t) (calcTempHW_results 1124 2705) = true.
Proof. vm_compute. reflexivity. Qed.

Lemma calcTempHW_interpolated (a b : Z) :
  1124 <= a <= b -> b <= 3828 ->
  temperature_geb (calcTempHW a) (calcTempHW b) = true.
Proof.
  intros Ha Hb.
  pose proof (calcTempHW_results_lookup 1124 2705 (Z.to_nat (a - 1124))
                ltac:(lia)) as Hla.
  pose proof (calcTempHW_results_lookup 1124 2705 (Z.to_nat (b - 1124))
                ltac:(lia)) as Hlb.
  replace (1124 + Z.of_nat (Z.to_nat (a - 1124))) with a in Hla by lia.
  replace (1124 + Z.of_nat (Z.to_nat (b - 1124))) with b in Hlb by lia.
  destruct (Z.eq_dec a b) as [<- | Hne].
  - pose proof calcTempHW_results_bounded as Hall.
    rewrite forallb_forall in Hall. apply Hall.
    apply list_elem_of_In, (list_elem_of_lookup_2 _ _ _ Hla).
  - apply (chainb_ordered temperature_geb _ temperature_geb_trans
             calcTempHW_results_chain
             (Z.to_nat (a - 1124)) (Z.to_nat (b - 1124)) _ _ ltac:(lia) Hla Hlb).
Qed.

(** X15: the temperature curve is defined, bounded and monotone.  For raw
    readings [a <= b] in the range of [uint16_t], neither of them 1123,
    [calcTempHW] returns a value for both, the value for the larger reading
    is not above the value for the smaller one, and both lie between 0 and
    100. *)
Theorem calcTempHW_monotone (a b : Z) :
  0 <= a <= b -> b < 65536 -> a <> 1123 -> b <> 1123 ->
  exists ta tb : float,
    calcTempHW a = Some ta /\ calcTempHW b = Some tb
    /\ SFleb tb ta = true
    /\ SFleb (float_of_int 0) tb = true
    /\ SFleb ta (float_of_int 100) = true.
Proof.
  intros Ha Hb Hna Hnb.
  assert (Hhigh : forall x, 3828 < x -> calcTempHW x = Some (float_of_int 0)).
  { intros x Hx. unfold calcTempHW.
    destruct (Z.gtb_spec x 3828); [reflexivity | lia]. }
  assert (Hlow : forall x, x < 1123 -> calcTempHW x = Some (float_of_int 100)).
  { intros x Hx. unfold calcTempHW.
    destruct (Z.gtb_spec x 3828); [lia |].
    destruct (Z.ltb_spec x 1123); [reflexivity | lia]. }
  assert (Hmid : forall x, 1124 <= x <= 3828 ->
             exists m e, calcTempHW x = Some (S754_finite false m e)
                         /\ SFleb (S754_finite false m e) (float_of_int 100) = true).
  { intros x Hx. pose proof (calcTempHW_interpolated x x ltac:(lia) ltac:(lia)) as H.
    unfold temperature_geb in H.
    destruct (calcTempHW x) as [[| | | [] m e] |]; try discriminate.
    apply andb_true_iff in H as [_ H]. now exists m, e. }
  destruct (Z.lt_ge_cases a 1123) as [Hal | Hal].
  - rewrite (Hlow a Hal).
    destruct (Z.lt_ge_cases b 1123) as [Hbl | Hbl].
    + rewrite (Hlow b Hbl). eexists _, _. split_all; reflexivity.
    + destruct (Z.le_gt_cases b 3828) as [Hbm | Hbh].
      * destruct (Hmid b ltac:(lia)) as (m & e & -> & Hle).
        eexists _, _. split_all; try reflexivity. exact Hle.
      * rewrite (Hhigh b Hbh). eexists _, _. split_all; reflexivity.
  - destruct (Z.le_gt_cases a 3828) as [Ham | Hah].
    + destruct (Z.le_gt_cases b 3828) as [Hbm | Hbh].
      * pose proof (calcTempHW_interpolated a b ltac:(lia) Hbm) as H.
        unfold temperature_geb in H.
        destruct (calcTempHW a) as [[| | | [] ma ea] |]; try discriminate.
        destruct (calcTempHW b) as [[| | | [] mb eb] |]; try discriminate.
        apply andb_true_iff in H as [Hba Hle].
        eexists _, _. split_all; try reflexivity; assumption.
      * rewrite (Hhigh b Hbh).
        destruct (Hmid a ltac:(lia)) as (m & e & -> & Hle).
        eexists _, _. split_all; try reflexivity. exact Hle.
    + rewrite (Hhigh a Hah), (Hhigh b ltac:(lia)).
      eexists _, _. split_all; reflexivity.
Qed.

Lemma calcTempHW_monotone_witness :
  exists ta tb : float,
    calcTempHW 2000 = Some ta /\ calcTempHW 3000 = Some tb
    /\ SFleb tb ta = true
    /\ SFleb (float_of_int 0) tb = true
    /\ SFleb ta (float_of_int 100) = true.
Proof. apply (calcTempHW_monotone 2000 3000); lia. Defined.

(** ** The fields of a Hobbywing packet *)

Lemma lor_shiftl_add (hi lo n : Z) :
  0 <= n -> 0 <= lo < 2 ^ n -> Z.lor (Z.shiftl hi n) lo = hi * 2 ^ n + lo.
Proof.
  intros Hn Hlo.
  assert (Hdisjoint : Z.land (Z.shiftl hi n) lo = 0).
  { apply Z.bits_inj'. intros i Hi. rewrite Z.land_spec, Z.bits_0.
    destruct (Z.lt_ge_cases i n) as [Hlow | Hhigh].
    - now rewrite Z.shiftl_spec_low.
    - rewrite <- (Z.mod_small lo (2 ^ n)) by assumption.
      rewrite Z.mod_pow2_bits_high by lia. apply andb_false_r. }
  rewrite <- Z.lxor_lor, <- Z.add_nocarry_lxor by assumption.
  now rewrite Z.shiftl_mul_pow2.
Qed.

Lemma at_index_nth (td : list Z) (i : Z) :
  0 <= i < Z.of_nat (length td) ->
  at_index td i = Some (nth (Z.to_nat i) td 0).
Proof.
  intros Hi. unfold at_index.
  destruct (Z.ltb_spec i 0); [lia |].
  rewrite nth_lookup.
  destruct (lookup_lt_is_Some_2 td (Z.to_nat i) ltac:(lia)) as [x ->].
  reflexivity.
Qed.

Lemma all_from_spec (count : nat) (i : Z) (P : Z -> bool) :
  all_from count i P = true ->
  forall x, i <= x < i + Z.of_nat count -> P x = true.
Proof.
  revert i. induction count as [| count IH]; intros i Hall x Hx; [lia |].
  cbn [all_from] in Hall. destruct (P i) eqn:Hi; [| discriminate].
  destruct (Z.eq_dec x i) as [-> | Hne]; [exact Hi |].
  apply (IH (i + 1) Hall). lia.
Qed.

Lemma is_byte_nth (td : list Z) (i : nat) :
  Forall is_byte td -> is_byte (nth i td 0).
Proof.
  intros Hall. rewrite nth_lookup.
  destruct (td !! i) as [x |] eqn:Hx; [| unfold is_byte; cbn; lia].
  exact (proj1 (Forall_lookup _ _) Hall i x Hx).
Qed.

Lemma hw_voltage_conversion (raw : Z) :
  0 <= raw <= 37027 ->
  int_of_float (-32768) 32767
    (fmul (fdiv (float_of_int raw) (float_of_int 113)) (float_of_int 100))
  = Some (raw * 100 / 113).
Proof.
  intros Hraw.
  pose (P := fun raw =>
               match int_of_float (-32768) 32767
                       (fmul (fdiv (float_of_int raw) (float_of_int 113))
                             (float_of_int 100)) with
               | Some v => v =? raw * 100 / 113
               | None => false
               end).
  assert (H : P raw = true).
  { apply (all_from_spec (Z.to_nat 37028) 0); [vm_compute; reflexivity | lia]. }
  unfold P in H. destruct (int_of_float _ _ _) as [v |]; [| discriminate].
  apply Z.eqb_eq in H. now rewrite H.
Qed.

Lemma hw_current_conversion (raw : Z) :
  0 <= raw < 65536 ->
  exists c,
    int_of_float INT_MIN INT_MAX (fmul (calcCurrHW raw) (float_of_int 100))
    = Some c
    /\ (if raw >? 28 then (raw - 28) * 100 / 610 else 0) - 1 <= c
    /\ c <= (if raw >? 28 then (raw - 28) * 100 / 610 else 0)
    /\ 0 <= c.
Proof.
  intros Hraw.
  pose (P := fun raw =>
               match int_of_float INT_MIN INT_MAX
                       (fmul (calcCurrHW raw) (float_of_int 100)) with
               | Some c =>
                   ((if raw >? 28 then (raw - 28) * 100 / 610 else 0) - 1 <=? c)
                   && (c <=? (if raw >? 28 then (raw - 28) * 100 / 610 else 0))
                   && (0 <=? c)
               | None => false
               end).
  assert (H : P raw = true).
  { apply (all_from_spec (Z.to_nat 65536) 0); [vm_compute; reflexivity | lia]. }
  unfold P in H. destruct (int_of_float _ _ _) as [c |]; [| discriminate].
  apply andb_true_iff in H as [[Hlo Hhi]%andb_true_iff Hpos].
  exists c. split; [reflexivity |]. lia.
Qed.

Lemma hw_temperature_conversion (raw : Z) :
  0 <= raw < 65536 -> raw <> 1123 ->
  exists t degrees,
    calcTempHW raw = Some t
    /\ int_of_float (-128) 127 t = Some degrees
    /\ 0 <= degrees <= 100.
Proof.
  intros Hraw Hne.
  destruct (Z.lt_ge_cases raw 1123) as [Hlow | Hmid].
  { exists (float_of_int 100), 100. unfold calcTempHW.
    destruct (Z.gtb_spec raw 3828); [lia |].
    destruct (Z.ltb_spec raw 1123); [| lia].
    split; [reflexivity |]. split; [vm_compute; reflexivity | lia]. }
  destruct (Z.le_gt_cases raw 3828) as [Hin | Hhigh].
  2:{ exists (float_of_int 0), 0. unfold calcTempHW.
      destruct (Z.gtb_spec raw 3828); [| lia].
      split; [reflexivity |]. split; [vm_compute; reflexivity | lia]. }
  pose (P := fun k =>
               match calcTempHW (1124 + k) with
               | Some t =>
                   match int_of_float (-128) 127 t with
                   | Some degrees => (0 <=? degrees) && (degrees <=? 100)
                   | None => false
                   end
               | None => false
               end).
  assert (H : P (raw - 1124) = true).
  { apply (forall_below 2705); [vm_compute; reflexivity | lia]. }
  unfold P in H. replace (1124 + (raw - 1124)) with raw in H by lia.
  destruct (calcTempHW raw) as [t |]; [| discriminate].
  destruct (int_of_float (-128) 127 t) as [degrees |] eqn:Hdeg; [| discriminate].
  exists t, degrees. split; [reflexivity |]. split; [exact Hdeg | lia].
Qed.

Lemma int_of_float_range (lo hi : Z) (f : float) (z : Z) :
  int_of_float lo hi f = Some z -> lo <= z <= hi.
Proof.
  unfold int_of_float. destruct (float_trunc f) as [t |]; [| discriminate].
  cbn [mbind option_bind].
  destruct (Z.leb_spec lo t), (Z.leb_spec t hi); cbn [andb];
    try discriminate.
  intros [= <-]. lia.
Qed.

(** X16: what a Hobbywing packet stores.  With 18 bytes in [telemetryData],
    a voltage field of at most 37027, a temperature field other than 1123
    and an RPM field whose hundredth part converts to [int16_t], the block
    of [escSensorProcess] that handles a packet is defined and rewrites the
    entry of the current motor only: the age becomes 0, the voltage is
    exactly [field * 100 / 113], the current is [(field - 28) * 100 / 610]
    (0 up to a field of 28) or one less and never negative, the temperature
    lies in 0..100, the consumption is kept.  Where the rpm debug output is
    evaluated (motor index below 4) the pole count is taken within 2..255,
    so that its division has a value. *)
Theorem escSensorProcess_HWpacket_fields
        (p : platform) (st : globals) (d : escSensorData_t) (r : Z) :
  length (telemetryData st) = 18%nat ->
  Forall is_byte (telemetryData st) ->
  at_index (escSensorData st) (escSensorMotor st) = Some d ->
  hw_field16 (telemetryData st) 10 <= 37027 ->
  hw_field16 (telemetryData st) 14 <> 1123 ->
  int_of_float (-32768) 32767
    (fdiv (float_of_int (hw_field24 (telemetryData st) 7)) (float_of_int 100))
  = Some r ->
  (escSensorMotor st < 4 -> debugSetEvaluatesRpm p = true ->
   2 <= motorPoleCount p <= 255) ->
  exists st' d',
    escSensorProcess_HWpacket p st = Some (tt, st')
    /\ st' = set_escSensorData
               (<[Z.to_nat (escSensorMotor st) := d']> (escSensorData st)) st
    /\ dataAge d' = 0
    /\ voltage d' = hw_field16 (telemetryData st) 10 * 100 / 113
    /\ (let exact :=
          if hw_field16 (telemetryData st) 12 >? 28
          then (hw_field16 (telemetryData st) 12 - 28) * 100 / 610 else 0 in
        exact - 1 <= current d' <= exact /\ 0 <= current d')
    /\ 0 <= temperature d' <= 100
    /\ rpm d' = r
    /\ consumption d' = consumption d.
Proof.
  intros Hlen Hbytes Hd Hvolt Htemp Hrpm Hpoles.
  set (td := telemetryData st) in *.
  assert (Hb : forall i, is_byte (nth i td 0))
    by (intros i; now apply is_byte_nth).
  assert (Hw : forall i, 0 <= hw_field16 td i < 65536).
  { intros i. unfold hw_field16.
    pose proof (Hb i) as Hhi. pose proof (Hb (i + 1)%nat) as Hlo.
    unfold is_byte in Hhi, Hlo. lia. }
  destruct (hw_current_conversion (hw_field16 td 12) (Hw 12%nat))
    as (c & Hc & Hclo & Hchi & Hcpos).
  destruct (hw_temperature_conversion (hw_field16 td 14) (Hw 14%nat) Htemp)
    as (t & degrees & Ht & Hdeg & Hrange).
  pose proof (hw_voltage_conversion (hw_field16 td 10)
                ltac:(pose proof (Hw 10%nat); lia)) as Hv.
  eexists _, _. split.
  - unfold escSensorProcess_HWpacket. munfold. fold td.
    rewrite (at_index_nth td 7), (at_index_nth td 8), (at_index_nth td 9),
      (at_index_nth td 10), (at_index_nth td 11), (at_index_nth td 12),
      (at_index_nth td 13), (at_index_nth td 14), (at_index_nth td 15) by lia.
    cbv zeta.
    change (Z.to_nat 7) with 7%nat. change (Z.to_nat 8) with 8%nat.
    change (Z.to_nat 9) with 9%nat. change (Z.to_nat 10) with 10%nat.
    change (Z.to_nat 11) with 11%nat. change (Z.to_nat 12) with 12%nat.
    change (Z.to_nat 13) with 13%nat. change (Z.to_nat 14) with 14%nat.
    change (Z.to_nat 15) with 15%nat.
    rewrite <- Z.lor_assoc, !big_endian_16 by apply Hb.
    rewrite (lor_shiftl_add (nth 7 td 0) (nth 8 td 0 * 256 + nth 9 td 0) 16);
      [| lia
       | change (2 ^ 16) with 65536; pose proof (Hb 8%nat) as H8;
         pose proof (Hb 9%nat) as H9; unfold is_byte in H8, H9; lia].
    change (2 ^ 16) with 65536.
    assert (H24 : uint32_t (nth 7 td 0 * 65536 + (nth 8 td 0 * 256 + nth 9 td 0))
                  = hw_field24 td 7).
    { unfold hw_field24, uint32_t.
      pose proof (Hb 7%nat). pose proof (Hb 8%nat). pose proof (Hb 9%nat).
      unfold is_byte in *. change (7 + 1)%nat with 8%nat.
      change (7 + 2)%nat with 9%nat. rewrite Z.mod_small; lia. }
    rewrite H24.
    change (nth 10 td 0 * 256 + nth 11 td 0) with (hw_field16 td 10).
    change (nth 12 td 0 * 256 + nth 13 td 0) with (hw_field16 td 12).
    change (nth 14 td 0 * 256 + nth 15 td 0) with (hw_field16 td 14).
    rewrite !(Z.mod_small _ 65536 (Hw _) : uint16_t _ = _).
    rewrite Ht, Hdeg, Hv, Hc, Hrpm, Hd.
    rewrite (store_at_run _ _ d _ Hd).
    apply (debugEscSensorRpm_run p
             {| dataAge := 0; temperature := degrees;
                voltage := hw_field16 td 10 * 100 / 113; current := c;
                consumption := consumption d; rpm := r |}).
    + exact Hpoles.
    + mproj. now apply (at_index_insert_eq _ _ d).
    + cbn [rpm]. exact (int_of_float_range _ _ _ _ Hrpm).
  - split; [reflexivity |].
    cbn [dataAge voltage current temperature rpm consumption]. cbv zeta.
    split_all; try reflexivity; lia.
Qed.

Lemma escSensorProcess_HWpacket_fields_witness :
  exists st' d',
    escSensorProcess_HWpacket example_HW hw_packet_received = Some (tt, st')
    /\ st' = set_escSensorData
               (<[Z.to_nat (escSensorMotor hw_packet_received) := d']>
                  (escSensorData hw_packet_received)) hw_packet_received
    /\ dataAge d' = 0
    /\ voltage d' = hw_field16 (telemetryData hw_packet_received) 10 * 100 / 113
    /\ (let exact :=
          if hw_field16 (telemetryData hw_packet_received) 12 >? 28
          then (hw_field16 (telemetryData hw_packet_received) 12 - 28) * 100 / 610
          else 0 in
        exact - 1 <= current d' <= exact /\ 0 <= current d')
    /\ 0 <= temperature d' <= 100
    /\ rpm d' = 200
    /\ consumption d' = consumption (set_dataAge 255 escSensorData_zero).
Proof.
  apply (escSensorProcess_HWpacket_fields
           example_HW hw_packet_received (set_dataAge 255 escSensorData_zero)
           200).
  - reflexivity.
  - repeat constructor; unfold is_byte; lia.
  - vm_compute. reflexivity.
  - vm_compute. discriminate.
  - vm_compute. discriminate.
  - vm_compute. reflexivity.
  - intros _ _. cbn. lia.
Defined.

(** ** Initialisation and start-up *)

Lemma escSensorInit_loop (v : Z) (k : nat) :
  forall (st : globals) (pre rest : list escSensorData_t),
    escSensorData st = pre ++ rest ->
    (k <= length rest)%nat ->
    for_range k (Z.of_nat (length pre))
              (fun i => motorUpdate i (set_dataAge v)) st
    = Some (tt,
            set_escSensorData
              (pre ++ map (set_dataAge v) (take k rest) ++ drop k rest) st).
Proof.
  induction k as [| k IH]; intros st pre rest Hdata Hk.
  - change (take 0 rest) with (@nil escSensorData_t).
    change (drop 0 rest) with rest. cbn [for_range map app].
    rewrite <- Hdata. destruct st. reflexivity.
  - destruct rest as [| d rest]; [cbn in Hk; lia |]. cbn [length] in Hk.
    assert (Hd : at_index (escSensorData st) (Z.of_nat (length pre)) = Some d).
    { rewrite Hdata. apply at_index_app_length. }
    cbn [for_range]. unfold mbind at 1, M_bind at 1.
    rewrite (motorUpdate_run _ _ d st Hd).
    rewrite Nat2Z.id, Hdata.
    rewrite insert_app_r_alt by lia. rewrite Nat.sub_diag.
    cbn [insert list_insert].
    replace (Z.of_nat (length pre) + 1)
      with (Z.of_nat (length (pre ++ [set_dataAge v d])))
      by (rewrite length_app; cbn [length]; lia).
    rewrite (IH _ (pre ++ [set_dataAge v d]) rest).
    + mproj. change (take (S k) (d :: rest)) with (d :: take k rest).
      change (drop (S k) (d :: rest)) with (drop k rest). cbn [map].
      rewrite <- app_assoc. reflexivity.
    + mproj. now rewrite <- app_assoc.
    + lia.
Qed.

(** X17: KISS initialisation marks every motor as having no data.  With a
    serial port configured and the [escSensorData] array of
    [MAX_SUPPORTED_MOTORS] entries, [escSensorInit] is defined, returns
    whether the port was opened, and sets the age of every entry to
    [ESC_DATA_INVALID] without touching the other fields; as the sentinel
    lies above [ESC_BATTERY_AGE_MAX], [isEscSensorValid] then answers false
    for every motor, whether or not the port was opened. *)
Theorem escSensorInit_KISS_invalidates
        (p : platform) (opened : bool) (st : globals) :
  escSensorProtocol p = ESC_SENSOR_PROTOCOL_KISS ->
  length (escSensorData st) = Z.to_nat (MAX_SUPPORTED_MOTORS p) ->
  ESC_BATTERY_AGE_MAX p < ESC_DATA_INVALID p <= 255 ->
  0 <= ESC_DATA_INVALID p ->
  getMotorCount p <= MAX_SUPPORTED_MOTORS p ->
  exists st',
    escSensorInit p true opened st = Some (opened, st')
    /\ st' = set_escSensorData
               (map (set_dataAge (ESC_DATA_INVALID p)) (escSensorData st))
               (set_escSensorPort opened st)
    /\ forall i, 0 <= i < getMotorCount p ->
                 isEscSensorValid p i st' = Some (false, st').
Proof.
  intros Hproto Hlen Hsentinel Hnonneg Hcount.
  eexists. split; [| split; [reflexivity |]].
  - unfold escSensorInit. cbn [negb]. rewrite Hproto.
    unfold mbind at 1, M_bind at 1. unfold mbind at 1, M_bind at 1.
    unfold modify at 1.
    rewrite (escSensorInit_loop _ _ (set_escSensorPort opened st) []
               (escSensorData st) eq_refl)
      by (rewrite Hlen; lia).
    mproj. cbn [app]. rewrite <- Hlen, firstn_all, drop_all, app_nil_r.
    rewrite uint8_t_id by (unfold is_byte; lia).
    reflexivity.
  - intros i Hi. unfold isEscSensorValid. munfold. mproj.
    destruct opened; cbn [negb]; [| reflexivity].
    rewrite Hproto. destruct (Z.ltb_spec i (getMotorCount p)); [| lia].
    unfold at_index. destruct (Z.ltb_spec i 0); [lia |]. mproj.
    change (map (set_dataAge (ESC_DATA_INVALID p)) (escSensorData st))
      with (set_dataAge (ESC_DATA_INVALID p) <$> escSensorData st).
    rewrite list_lookup_fmap.
    destruct (lookup_lt_is_Some_2 (escSensorData st) (Z.to_nat i) ltac:(lia))
      as [d ->].
    cbn [fmap option_fmap option_map set_dataAge dataAge].
    destruct (Z.leb_spec (ESC_DATA_INVALID p) (ESC_BATTERY_AGE_MAX p)); [lia |].
    reflexivity.
Qed.

Lemma escSensorInit_KISS_invalidates_witness :
  exists st',
    escSensorInit example_KISS true true (globals_init example_KISS)
    = Some (true, st')
    /\ st' = set_escSensorData
               (map (set_dataAge (ESC_DATA_INVALID example_KISS))
                    (escSensorData (globals_init example_KISS)))
               (set_escSensorPort true (globals_init example_KISS))
    /\ forall i, 0 <= i < getMotorCount example_KISS ->
                 isEscSensorValid example_KISS i st' = Some (false, st').
Proof.
  apply (escSensorInit_KISS_invalidates example_KISS true
           (globals_init example_KISS)).
  - reflexivity.
  - reflexivity.
  - cbn. lia.
  - cbn. lia.
  - cbn. lia.
Defined.

(** X18: the start-up delay.  In the STARTUP state the KISS branch of
    [escSensorProcess] changes nothing before 5000 ms have passed and moves
    to READY, changing nothing else, from then on; and a call made in
    another state never ends in STARTUP. *)
Theorem escSensorProcess_KISS_startup
        (p : platform) (currentTimeMs : Z) (st : globals) :
  (escSensorTriggerState st = ESC_SENSOR_TRIGGER_STARTUP ->
   escSensorProcess_KISS p currentTimeMs st
   = Some (tt, if currentTimeMs >=? ESC_BOOTTIME
               then set_escSensorTriggerState ESC_SENSOR_TRIGGER_READY st
               else st))
  /\ (forall (u : unit) (st' : globals),
        escSensorProcess_KISS p currentTimeMs st = Some (u, st') ->
        escSensorTriggerState st <> ESC_SENSOR_TRIGGER_STARTUP ->
        escSensorTriggerState st' <> ESC_SENSOR_TRIGGER_STARTUP).
Proof.
  split.
  - intros Htrig. unfold escSensorProcess_KISS. munfold. rewrite Htrig.
    destruct (currentTimeMs >=? ESC_BOOTTIME); reflexivity.
  - intros u st' H Hne. unfold escSensorProcess_KISS in H.
    apply bind_inv in H as (trigger & st1 & H1 & H). injection H1 as <- <-.
    destruct (escSensorTriggerState st) eqn:Htrig; [contradiction | |].
    + unfold startEscDataRead in H. munfold in H. injection H as _ <-.
      mproj. discriminate.
    + apply bind_inv in H as (timestamp & st1 & H1 & H). injection H1 as _ <-.
      assert (Htail : forall (count : M unit) (s0 s1 : globals) (v : unit),
                 preserves escSensorTriggerState count ->
                 (selectNextMotor p;;
                  modify (set_escSensorTriggerState ESC_SENSOR_TRIGGER_READY);;
                  count) s0 = Some (v, s1) ->
                 escSensorTriggerState s1 = ESC_SENSOR_TRIGGER_READY).
      { intros count s0 s1 v Hcount Hrun.
        apply bind_inv in Hrun as (u0 & s2 & _ & Hrun).
        apply bind_inv in Hrun as (u1 & s3 & Hset & Hrun).
        injection Hset as _ <-.
        rewrite (Hcount _ _ _ Hrun). reflexivity. }
      assert (Hdebug : forall counter set,
                 (forall v s, escSensorTriggerState (set v s)
                              = escSensorTriggerState s) ->
                 preserves escSensorTriggerState (debugCount p counter set)).
      { intros counter set Hset s0 v s1 Hrun. rewrite debugCount_run in Hrun.
        injection Hrun as _ <-.
        destruct (debugSetEvaluates p); [apply Hset | reflexivity]. }
      assert (Hret : preserves escSensorTriggerState (mret tt : M unit)).
      { intros s0 v s1 Hrun. now injection Hrun as _ <-. }
      destruct (_ <? _).
      * apply bind_inv in H as (state & st1 & Hdec & H).
        destruct state.
        -- injection H as _ <-.
           destruct (decodeEscFrame_flag _ _ _ _ Hdec) as [[_ ->] | [Heq _]];
             [congruence | discriminate].
        -- apply bind_inv in H as (u0 & st2 & _ & H). injection H as _ <-.
           mproj. discriminate.
        -- apply bind_inv in H as (u1 & st2 & _ & H).
           rewrite (Htail _ _ _ _
                      (Hdebug totalCrcErrorCount set_totalCrcErrorCount
                              ltac:(reflexivity)) H).
           discriminate.
      * apply bind_inv in H as (u1 & st2 & _ & H).
        rewrite (Htail _ _ _ _
                   (Hdebug totalTimeoutCount set_totalTimeoutCount
                           ltac:(reflexivity)) H).
        discriminate.
Qed.

Lemma escSensorProcess_KISS_startup_witness :
  escSensorProcess_KISS example_KISS 6000 (globals_init example_KISS)
  = Some (tt, set_escSensorTriggerState ESC_SENSOR_TRIGGER_READY
                (globals_init example_KISS))
  /\ escSensorTriggerState
       (state_after (escSensorProcess_KISS example_KISS 5020)
                    (kiss_frame_received frame_nominal))
     <> ESC_SENSOR_TRIGGER_STARTUP.
Proof.
  split.
  - apply (proj1 (escSensorProcess_KISS_startup
                    example_KISS 6000 (globals_init example_KISS))).
    reflexivity.
  - apply (proj2 (escSensorProcess_KISS_startup
                    example_KISS 5020 (kiss_frame_received frame_nominal)) tt).
    + vm_compute. reflexivity.
    + vm_compute. discriminate.
Defined.

(** ** The invalidation flag over whole runs *)






Section KeepsPortAndLength.
Context (p : platform).

Lemma motorUpdate_keeps_port (i : Z) (g : escSensorData_t -> escSensorData_t) :
  preserves escSensorPort (motorUpdate i g).
Proof. unfold motorUpdate. preserves_tac. Qed.

Lemma motorUpdate_keeps_length (i : Z) (g : escSensorData_t -> escSensorData_t) :
  preserves (fun st => length (escSensorData st)) (motorUpdate i g).
Proof.
  intros st u st' H. apply motorUpdate_inv in H as (d & _ & ->).
  mproj. apply length_insert.
Qed.

#[local] Hint Resolve motorUpdate_keeps_port motorUpdate_keeps_length
  : preserves.







End KeepsPortAndLength.
















